(** * ShadowHorn: the correlation and schema-normalisation engine

    A shallow embedding of [backend/openai_correlation.py] (schema coercion,
    profile classification, the two correlation algorithms, backend
    selection with retry and fallback, the deep-clean orchestrator) and of
    the risk derivation and report helpers of
    [backend/comprehensive_report.py], followed by the properties the
    specification states about them and by further properties of the
    code.

    Python values are JSON values; a Python call that can raise is a
    computation in the exception monad [M]; I/O (MongoDB, the OpenRouter
    client, the local FLAN model, the clock, sleeping) is an explicit
    environment and an explicit event trace. *)

From Stdlib Require Import String Ascii List ZArith QArith Bool Lia DecimalString.
From Stdlib Require Import Permutation.
Import ListNotations.
Open Scope string_scope.
Open Scope Z_scope.

(* ===================================================================== *)
(** * Python values                                                      *)
(* ===================================================================== *)

(** Python's [float] is left abstract: the code only converts floats to
    text, tests them for zero, compares and adds them. *)
Class PyFloat : Type := {
  float : Type;
  float_str : float -> string;                        (* str(x), repr(x) *)
  float_truth : float -> bool;                        (* bool(x) *)
  float_cmp : float -> float -> option comparison;    (* None: unordered *)
  float_cmpZ : float -> Z -> option comparison;       (* against an int *)
  float_add : float -> float -> float;
  float_addZ : float -> Z -> float;                   (* x + n, n + x *)
  float_fmt_comma : float -> string                   (* format(x, ",") *)
}.

Section Values.
Context {F : PyFloat}.

Unset Elimination Schemes.
Inductive json : Type :=
| JNull
| JBool (b : bool)
| JInt (z : Z)
| JFloat (x : float)
| JStr (s : string)
| JList (l : list json)
| JDict (d : list (string * json)).
Set Elimination Schemes.

(** A [dict] keeps its keys in insertion order, as Python's does. *)
Definition dict : Type := list (string * json).

End Values.

(** Exceptions, by class.  [LibraryError] is whatever the OpenAI client or
    the MongoDB driver raises, with the text [str(e)] gives. *)
Inductive exn : Type :=
| AttributeError
| TypeError
| KeyError
| ValueError
| LibraryError (msg : string).

Inductive M (A : Type) : Type :=
| Ok (a : A)
| Raise (e : exn).
Arguments Ok {A} a.
Arguments Raise {A} e.

Definition bind {A B : Type} (c : M A) (k : A -> M B) : M B :=
  match c with
  | Ok a => k a
  | Raise e => Raise e
  end.

(** [try: c  except Exception: h] *)
Definition try_except {A : Type} (c : M A) (h : exn -> M A) : M A :=
  match c with
  | Ok a => Ok a
  | Raise e => h e
  end.

Declare Scope py_scope.
Delimit Scope py_scope with py.
Notation "x <- c ;; k" := (bind c (fun x => k))
  (at level 61, c at next level, right associativity) : py_scope.
Notation "c ;;; k" := (bind c (fun _ => k))
  (at level 61, right associativity) : py_scope.
Open Scope py_scope.

(* ===================================================================== *)
(** * Strings                                                            *)
(* ===================================================================== *)

(** Strings are sequences of 8-bit characters; the case mappings act on the
    ASCII letters. *)
Module Str.

Definition is_upper (c : ascii) : bool :=
  let n := nat_of_ascii c in (65 <=? n)%nat && (n <=? 90)%nat.
Definition is_lower (c : ascii) : bool :=
  let n := nat_of_ascii c in (97 <=? n)%nat && (n <=? 122)%nat.
Definition lower_char (c : ascii) : ascii :=
  if is_upper c then ascii_of_nat (nat_of_ascii c + 32) else c.
Definition upper_char (c : ascii) : ascii :=
  if is_lower c then ascii_of_nat (nat_of_ascii c - 32) else c.

Fixpoint map_chars (f : ascii -> ascii) (s : string) : string :=
  match s with
  | EmptyString => EmptyString
  | String c s' => String (f c) (map_chars f s')
  end.

(** [s.lower()], [s.upper()], [s.capitalize()] *)
Definition lower : string -> string := map_chars lower_char.
Definition upper : string -> string := map_chars upper_char.
Definition capitalize (s : string) : string :=
  match s with
  | EmptyString => EmptyString
  | String c s' => String (upper_char c) (lower s')
  end.

(** Whitespace as [str.strip()] and the regex class [\s] see it. *)
Definition is_space (c : ascii) : bool :=
  let n := nat_of_ascii c in
  ((9 <=? n)%nat && (n <=? 13)%nat) || ((28 <=? n)%nat && (n <=? 32)%nat).

Fixpoint lstrip (s : string) : string :=
  match s with
  | EmptyString => EmptyString
  | String c s' => if is_space c then lstrip s' else s
  end.

Fixpoint rstrip (s : string) : string :=
  match s with
  | EmptyString => EmptyString
  | String c s' =>
      match rstrip s' with
      | EmptyString => if is_space c then EmptyString else String c EmptyString
      | r => String c r
      end
  end.

Definition strip (s : string) : string := rstrip (lstrip s).

(** [needle in hay] *)
Fixpoint contains (needle hay : string) : bool :=
  prefix needle hay ||
  match hay with
  | EmptyString => false
  | String _ hay' => contains needle hay'
  end.

(** [sep.join(parts)] *)
Fixpoint join (sep : string) (parts : list string) : string :=
  match parts with
  | [] => EmptyString
  | [p] => p
  | p :: ps => p ++ sep ++ join sep ps
  end.

(** [s[:n]] *)
Definition take (n : nat) (s : string) : string := substring 0 n s.

(** [str(n)] for an int *)
Definition of_Z (z : Z) : string := NilZero.string_of_int (Z.to_int z).

(** [format(n, ",")] for an int: groups of three digits from the right. *)
Fixpoint group3 (digits_rev : list ascii) (n : nat) : list ascii :=
  match digits_rev with
  | [] => []
  | c :: r =>
      match n with
      | 3%nat => match r with
                 | [] => [c]
                 | _ => c :: ","%char :: group3 r 1
                 end
      | _ => c :: group3 r (S n)
      end
  end.

Definition of_Z_comma (z : Z) : string :=
  let digits := list_ascii_of_string (of_Z (Z.abs z)) in
  let grouped := string_of_list_ascii (rev (group3 (rev digits) 1)) in
  if (z <? 0)%Z then String "-" grouped else grouped.

(** [sorted(names)] on strings: a stable insertion sort by code point order. *)
Fixpoint insert_sorted (x : string) (l : list string) : list string :=
  match l with
  | [] => [x]
  | y :: l' => if String.leb x y then x :: l else y :: insert_sorted x l'
  end.

Definition sorted (l : list string) : list string :=
  fold_right insert_sorted [] l.

Definition mem (x : string) (l : list string) : bool :=
  existsb (String.eqb x) l.

(** [repr(s)]: quote selection and escapes. *)
Definition squote : ascii := ascii_of_nat 39.
Definition dquote : ascii := ascii_of_nat 34.
Definition backslash : ascii := ascii_of_nat 92.

Fixpoint has_char (c : ascii) (s : string) : bool :=
  match s with
  | EmptyString => false
  | String c' s' => Ascii.eqb c c' || has_char c s'
  end.

Definition hex_digit (n : nat) : ascii :=
  if (n <? 10)%nat then ascii_of_nat (48 + n) else ascii_of_nat (87 + n).

Definition escape_char (q c : ascii) : string :=
  let n := nat_of_ascii c in
  if Ascii.eqb c backslash then String backslash (String backslash EmptyString)
  else if Ascii.eqb c q then String backslash (String q EmptyString)
  else if (n =? 10)%nat then String backslash "n"
  else if (n =? 13)%nat then String backslash "r"
  else if (n =? 9)%nat then String backslash "t"
  else if (n <? 32)%nat || (n =? 127)%nat then
    String backslash
      (String "x" (String (hex_digit (n / 16)) (String (hex_digit (n mod 16)) EmptyString)))
  else String c EmptyString.

Fixpoint escape (q : ascii) (s : string) : string :=
  match s with
  | EmptyString => EmptyString
  | String c s' => escape_char q c ++ escape q s'
  end.

Definition repr (s : string) : string :=
  let q := if has_char squote s && negb (has_char dquote s) then dquote else squote in
  String q (escape q s ++ String q EmptyString).

(** The characters of a string, each as a one-character string. *)
Fixpoint chars (s : string) : list string :=
  match s with
  | EmptyString => []
  | String c s' => String c EmptyString :: chars s'
  end.

End Str.

(* ===================================================================== *)
(** * Python built-ins on JSON values                                    *)
(* ===================================================================== *)

Section Builtins.
Context {F : PyFloat}.

Definition is_dict (v : json) : bool := match v with JDict _ => true | _ => false end.
Definition is_list (v : json) : bool := match v with JList _ => true | _ => false end.
Definition is_str (v : json) : bool := match v with JStr _ => true | _ => false end.
Definition is_bool (v : json) : bool := match v with JBool _ => true | _ => false end.
Definition is_none (v : json) : bool := match v with JNull => true | _ => false end.

(** [bool(v)] *)
Definition truthy (v : json) : bool :=
  match v with
  | JNull => false
  | JBool b => b
  | JInt z => negb (z =? 0)
  | JFloat x => float_truth x
  | JStr s => negb (String.eqb s EmptyString)
  | JList l => match l with [] => false | _ => true end
  | JDict d => match d with [] => false | _ => true end
  end.

(** [a or b], both already evaluated *)
Definition py_or (a b : json) : json := if truthy a then a else b.

(** ** Dictionaries *)

Fixpoint dict_get (d : dict) (k : string) : option json :=
  match d with
  | [] => None
  | (k', v) :: d' => if String.eqb k' k then Some v else dict_get d' k
  end.

(** [d[k] = v]: an existing key keeps its place. *)
Fixpoint dict_set (d : dict) (k : string) (v : json) : dict :=
  match d with
  | [] => [(k, v)]
  | (k', v') :: d' =>
      if String.eqb k' k then (k, v) :: d' else (k', v') :: dict_set d' k v
  end.

Definition dict_keys (d : dict) : list string := map fst d.

(** [k in d] *)
Definition dict_has (d : dict) (k : string) : bool :=
  match dict_get d k with Some _ => true | None => false end.

(** [d.setdefault(k, v)], for its effect on [d] *)
Definition dict_setdefault (d : dict) (k : string) (v : json) : dict :=
  if dict_has d k then d else dict_set d k v.

Definition dict_lookup (d : dict) (k : string) (dflt : json) : json :=
  match dict_get d k with
  | Some x => x
  | None => dflt
  end.

(** [v.get(k, dflt)] and [v.get(k)]: only a dict has the method. *)
Definition get_or (v : json) (k : string) (dflt : json) : M json :=
  match v with
  | JDict d => Ok (dict_lookup d k dflt)
  | _ => Raise AttributeError
  end.

Definition get (v : json) (k : string) : M json := get_or v k JNull.

(** [v[k]] for a string key *)
Definition item (v : json) (k : string) : M json :=
  match v with
  | JDict d => match dict_get d k with Some x => Ok x | None => Raise KeyError end
  | _ => Raise TypeError
  end.

(** [v[k] = x] for a string key *)
Definition set_item (v : json) (k : string) (x : json) : M json :=
  match v with
  | JDict d => Ok (JDict (dict_set d k x))
  | _ => Raise TypeError
  end.

(** ** Text *)

(** [repr(v)] *)
Fixpoint py_repr (v : json) : string :=
  match v with
  | JNull => "None"
  | JBool true => "True"
  | JBool false => "False"
  | JInt z => Str.of_Z z
  | JFloat x => float_str x
  | JStr s => Str.repr s
  | JList l => "[" ++ Str.join ", " (map py_repr l) ++ "]"
  | JDict d =>
      "{" ++ Str.join ", "
               (map (fun kv : string * json => let (k, x) := kv in Str.repr k ++ ": " ++ py_repr x) d)
          ++ "}"
  end.

(** [str(v)], which is also what [f"{v}"] inserts *)
Definition py_str (v : json) : string :=
  match v with
  | JStr s => s
  | _ => py_repr v
  end.

(** ** Loops *)

(** [for x in xs: s = body(s, x)] *)
Fixpoint for_each {A S : Type} (xs : list A) (s : S) (body : S -> A -> M S) : M S :=
  match xs with
  | [] => Ok s
  | x :: xs' => s' <- body s x ;; for_each xs' s' body
  end.

End Builtins.

(* ===================================================================== *)
(** * Schema coercion and classification                                 *)
(* ===================================================================== *)

Section Schema.
Context {F : PyFloat}.

Definition CANONICAL_KEYS : dict :=
  [ ("name", JNull);
    ("profile_type", JNull);
    ("about", JNull);
    ("usernames", JDict []);
    ("bio", JNull);
    ("emails", JList []);
    ("primary_location", JNull);
    ("posts", JList []);
    ("repositories", JList []);
    ("activity_patterns", JNull);
    ("possible_interests", JList []);
    ("relationship_graph", JList []);
    ("behavioral_anomalies", JList []);
    ("key_timelines", JList []);
    ("links", JDict []);
    ("compromised", JBool false);
    ("summary", JNull);
    ("llm_analysis", JNull) ].

Definition _normalize_list (value : json) : list json :=
  match value with
  | JList l => l
  | _ => []
  end.

(** The [compromised] branch of the coercion loop. *)
Definition coerce_compromised (val default : json) : json :=
  match val with
  | JBool b => JBool b
  | JStr s =>
      let lowered := Str.lower (Str.strip s) in
      JBool (Str.mem lowered ["yes"; "true"; "1"; "compromised"])
  | JInt _ | JFloat _ => JBool (truthy val)
  | _ => JBool (truthy default)
  end.

(** The other branches of the coercion loop, by kind of field. *)
Definition coerce_str_list (val : json) : json :=
  let items := _normalize_list val in
  JList (map (fun x => JStr (py_str x)) items).

Definition coerce_map (val : json) : json :=
  if is_dict val then val else JDict [].

Definition coerce_seq (val : json) : json := JList (_normalize_list val).

Definition coerce_scalar (val : json) : json :=
  if is_none val then JNull else JStr (py_str val).

(** One round of [for key, default in CANONICAL_KEYS.items()]. *)
Definition coerce_key (src : json) (result : dict) (kd : string * json) : M dict :=
  let (key, default) := kd in
  val <- (if is_dict src then get src key else Ok JNull) ;;
  if Str.mem key ["emails"; "possible_interests"; "behavioral_anomalies"; "key_timelines"]
  then Ok (dict_set result key (coerce_str_list val))
  else if Str.mem key ["usernames"; "links"] then
    Ok (dict_set result key (coerce_map val))
  else if Str.mem key ["posts"; "repositories"; "relationship_graph"] then
    Ok (dict_set result key (coerce_seq val))
  else if String.eqb key "compromised" then
    Ok (dict_set result key (coerce_compromised val default))
  else
    Ok (dict_set result key (coerce_scalar val)).

(** One round of [for platform, data in usernames.items()]. *)
Definition normalise_username (normalised : dict) (pd : string * json) : M dict :=
  let (platform, data) := pd in
  if is_dict data then
    h <- get data "handle" ;;
    handle <- (if truthy h then Ok h else get data "username") ;;
    url <- get data "url" ;;
    bio <- get data "bio" ;;
    Ok (dict_set normalised platform
          (JDict [("handle", handle); ("url", url); ("bio", bio)]))
  else
    Ok (dict_set normalised platform
          (JDict [("handle", if is_none data then JNull else JStr (py_str data));
                  ("url", JNull);
                  ("bio", JNull)])).

Definition _ensure_profile_classification (profile : json) : M json :=
  profile_type <- get profile "profile_type" ;;
  about <- get profile "about" ;;
  u <- get profile "usernames" ;;
  let usernames := py_or u (JDict []) in
  r <- get profile "repositories" ;;
  let repos := py_or r (JList []) in
  let platforms :=
    match usernames with
    | JDict us => Str.sorted (dict_keys us)
    | _ => []
    end in
  let profile_type :=
    if negb (truthy profile_type) then
      if Str.mem "github" platforms && truthy repos then JStr "developer"
      else if Str.mem "linkedin" platforms then JStr "professional"
      else if Str.mem "twitter" platforms || Str.mem "reddit" platforms
      then JStr "individual"
      else if match platforms with [] => false | _ => true end then JStr "online_profile"
      else JStr "unknown"
    else profile_type in
  about <-
    (if negb (truthy about) then
       n <- get profile "name" ;;
       let name := py_or n (JStr "This subject") in
       let footprint :=
         match platforms with
         | [] => "limited visible platforms"
         | _ => Str.join ", " (map Str.capitalize platforms)
         end in
       let repo_count := match repos with JList l => length l | _ => 0%nat end in
       let repo_phrase :=
         match repo_count with
         | O => "with minimal code exposure"
         | _ => "with public GitHub repositories"
         end in
       Ok (JStr (Str.strip
                   (py_str name ++ " appears to be a " ++ py_str profile_type
                    ++ " active on " ++ footprint ++ " " ++ repo_phrase ++ ".")))
     else Ok about) ;;
  profile <- set_item profile "profile_type" profile_type ;;
  set_item profile "about" about.

Definition _coerce_profile_schema (raw : json) : M json :=
  profile <-
    (if is_dict raw then
       p <- get raw "profile" ;;
       if is_dict p then item raw "profile"
       else
         r <- get raw "result" ;;
         if is_dict r then item raw "result" else Ok raw
     else Ok raw) ;;
  let src := if is_dict profile then profile else JDict [] in
  result <- for_each CANONICAL_KEYS ([] : dict) (coerce_key src) ;;
  u <- get (JDict result) "usernames" ;;
  let usernames := py_or u (JDict []) in
  result <-
    (match usernames with
     | JDict us =>
         normalised <- for_each us ([] : dict) normalise_username ;;
         Ok (dict_set result "usernames" (JDict normalised))
     | _ => Ok result
     end) ;;
  _ensure_profile_classification (JDict result).

End Schema.

(* ===================================================================== *)
(** * Numbers                                                            *)
(* ===================================================================== *)

Section Numbers.
Context {F : PyFloat}.

(** [bool] is a subclass of [int]. *)
Definition as_int (v : json) : option Z :=
  match v with
  | JBool b => Some (Z.b2z b)
  | JInt z => Some z
  | _ => None
  end.

(** [a + b] *)
Definition py_add (a b : json) : M json :=
  match as_int a, as_int b with
  | Some x, Some y => Ok (JInt (x + y))
  | Some x, None =>
      match b with
      | JFloat y => Ok (JFloat (float_addZ y x))
      | _ => Raise TypeError
      end
  | None, Some y =>
      match a with
      | JFloat x => Ok (JFloat (float_addZ x y))
      | _ => Raise TypeError
      end
  | None, None =>
      match a, b with
      | JFloat x, JFloat y => Ok (JFloat (float_add x y))
      | JStr s, JStr t => Ok (JStr (s ++ t))
      | JList l, JList m => Ok (JList (l ++ m))
      | _, _ => Raise TypeError
      end
  end.

(** [v >= n] and [v > n] for an int literal [n] *)
Definition py_ge_int (v : json) (n : Z) : M bool :=
  match as_int v with
  | Some x => Ok (n <=? x)
  | None =>
      match v with
      | JFloat x =>
          Ok (match float_cmpZ x n with
              | Some Eq | Some Gt => true
              | _ => false
              end)
      | _ => Raise TypeError
      end
  end.

Definition py_gt_int (v : json) (n : Z) : M bool :=
  match as_int v with
  | Some x => Ok (n <? x)
  | None =>
      match v with
      | JFloat x =>
          Ok (match float_cmpZ x n with
              | Some Gt => true
              | _ => false
              end)
      | _ => Raise TypeError
      end
  end.

(** [sum(xs)] *)
Definition py_sum (xs : list json) : M json :=
  for_each xs (JInt 0) py_add.

Definition py_len (l : list json) : json := JInt (Z.of_nat (length l)).

(** [a == b] *)
Definition num_eq (a b : json) : bool :=
  match as_int a, as_int b with
  | Some x, Some y => x =? y
  | Some x, None =>
      match b with
      | JFloat y => match float_cmpZ y x with Some Eq => true | _ => false end
      | _ => false
      end
  | None, Some y =>
      match a with
      | JFloat x => match float_cmpZ x y with Some Eq => true | _ => false end
      | _ => false
      end
  | None, None =>
      match a, b with
      | JFloat x, JFloat y => match float_cmp x y with Some Eq => true | _ => false end
      | _, _ => false
      end
  end.

Fixpoint py_eq (a b : json) {struct a} : bool :=
  match a, b with
  | JNull, JNull => true
  | JStr s, JStr t => String.eqb s t
  | JList l, JList m =>
      (fix eq_list (l m : list json) {struct l} : bool :=
         match l, m with
         | [], [] => true
         | x :: l', y :: m' => py_eq x y && eq_list l' m'
         | _, _ => false
         end) l m
  | JDict d, JDict e =>
      Nat.eqb (length d) (length e) &&
      (fix sub (d : list (string * json)) : bool :=
         match d with
         | [] => true
         | (k, x) :: d' =>
             match dict_get e k with
             | Some y => py_eq x y
             | None => false
             end && sub d'
         end) d
  | (JBool _ | JInt _ | JFloat _), (JBool _ | JInt _ | JFloat _) => num_eq a b
  | _, _ => false
  end.

(** [a < b]: numbers among themselves, strings among themselves, lists
    element by element; anything else is a TypeError. *)
Definition num_lt (a b : json) : M bool :=
  match as_int a, as_int b with
  | Some x, Some y => Ok (x <? y)
  | Some x, None =>
      match b with
      | JFloat y => Ok (match float_cmpZ y x with Some Gt => true | _ => false end)
      | _ => Raise TypeError
      end
  | None, Some y =>
      match a with
      | JFloat x => Ok (match float_cmpZ x y with Some Lt => true | _ => false end)
      | _ => Raise TypeError
      end
  | None, None =>
      match a, b with
      | JFloat x, JFloat y =>
          Ok (match float_cmp x y with Some Lt => true | _ => false end)
      | _, _ => Raise TypeError
      end
  end.

Fixpoint py_lt (a b : json) {struct a} : M bool :=
  match a, b with
  | JStr s, JStr t => Ok (String.ltb s t)
  | JList l, JList m =>
      (fix lt_list (l m : list json) {struct l} : M bool :=
         match l, m with
         | [], [] => Ok false
         | [], _ :: _ => Ok true
         | _ :: _, [] => Ok false
         | x :: l', y :: m' => if py_eq x y then lt_list l' m' else py_lt x y
         end) l m
  | (JBool _ | JInt _ | JFloat _), (JBool _ | JInt _ | JFloat _) => num_lt a b
  | _, _ => Raise TypeError
  end.

End Numbers.

(* ===================================================================== *)
(** * Containers and text methods                                        *)
(* ===================================================================== *)

Section Containers.
Context {F : PyFloat}.

(** Lists and dicts cannot be hashed: they are neither set members nor
    dict keys. *)
Definition hashable (v : json) : bool :=
  match v with
  | JList _ | JDict _ => false
  | _ => true
  end.

(** A [set], in the order its members were first added. *)
Definition pyset : Type := list json.

(** [v in s] *)
Definition set_mem (s : pyset) (v : json) : M bool :=
  if hashable v then Ok (existsb (fun y => py_eq y v) s) else Raise TypeError.

(** [s.add(v)] *)
Definition set_add (s : pyset) (v : json) : M pyset :=
  b <- set_mem s v ;;
  Ok (if (b : bool) then s else s ++ [v])%list.

(** [list(dict.fromkeys(xs))] *)
Definition unique (xs : list json) : M (list json) :=
  for_each xs ([] : pyset) set_add.

(** [for x in v]: the members of a list, the characters of a string, the
    keys of a dict. *)
Definition py_iter (v : json) : M (list json) :=
  match v with
  | JList l => Ok l
  | JStr s => Ok (map JStr (Str.chars s))
  | JDict d => Ok (map JStr (dict_keys d))
  | _ => Raise TypeError
  end.

(** [len(v)] *)
Definition py_length (v : json) : M Z :=
  match v with
  | JList l => Ok (Z.of_nat (length l))
  | JStr s => Ok (Z.of_nat (String.length s))
  | JDict d => Ok (Z.of_nat (length d))
  | _ => Raise TypeError
  end.

(** [v[:n]] *)
Definition py_take (n : nat) (v : json) : M json :=
  match v with
  | JStr s => Ok (JStr (Str.take n s))
  | JList l => Ok (JList (firstn n l))
  | _ => Raise TypeError
  end.

(** The string methods: only a str has them. *)
Definition py_lower (v : json) : M string :=
  match v with JStr s => Ok (Str.lower s) | _ => Raise AttributeError end.
Definition py_upper (v : json) : M string :=
  match v with JStr s => Ok (Str.upper s) | _ => Raise AttributeError end.
Definition py_strip (v : json) : M string :=
  match v with JStr s => Ok (Str.strip s) | _ => Raise AttributeError end.
Definition py_startswith (v : json) (p : string) : M bool :=
  match v with JStr s => Ok (prefix p s) | _ => Raise AttributeError end.

(** [f"{v:,}"] *)
Definition py_format_comma (v : json) : M string :=
  match v with
  | JBool b => Ok (Str.of_Z_comma (Z.b2z b))
  | JInt z => Ok (Str.of_Z_comma z)
  | JFloat x => Ok (float_fmt_comma x)
  | JStr _ => Raise ValueError
  | _ => Raise TypeError
  end.

(** [sep.join(xs)]: every member must be a str. *)
Definition py_join (sep : string) (xs : list json) : M string :=
  parts <- for_each xs ([] : list string)
             (fun acc x => match x with
                           | JStr s => Ok (acc ++ [s])%list
                           | _ => Raise TypeError
                           end) ;;
  Ok (Str.join sep parts).

(** [max(xs, key=len)] on a non-empty list: the first member of greatest
    length. *)
Definition max_by_len (x : json) (xs : list json) : M json :=
  n <- py_length x ;;
  r <- for_each xs (x, n)
         (fun best y =>
            m <- py_length y ;;
            Ok (if snd best <? m then (y, m) else best)) ;;
  Ok (fst r).

(** [sorted(xs, key=k)], the keys already computed: a stable sort; it
    returns when the comparisons it makes do. *)
Fixpoint insert_by_key {A : Type} (x : json * A) (l : list (json * A))
  : M (list (json * A)) :=
  match l with
  | [] => Ok [x]
  | y :: l' =>
      b <- py_lt (fst x) (fst y) ;;
      if (b : bool) then Ok (x :: l)
      else r <- insert_by_key x l' ;; Ok (y :: r)
  end.

Definition sort_by_key {A : Type} (xs : list (json * A)) : M (list (json * A)) :=
  for_each xs [] (fun sorted_ x => insert_by_key x sorted_).

End Containers.

(* ===================================================================== *)
(** * Risk derivation (comprehensive_report.py)                          *)
(* ===================================================================== *)

Section Risk.
Context {F : PyFloat}.

(** One round of [for platform, data in usernames_obj.items()]. *)
Definition extract_username (usernames : list json) (pd : string * json)
  : M (list json) :=
  let (platform, data) := pd in
  match data with
  | JDict e =>
      if dict_has e "handle" then
        h <- item data "handle" ;; Ok (usernames ++ [h])%list
      else Ok usernames
  | JStr _ => Ok (usernames ++ [data])%list
  | _ => Ok usernames
  end.

Definition extract_usernames (profile : json) : M (list json) :=
  usernames_obj <- get_or profile "usernames" (JDict []) ;;
  match usernames_obj with
  | JDict us => for_each us ([] : list json) extract_username
  | _ => Ok []
  end.

Definition compute_counts (profile : json) : M json :=
  repos <- get_or profile "repositories" (JList []) ;;
  let repos_list := match repos with JList l => l | _ => [] end in
  total_stars <-
    for_each (filter is_dict repos_list) (JInt 0)
      (fun acc r => s <- get_or r "stars" (JInt 0) ;; py_add acc s) ;;
  total_forks <-
    for_each (filter is_dict repos_list) (JInt 0)
      (fun acc r => s <- get_or r "forks" (JInt 0) ;; py_add acc s) ;;
  usernames <- extract_usernames profile ;;
  g <- get profile "relationship_graph" ;;
  connections <-
    (if is_list g then
       g' <- get_or profile "relationship_graph" (JList []) ;;
       Ok (match g' with JList l => py_len l | _ => JInt 0 end)
     else Ok (JInt 0)) ;;
  Ok (JDict [ ("usernames", py_len usernames);
              ("repos", py_len repos_list);
              ("total_stars", total_stars);
              ("total_forks", total_forks);
              ("connections", connections) ]).

(** The point scoring of [derive_risk]: the score and the reasons. *)
Definition risk_points (profile counts : json) : M (Z * list string) :=
  let score := 0 in
  let reasons := ([] : list string) in
  c <- get profile "compromised" ;;
  let '(score, reasons) :=
    if truthy c then (score + 50, reasons ++ ["Compromise detected"])%list
    else (score, reasons) in
  us <- extract_usernames profile ;;
  let '(score, reasons) :=
    if 3 <=? Z.of_nat (length us)
    then (score + 15, reasons ++ ["Multiple identifiers"])%list
    else (score, reasons) in
  repos <- item counts "repos" ;;
  many <- py_ge_int repos 10 ;;
  let '(score, reasons) :=
    if (many : bool) then (score + 10, reasons ++ ["Significant code presence"])%list
    else (score, reasons) in
  stars <- item counts "total_stars" ;;
  popular <- py_ge_int stars 50 ;;
  let '(score, reasons) :=
    if (popular : bool) then (score + 5, reasons ++ ["Popular repositories"])%list
    else (score, reasons) in
  Ok (score, reasons).

Definition risk_level (score : Z) : string :=
  if 60 <=? score then "critical"
  else if 40 <=? score then "high"
  else if 20 <=? score then "medium"
  else "low".

Definition derive_risk (profile counts : json) : M json :=
  sr <- risk_points profile counts ;;
  let '(score, reasons) := sr in
  let level := risk_level score in
  Ok (JDict [ ("level", JStr level);
              ("reason", JStr (match reasons with
                               | [] => "Minimal risk indicators"
                               | _ => Str.join " | " reasons
                               end)) ]).

End Risk.

(* ===================================================================== *)
(** * Report helpers (comprehensive_report.py)                           *)
(* ===================================================================== *)

Section Report.
Context {F : PyFloat}.

(** [s.title()]: a letter that follows a letter is lowered, any other
    letter is raised. *)
Fixpoint title_from (previous_is_cased : bool) (s : string) : string :=
  match s with
  | EmptyString => EmptyString
  | String c s' =>
      if Str.is_upper c || Str.is_lower c then
        String (if previous_is_cased then Str.lower_char c else Str.upper_char c)
          (title_from true s')
      else String c (title_from false s')
  end.

Definition py_title (s : string) : string := title_from false s.

(** [v[0]] and [v[-1]].  An [IndexError] is given with its text; a dict
    with string keys has neither key. *)
Definition index0 (v : json) : M json :=
  match v with
  | JList (x :: _) => Ok x
  | JList [] => Raise (LibraryError "list index out of range")
  | JStr (String c _) => Ok (JStr (String c EmptyString))
  | JStr EmptyString => Raise (LibraryError "string index out of range")
  | JDict _ => Raise KeyError
  | _ => Raise TypeError
  end.

Definition index_last (v : json) : M json :=
  match v with
  | JList (x :: l) => Ok (last l x)
  | JList [] => Raise (LibraryError "list index out of range")
  | JStr (String c s) => Ok (JStr (last (Str.chars s) (String c EmptyString)))
  | JStr EmptyString => Raise (LibraryError "string index out of range")
  | JDict _ => Raise KeyError
  | _ => Raise TypeError
  end.

Definition format_list (items : json) : M string :=
  if negb (truthy items) then Ok "None"
  else
    head <- py_take 10 items ;;
    xs <- py_iter head ;;
    Ok (Str.join "; " (map py_str xs)).

Definition format_timelines (timelines : json) : M string :=
  if negb (truthy timelines) || negb (is_list timelines) then Ok "No timeline data"
  else
    n <- py_length timelines ;;
    if n =? 0 then Ok "No timeline data"
    else
      head <- py_take 3 timelines ;;
      format_list head.

(** [text.split(sep)[1]] for a text that contains [sep]: what lies between
    its first occurrence and the next one. *)
Fixpoint text_before (sep s : string) : string :=
  if prefix sep s then EmptyString
  else match s with
       | EmptyString => EmptyString
       | String c s' => String c (text_before sep s')
       end.

Fixpoint text_after (sep s : string) : string :=
  if prefix sep s then substring (String.length sep) (String.length s) s
  else match s with
       | EmptyString => EmptyString
       | String _ s' => text_after sep s'
       end.

Definition second_piece (sep s : string) : string :=
  text_before sep (text_after sep s).

(** [str(x).split(": ")[1] if ": " in str(x) else str(x)] *)
Definition timeline_label (x : json) : string :=
  if Str.contains ": " (py_str x) then second_piece ": " (py_str x) else py_str x.

Definition format_timeline_summary (timelines : json) : M string :=
  if negb (truthy timelines) || negb (is_list timelines)
  then Ok "No historical activity recorded"
  else
    n <- py_length timelines ;;
    if n =? 0 then Ok "No historical activity recorded"
    else
      t0 <- index0 timelines ;;
      let first := timeline_label t0 in
      t1 <- index_last timelines ;;
      let last := timeline_label t1 in
      Ok ("Activity span from " ++ first ++ " to " ++ last).

Definition footprint_summary (platforms : json) : M string :=
  if negb (truthy platforms) then Ok "Minimal online presence"
  else
    n <- py_length platforms ;;
    if n <=? 2 then Ok ("Limited presence on " ++ Str.of_Z n ++ " platform(s)")
    else if n <=? 4 then Ok ("Moderate presence on " ++ Str.of_Z n ++ " platform(s)")
    else Ok ("Extensive presence across " ++ Str.of_Z n ++ " platform(s)").

(** One round of [for platform, data in usernames.items()] of
    [build_platform_items]. *)
Definition platform_item (items : list json) (pd : string * json) : M (list json) :=
  let (platform, data) := pd in
  if is_dict data then
    handle <- get_or data "handle" (JStr "Unknown") ;;
    url <- get_or data "url" (JStr EmptyString) ;;
    bio <- get_or data "bio" (JStr EmptyString) ;;
    let value := "Handle: " ++ py_str handle in
    value <-
      (if truthy bio then
         b <- py_take 60 bio ;;
         Ok (value ++ " | Bio: " ++ py_str b)
       else Ok value) ;;
    Ok (items ++ [JDict [ ("label", JStr (py_title platform));
                          ("value", JStr value) ]])%list
  else Ok items.

Definition build_platform_items (profile : json) : M (list json) :=
  usernames <- get_or profile "usernames" (JDict []) ;;
  match usernames with
  | JDict us => for_each us ([] : list json) platform_item
  | _ => Ok []
  end.

(** One round of the URL loop of [build_ioc_items]. *)
Definition platform_url (urls : list json) (pd : string * json) : M (list json) :=
  let (platform, data) := pd in
  match data with
  | JDict e =>
      if dict_has e "url" then u <- item data "url" ;; Ok (urls ++ [u])%list
      else Ok urls
  | _ => Ok urls
  end.

Definition labelled (label value : string) : json :=
  JDict [("label", JStr label); ("value", JStr value)].

Definition build_ioc_items (profile : json) : M (list json) :=
  let items := ([] : list json) in
  usernames <- extract_usernames profile ;;
  items <-
    (match usernames with
     | [] => Ok items
     | _ => v <- format_list (JList usernames) ;;
            Ok (items ++ [labelled "Usernames" v])%list
     end) ;;
  emails <- get_or profile "emails" (JList []) ;;
  items <-
    (if is_list emails && truthy emails then
       v <- format_list emails ;;
       Ok (items ++ [labelled "Email Addresses" v])%list
     else Ok items) ;;
  usernames_obj <- get_or profile "usernames" (JDict []) ;;
  urls <-
    (match usernames_obj with
     | JDict us => for_each us ([] : list json) platform_url
     | _ => Ok []
     end) ;;
  items <-
    (match urls with
     | [] => Ok items
     | _ => v <- format_list (JList urls) ;;
            Ok (items ++ [labelled "Platform URLs" v])%list
     end) ;;
  repos <- get_or profile "repositories" (JList []) ;;
  match repos with
  | JList (r :: rs) =>
      repo_urls <-
        for_each (r :: rs) ([] : list json)
          (fun acc r =>
             match r with
             | JDict e =>
                 if dict_has e "url" then u <- get r "url" ;; Ok (acc ++ [u])%list
                 else Ok acc
             | _ => Ok acc
             end) ;;
      match repo_urls with
      | [] => Ok items
      | _ => v <- format_list (JList (firstn 5 repo_urls)) ;;
             Ok (items ++ [labelled "Repository URLs" v])%list
      end
  | _ => Ok items
  end.

(** [assess_threats(profile, compromised, counts)] *)
Definition assess_threats (profile compromised counts : json) : M json :=
  let concerns := ([] : list string) in
  let concerns :=
    if truthy compromised then (concerns ++ ["Credential compromise"])%list
    else concerns in
  repos <- item counts "repos" ;;
  some_code <- py_gt_int repos 0 ;;
  let concerns :=
    if (some_code : bool) then (concerns ++ ["Code/supply chain exposure"])%list
    else concerns in
  connections <- item counts "connections" ;;
  networked <- py_gt_int connections 10 ;;
  let concerns :=
    if (networked : bool) then (concerns ++ ["Network-based attack vectors"])%list
    else concerns in
  us <- extract_usernames profile ;;
  let concerns :=
    if 3 <=? Z.of_nat (length us)
    then (concerns ++ ["Identity theft potential"])%list
    else concerns in
  let priority :=
    if truthy compromised then "critical"
    else if 3 <=? Z.of_nat (length concerns) then "high"
    else "medium" in
  Ok (JDict [ ("priority", JStr priority);
              ("concerns", JStr (match concerns with
                                 | [] => "Limited threat indicators"
                                 | _ => Str.join " | " concerns
                                 end)) ]).

(** [generate_recommendations(profile, risk, compromised, counts)] *)
Definition generate_recommendations (profile risk compromised counts : json)
  : M (list json) :=
  let recs := ([] : list json) in
  let recs :=
    if truthy compromised then
      (recs ++ [ labelled "1. CRITICAL"
                   "Immediately review all linked accounts for unauthorized access and unusual activity";
                 labelled "2. CRITICAL"
                   "Force password resets on all platforms; enable 2FA where available" ])%list
    else recs in
  repos <- item counts "repos" ;;
  some_code <- py_gt_int repos 0 ;;
  let recs :=
    if (some_code : bool) then
      (recs ++ [ labelled "3. HIGH"
                   "Audit all public repositories for exposed secrets, API keys, or credentials";
                 labelled "4. HIGH"
                   "Review commit history for sensitive data leakage across all repositories" ])%list
    else recs in
  us <- extract_usernames profile ;;
  let recs :=
    if 3 <=? Z.of_nat (length us) then
      (recs ++ [ labelled "5. MEDIUM"
                   "Monitor all linked accounts for suspicious activity and unauthorized profile changes" ])%list
    else recs in
  connections <- item counts "connections" ;;
  connected <- py_gt_int connections 0 ;;
  let recs :=
    if (connected : bool) then
      (recs ++ [ labelled "6. MEDIUM"
                   "Review follower/connection lists for suspicious accounts or potential threat actors" ])%list
    else recs in
  let recs :=
    (recs ++ [ labelled "7. ONGOING"
                 "Establish continuous monitoring across all identified platforms and repositories" ])%list in
  Ok (match recs with
      | [] => [ labelled "Assessment"
                  "Profile appears low-risk; maintain standard security hygiene" ]
      | _ => recs
      end).

(** [generate_pivots(profile, usernames)] *)
Definition generate_pivots (profile usernames : json) : M (list json) :=
  let pivots := ([] : list json) in
  pivots <-
    (if truthy usernames then
       u <- index0 usernames ;;
       Ok (pivots ++ [ labelled "Username Cross-Reference"
                         ("Search '" ++ py_str u
                          ++ "' across additional platforms (Patreon, LinkedIn, Discord, TikTok, etc.)") ])%list
     else Ok pivots) ;;
  repos <- get_or profile "repositories" (JList []) ;;
  let pivots :=
    if is_list repos && truthy repos then
      (pivots ++ [ labelled "Code Analysis"
                     "Perform SAST on public repos to identify coding patterns, dependencies, and potential vulnerabilities" ])%list
    else pivots in
  connections <- get_or profile "relationship_graph" (JList []) ;;
  let pivots :=
    match connections with
    | JList (c :: cs) =>
        (pivots ++ [ labelled "Network Expansion"
                       ("Map secondary connections from "
                        ++ Str.of_Z (Z.of_nat (length (c :: cs)))
                        ++ " known associates to expand threat landscape") ])%list
    | _ => pivots
    end in
  emails <- get_or profile "emails" (JList []) ;;
  pivots <-
    (if is_list emails && truthy emails then
       e <- index0 emails ;;
       Ok (pivots ++ [ labelled "Email Reconnaissance"
                         ("Run " ++ py_str e
                          ++ " through breach databases and OSINT tools for related accounts") ])%list
     else Ok pivots) ;;
  let pivots :=
    (pivots ++ [ labelled "Timeline Analysis"
                   "Correlate account creation dates to identify coordinated identity creation or account takeover events" ])%list in
  Ok (match pivots with
      | [] => [ labelled "Limited Data"
                  "Insufficient data for advanced pivots; expand collection for more vectors" ]
      | _ => pivots
      end).

End Report.


(* ===================================================================== *)
(** * The correlation algorithms                                         *)
(* ===================================================================== *)

(** What the algorithms take from the Python runtime and leave open here:
    the order in which [list(s)] enumerates the members of a set (it depends
    on their hashes), [datetime.fromtimestamp(t).strftime("%Y-%m-%d")] (it
    depends on the local time zone; [None] when it raises) and
    [urlparse(url).netloc] ([None] when it raises). *)
Class PyRuntime {F : PyFloat} : Type := {
  set_order : list json -> list json;
  set_order_members : forall l, Permutation (set_order l) l;
  fromtimestamp_ymd : json -> option string;
  urlparse_netloc : string -> option string
}.

Section Correlation.
Context {F : PyFloat} {R : PyRuntime}.

(** What the two algorithms accumulate while they walk their documents:
    the entries of [base_profile] they write in their loops ([name], [bio],
    [primary_location], [usernames], [relationship_graph]) and their local
    variables.  [base_profile] is a dict literal with a fixed key list; it
    is written back as a dict, in the literal's key order, when the loops
    are over. *)
Record locals : Type := mkLocals {
  l_name : json;
  l_bio : json;
  l_primary_location : json;
  l_usernames : dict;
  l_relationship_graph : list json;
  l_emails : pyset;
  l_interests : pyset;
  l_links : dict;
  l_posts : list json;
  l_repos : list json;
  l_key_events : list (json * string);
  l_compromised : bool;
  l_compromise_notes : list json;
  l_locations_found : list json;
  l_names_found : list json;
  l_bios_found : list json
}.

Definition with_name (v : json) (s : locals) : locals :=
  mkLocals v (l_bio s) (l_primary_location s) (l_usernames s)
    (l_relationship_graph s) (l_emails s) (l_interests s) (l_links s) (l_posts s)
    (l_repos s) (l_key_events s) (l_compromised s) (l_compromise_notes s)
    (l_locations_found s) (l_names_found s) (l_bios_found s).
Definition with_bio (v : json) (s : locals) : locals :=
  mkLocals (l_name s) v (l_primary_location s) (l_usernames s)
    (l_relationship_graph s) (l_emails s) (l_interests s) (l_links s) (l_posts s)
    (l_repos s) (l_key_events s) (l_compromised s) (l_compromise_notes s)
    (l_locations_found s) (l_names_found s) (l_bios_found s).
Definition with_primary_location (v : json) (s : locals) : locals :=
  mkLocals (l_name s) (l_bio s) v (l_usernames s) (l_relationship_graph s)
    (l_emails s) (l_interests s) (l_links s) (l_posts s) (l_repos s)
    (l_key_events s) (l_compromised s) (l_compromise_notes s) (l_locations_found s)
    (l_names_found s) (l_bios_found s).
Definition with_usernames (v : dict) (s : locals) : locals :=
  mkLocals (l_name s) (l_bio s) (l_primary_location s) v (l_relationship_graph s)
    (l_emails s) (l_interests s) (l_links s) (l_posts s) (l_repos s)
    (l_key_events s) (l_compromised s) (l_compromise_notes s) (l_locations_found s)
    (l_names_found s) (l_bios_found s).
Definition with_relationship_graph (v : list json) (s : locals) : locals :=
  mkLocals (l_name s) (l_bio s) (l_primary_location s) (l_usernames s) v
    (l_emails s) (l_interests s) (l_links s) (l_posts s) (l_repos s)
    (l_key_events s) (l_compromised s) (l_compromise_notes s) (l_locations_found s)
    (l_names_found s) (l_bios_found s).
Definition with_emails (v : pyset) (s : locals) : locals :=
  mkLocals (l_name s) (l_bio s) (l_primary_location s) (l_usernames s)
    (l_relationship_graph s) v (l_interests s) (l_links s) (l_posts s) (l_repos s)
    (l_key_events s) (l_compromised s) (l_compromise_notes s) (l_locations_found s)
    (l_names_found s) (l_bios_found s).
Definition with_interests (v : pyset) (s : locals) : locals :=
  mkLocals (l_name s) (l_bio s) (l_primary_location s) (l_usernames s)
    (l_relationship_graph s) (l_emails s) v (l_links s) (l_posts s) (l_repos s)
    (l_key_events s) (l_compromised s) (l_compromise_notes s) (l_locations_found s)
    (l_names_found s) (l_bios_found s).
Definition with_links (v : dict) (s : locals) : locals :=
  mkLocals (l_name s) (l_bio s) (l_primary_location s) (l_usernames s)
    (l_relationship_graph s) (l_emails s) (l_interests s) v (l_posts s) (l_repos s)
    (l_key_events s) (l_compromised s) (l_compromise_notes s) (l_locations_found s)
    (l_names_found s) (l_bios_found s).
Definition with_posts (v : list json) (s : locals) : locals :=
  mkLocals (l_name s) (l_bio s) (l_primary_location s) (l_usernames s)
    (l_relationship_graph s) (l_emails s) (l_interests s) (l_links s) v (l_repos s)
    (l_key_events s) (l_compromised s) (l_compromise_notes s) (l_locations_found s)
    (l_names_found s) (l_bios_found s).
Definition with_repos (v : list json) (s : locals) : locals :=
  mkLocals (l_name s) (l_bio s) (l_primary_location s) (l_usernames s)
    (l_relationship_graph s) (l_emails s) (l_interests s) (l_links s) (l_posts s) v
    (l_key_events s) (l_compromised s) (l_compromise_notes s) (l_locations_found s)
    (l_names_found s) (l_bios_found s).
Definition with_key_events (v : list (json * string)) (s : locals) : locals :=
  mkLocals (l_name s) (l_bio s) (l_primary_location s) (l_usernames s)
    (l_relationship_graph s) (l_emails s) (l_interests s) (l_links s) (l_posts s)
    (l_repos s) v (l_compromised s) (l_compromise_notes s) (l_locations_found s)
    (l_names_found s) (l_bios_found s).
Definition with_compromised (v : bool) (s : locals) : locals :=
  mkLocals (l_name s) (l_bio s) (l_primary_location s) (l_usernames s)
    (l_relationship_graph s) (l_emails s) (l_interests s) (l_links s) (l_posts s)
    (l_repos s) (l_key_events s) v (l_compromise_notes s) (l_locations_found s)
    (l_names_found s) (l_bios_found s).
Definition with_compromise_notes (v : list json) (s : locals) : locals :=
  mkLocals (l_name s) (l_bio s) (l_primary_location s) (l_usernames s)
    (l_relationship_graph s) (l_emails s) (l_interests s) (l_links s) (l_posts s)
    (l_repos s) (l_key_events s) (l_compromised s) v (l_locations_found s)
    (l_names_found s) (l_bios_found s).
Definition with_locations_found (v : list json) (s : locals) : locals :=
  mkLocals (l_name s) (l_bio s) (l_primary_location s) (l_usernames s)
    (l_relationship_graph s) (l_emails s) (l_interests s) (l_links s) (l_posts s)
    (l_repos s) (l_key_events s) (l_compromised s) (l_compromise_notes s) v
    (l_names_found s) (l_bios_found s).
Definition with_names_found (v : list json) (s : locals) : locals :=
  mkLocals (l_name s) (l_bio s) (l_primary_location s) (l_usernames s)
    (l_relationship_graph s) (l_emails s) (l_interests s) (l_links s) (l_posts s)
    (l_repos s) (l_key_events s) (l_compromised s) (l_compromise_notes s)
    (l_locations_found s) v (l_bios_found s).
Definition with_bios_found (v : list json) (s : locals) : locals :=
  mkLocals (l_name s) (l_bio s) (l_primary_location s) (l_usernames s)
    (l_relationship_graph s) (l_emails s) (l_interests s) (l_links s) (l_posts s)
    (l_repos s) (l_key_events s) (l_compromised s) (l_compromise_notes s)
    (l_locations_found s) (l_names_found s) v.

(** ** Appending to and writing the accumulators *)

Definition push_name (x : json) (s : locals) : locals :=
  with_names_found (l_names_found s ++ [x])%list s.
Definition push_bio (x : json) (s : locals) : locals :=
  with_bios_found (l_bios_found s ++ [x])%list s.
Definition push_location (x : json) (s : locals) : locals :=
  with_locations_found (l_locations_found s ++ [x])%list s.
Definition push_post (x : json) (s : locals) : locals :=
  with_posts (l_posts s ++ [x])%list s.
Definition push_repo (x : json) (s : locals) : locals :=
  with_repos (l_repos s ++ [x])%list s.
Definition push_relation (x : json) (s : locals) : locals :=
  with_relationship_graph (l_relationship_graph s ++ [x])%list s.
Definition push_event (date : json) (label : string) (s : locals) : locals :=
  with_key_events (l_key_events s ++ [(date, label)])%list s.
Definition push_note (x : string) (s : locals) : locals :=
  with_compromise_notes (l_compromise_notes s ++ [JStr x])%list s.

Definition add_email (x : json) (s : locals) : M locals :=
  e <- set_add (l_emails s) x ;; Ok (with_emails e s).
Definition add_interest (x : json) (s : locals) : M locals :=
  i <- set_add (l_interests s) x ;; Ok (with_interests i s).
Definition add_interest_str (x : string) (s : locals) : M locals :=
  add_interest (JStr x) s.

Definition set_link (k : string) (v : json) (s : locals) : locals :=
  with_links (dict_set (l_links s) k v) s.
Definition setdefault_link (k : string) (v : json) (s : locals) : locals :=
  with_links (dict_setdefault (l_links s) k v) s.
Definition set_username (k : string) (v : json) (s : locals) : locals :=
  with_usernames (dict_set (l_usernames s) k v) s.

(** [if data.get(k): body(data[k])] *)
Definition if_field (data : json) (k : string)
    (body : json -> locals -> M locals) (s : locals) : M locals :=
  v <- get data k ;;
  if truthy v then x <- item data k ;; body x s else Ok s.

(** [if data.get(k): body()] *)
Definition if_flag (data : json) (k : string)
    (body : locals -> M locals) (s : locals) : M locals :=
  v <- get data k ;;
  if truthy v then body s else Ok s.

(** [for x in data.get(k) or []: body(x)] *)
Definition for_field (data : json) (k : string)
    (body : locals -> json -> M locals) (s : locals) : M locals :=
  v <- get data k ;;
  xs <- py_iter (py_or v (JList [])) ;;
  for_each xs s body.

(** [d.get(k1) or d.get(k2)] and [d.get(k) or "text"] *)
Definition get_or_else (d : json) (k1 k2 : string) : M json :=
  a <- get d k1 ;;
  if truthy a then Ok a else get d k2.
Definition get_or_str (d : json) (k : string) (dflt : string) : M json :=
  a <- get d k ;; Ok (py_or a (JStr dflt)).

(** The account entry most platforms write: the handle with its profile
    URL, in [usernames] and in [links]. *)
Definition note_account (platform : string) (handle url : json) (s : locals) : locals :=
  set_link platform url
    (set_username platform (JDict [("handle", handle); ("url", url)]) s).

(** The website a Snapchat profile links to, as both algorithms record it. *)
Definition external_site (s : locals) (site : json) : M locals :=
  if truthy site && negb (dict_has (l_links s) "website") then
    http <- py_startswith site "http" ;;
    Ok (set_link "website"
          (if (http : bool) then site else JStr ("https://" ++ py_str site)) s)
  else Ok s.

(** ** Cleaned-data correlation: one branch per platform *)

Definition cleaned_github (data : json) (s : locals) : M locals :=
  s <- if_field data "name" (fun x s => Ok (push_name x s)) s ;;
  s <- if_field data "username"
         (fun u s =>
            p <- get data "profile_url" ;;
            let url := py_or p (JStr ("https://github.com/" ++ py_str u)) in
            Ok (note_account "github" u url s)) s ;;
  s <- if_field data "bio" (fun x s => Ok (push_bio x s)) s ;;
  s <- if_field data "email" add_email s ;;
  s <- if_field data "location" (fun x s => Ok (push_location x s)) s ;;
  s <- if_field data "website" (fun x s => Ok (setdefault_link "website" x s)) s ;;
  s <- if_field data "company"
         (fun x s => add_interest_str ("Works at " ++ py_str x) s) s ;;
  s <- if_field data "created_at"
         (fun x s => Ok (push_event x "GitHub account created" s)) s ;;
  s <- for_field data "repositories"
         (fun s repo =>
            name <- get repo "name" ;;
            url <- get repo "url" ;;
            description <- get repo "description" ;;
            stars <- get repo "stars" ;;
            forks <- get repo "forks" ;;
            language <- get repo "language" ;;
            Ok (push_repo (JDict [ ("name", name); ("url", url);
                                   ("description", description); ("stars", stars);
                                   ("forks", forks); ("language", language) ]) s)) s ;;
  s <- for_field data "top_languages"
         (fun s lang => add_interest_str ("Programming: " ++ py_str lang) s) s ;;
  s <- for_field data "organizations"
         (fun s org => add_interest_str ("GitHub Org: " ++ py_str org) s) s ;;
  s <- for_field data "followers_sample"
         (fun s f =>
            u <- get f "username" ;;
            url <- get f "url" ;;
            Ok (push_relation (JDict [ ("username", u); ("platform", JStr "GitHub");
                                       ("type", JStr "follower"); ("url", url) ]) s)) s ;;
  for_field data "following_sample"
    (fun s f =>
       u <- get f "username" ;;
       url <- get f "url" ;;
       Ok (push_relation (JDict [ ("username", u); ("platform", JStr "GitHub");
                                  ("type", JStr "following"); ("url", url) ]) s)) s.

Definition cleaned_twitter (data : json) (s : locals) : M locals :=
  s <- if_field data "name" (fun x s => Ok (push_name x s)) s ;;
  s <- if_field data "username"
         (fun u s =>
            let url := JStr ("https://twitter.com/" ++ py_str u) in
            Ok (note_account "twitter" u url s)) s ;;
  s <- if_field data "bio" (fun x s => Ok (push_bio x s)) s ;;
  s <- if_field data "location" (fun x s => Ok (push_location x s)) s ;;
  s <- if_field data "website" (fun x s => Ok (setdefault_link "website" x s)) s ;;
  s <- if_field data "created_at"
         (fun x s => Ok (push_event x "Twitter account created" s)) s ;;
  s <- if_flag data "verified" (add_interest_str "Verified Twitter account") s ;;
  followers <- get_or data "followers_count" (JInt 0) ;;
  s <- (if truthy followers then
          n <- py_format_comma followers ;;
          add_interest_str ("Twitter: " ++ n ++ " followers") s
        else Ok s) ;;
  s <- for_field data "recent_tweets"
         (fun s tweet =>
            text <- get_or_str tweet "text" EmptyString ;;
            title <- py_take 120 text ;;
            url <- get tweet "url" ;;
            date <- get tweet "date" ;;
            likes <- get tweet "likes" ;;
            retweets <- get tweet "retweets" ;;
            Ok (push_post
                  (JDict [ ("platform", JStr "Twitter"); ("title", title);
                           ("url", url); ("date", date);
                           ("metrics", JDict [("likes", likes);
                                              ("retweets", retweets)]) ]) s)) s ;;
  for_field data "hashtags_used"
    (fun s tag => add_interest_str ("#" ++ py_str tag) s) s.

Definition cleaned_reddit (data : json) (s : locals) : M locals :=
  s <- if_field data "username"
         (fun u s =>
            let url := JStr ("https://reddit.com/user/" ++ py_str u) in
            Ok (note_account "reddit" u url s)) s ;;
  s <- if_field data "created_at"
         (fun x s => Ok (push_event x "Reddit account created" s)) s ;;
  kp <- get data "karma_post" ;;
  kc <- get data "karma_comment" ;;
  karma <- py_add (py_or kp (JInt 0)) (py_or kc (JInt 0)) ;;
  s <- (if truthy karma then
          n <- py_format_comma karma ;;
          add_interest_str ("Reddit karma: " ++ n) s
        else Ok s) ;;
  s <- for_field data "subreddits_active"
         (fun s sub => add_interest_str ("r/" ++ py_str sub) s) s ;;
  s <- for_field data "recent_posts"
         (fun s post =>
            title <- get post "title" ;;
            url <- get post "url" ;;
            date <- get post "date" ;;
            score <- get post "score" ;;
            subreddit <- get post "subreddit" ;;
            Ok (push_post
                  (JDict [ ("platform", JStr "Reddit"); ("title", title);
                           ("url", url); ("date", date);
                           ("metrics", JDict [("score", score);
                                              ("subreddit", subreddit)]) ]) s)) s ;;
  for_field data "recent_comments"
    (fun s comment =>
       text <- get_or_str comment "text" EmptyString ;;
       title <- py_take 100 text ;;
       date <- get comment "date" ;;
       score <- get comment "score" ;;
       subreddit <- get comment "subreddit" ;;
       Ok (push_post
             (JDict [ ("platform", JStr "Reddit"); ("title", title);
                      ("date", date);
                      ("metrics", JDict [("score", score);
                                         ("subreddit", subreddit)]) ]) s)) s.

Definition cleaned_snapchat (data : json) (s : locals) : M locals :=
  s <- if_field data "display_name" (fun x s => Ok (push_name x s)) s ;;
  s <- if_field data "username"
         (fun u s =>
            let url := JStr ("https://www.snapchat.com/add/" ++ py_str u) in
            Ok (note_account "snapchat" u url s)) s ;;
  s <- if_field data "bio" (fun x s => Ok (push_bio x s)) s ;;
  s <- if_field data "location" (fun x s => Ok (push_location x s)) s ;;
  s <- if_flag data "verified" (add_interest_str "Verified Snapchat account") s ;;
  s <- if_field data "follower_count"
         (fun c s =>
            n <- py_format_comma c ;;
            add_interest_str ("Snapchat: " ++ n ++ " followers") s) s ;;
  s <- for_field data "interests" (fun s interest => add_interest interest s) s ;;
  s <- for_field data "external_sites" external_site s ;;
  s <- for_field data "spotlight_videos"
         (fun s video =>
            title <- get_or_str video "title" "Spotlight Video" ;;
            url <- get video "url" ;;
            views <- get video "views" ;;
            likes <- get video "likes" ;;
            Ok (push_post
                  (JDict [ ("platform", JStr "Snapchat"); ("title", title);
                           ("url", url);
                           ("metrics", JDict [("views", views);
                                              ("likes", likes)]) ]) s)) s ;;
  s <- for_field data "highlights"
         (fun s highlight =>
            t <- get_or_else highlight "title" "name" ;;
            let title := py_or t (JStr "Story Highlight") in
            url <- get highlight "url" ;;
            date <- get_or_else highlight "date" "created_at" ;;
            Ok (push_post
                  (JDict [ ("platform", JStr "Snapchat"); ("title", title);
                           ("url", url); ("date", date) ]) s)) s ;;
  s <- for_field data "stories"
         (fun s story =>
            title <- get_or_str story "title" "Story" ;;
            url <- get story "url" ;;
            date <- get_or_else story "date" "posted_at" ;;
            views <- get story "views" ;;
            Ok (push_post
                  (JDict [ ("platform", JStr "Snapchat"); ("title", title);
                           ("url", url); ("date", date);
                           ("metrics", JDict [("views", views)]) ]) s)) s ;;
  for_field data "public_stories"
    (fun s story =>
       title <- get_or_str story "title" "Public Story" ;;
       url <- get story "url" ;;
       date <- get story "date" ;;
       Ok (push_post
             (JDict [ ("platform", JStr "Snapchat"); ("title", title);
                      ("url", url); ("date", date) ]) s)) s.

Definition cleaned_stackoverflow (data : json) (s : locals) : M locals :=
  s <- if_field data "username"
         (fun u s =>
            p <- get data "profile_url" ;;
            uid <- get data "user_id" ;;
            let url := py_or p (JStr ("https://stackoverflow.com/users/" ++ py_str uid)) in
            let s := note_account "stackoverflow" u url s in
            Ok (match l_names_found s with
                | [] => push_name u s
                | _ => s
                end)) s ;;
  s <- if_field data "location" (fun x s => Ok (push_location x s)) s ;;
  s <- if_field data "website" (fun x s => Ok (setdefault_link "website" x s)) s ;;
  s <- if_field data "created_at"
         (fun x s => Ok (push_event x "StackOverflow account created" s)) s ;;
  s <- if_field data "reputation"
         (fun r s =>
            n <- py_format_comma r ;;
            add_interest_str ("StackOverflow: " ++ n ++ " reputation") s) s ;;
  b <- get data "badges" ;;
  let badges := py_or b (JDict []) in
  s <- (if truthy badges then
          gold <- get_or badges "gold" (JInt 0) ;;
          silver <- get_or badges "silver" (JInt 0) ;;
          bronze <- get_or badges "bronze" (JInt 0) ;;
          add_interest_str
            ("SO Badges: " ++ py_str gold ++ "🥇 " ++ py_str silver ++ "🥈 "
             ++ py_str bronze ++ "🥉") s
        else Ok s) ;;
  for_field data "top_tags"
    (fun s tag =>
       tag_name <- (if is_dict tag then get tag "name" else Ok tag) ;;
       if truthy tag_name then add_interest_str ("Tech: " ++ py_str tag_name) s
       else Ok s) s.

Definition cleaned_linkedin (data : json) (s : locals) : M locals :=
  s <- if_field data "name" (fun x s => Ok (push_name x s)) s ;;
  s <- if_field data "username"
         (fun u s =>
            let url := JStr ("https://linkedin.com/in/" ++ py_str u) in
            Ok (note_account "linkedin" u url s)) s ;;
  s <- if_field data "headline" (fun x s => Ok (push_bio x s)) s ;;
  s <- if_field data "about" (fun x s => Ok (push_bio x s)) s ;;
  s <- if_field data "location" (fun x s => Ok (push_location x s)) s ;;
  company <- get data "current_company" ;;
  s <- (if truthy company then
          position <- get data "current_position" ;;
          if truthy position then
            add_interest_str (py_str position ++ " at " ++ py_str company) s
          else add_interest_str ("Works at " ++ py_str company) s
        else Ok s) ;;
  s <- for_field data "skills"
         (fun s skill => add_interest_str ("Skill: " ++ py_str skill) s) s ;;
  s <- for_field data "experience"
         (fun s exp =>
            title <- get exp "title" ;;
            company <- (if truthy title then get exp "company" else Ok JNull) ;;
            if truthy title && truthy company then
              duration <- get_or_str exp "duration" "Past" ;;
              Ok (push_event duration (py_str title ++ " at " ++ py_str company) s)
            else Ok s) s ;;
  for_field data "education"
    (fun s edu =>
       school <- get edu "school" ;;
       if truthy school then add_interest_str ("Education: " ++ py_str school) s
       else Ok s) s.

(** [plat = profile.get("platform", "").lower()] and the link it names,
    shared by the two branches that read social profiles. *)
Definition social_link (profile : json) (s : locals) : M (string * json * locals) :=
  p <- get_or profile "platform" (JStr EmptyString) ;;
  plat <- py_lower p ;;
  url <- (if negb (String.eqb plat EmptyString) then get profile "url" else Ok JNull) ;;
  if negb (String.eqb plat EmptyString) && truthy url then
    Ok (plat, url, setdefault_link plat url s)
  else Ok (plat, JNull, s).

Definition cleaned_profile_osint (data : json) (s : locals) : M locals :=
  s <- for_field data "emails_found" (fun s email => add_email email s) s ;;
  s <- for_field data "names_found" (fun s name => Ok (push_name name s)) s ;;
  s <- for_field data "locations_found" (fun s loc => Ok (push_location loc s)) s ;;
  for_field data "social_profiles"
    (fun s profile =>
       r <- social_link profile s ;;
       let '(plat, url, s) := r in
       if truthy url then
         u <- get profile "username" ;;
         if truthy u && negb (dict_has (l_usernames s) plat) then
           Ok (set_username plat (JDict [("handle", u); ("url", url)]) s)
         else Ok s
       else Ok s) s.

Definition cleaned_search_engines (data : json) (s : locals) : M locals :=
  s <- for_field data "notable_links"
         (fun s link =>
            title <- get link "title" ;;
            url <- (if truthy title then get link "url" else Ok JNull) ;;
            if truthy title && truthy url then
              snippet <- get link "snippet" ;;
              Ok (push_post
                    (JDict [ ("platform", JStr "Web"); ("title", title);
                             ("url", url); ("description", snippet) ]) s)
            else Ok s) s ;;
  for_field data "social_profiles_found"
    (fun s profile =>
       r <- social_link profile s ;;
       let '(_, _, s) := r in Ok s) s.

Definition cleaned_breachdirectory (data : json) (s : locals) : M locals :=
  s <- if_flag data "found_in_breaches"
         (fun s =>
            let s := with_compromised true s in
            for_field data "breaches"
              (fun s breach =>
                 source <- get_or_str breach "source" "Unknown" ;;
                 date <- get_or_str breach "date" "Unknown date" ;;
                 let s := push_note ("Found in " ++ py_str source ++ " breach ("
                                     ++ py_str date ++ ")") s in
                 Ok (push_event date ("Data breach: " ++ py_str source) s)) s) s ;;
  if_flag data "passwords_exposed"
    (fun s => Ok (push_note "⚠️ Passwords exposed in breaches" s)) s.

Definition cleaned_compromise (data : json) (s : locals) : M locals :=
  if_flag data "is_compromised"
    (fun s =>
       let s := with_compromised true s in
       s <- for_field data "breach_sources"
              (fun s source =>
                 Ok (push_note ("Compromised via: " ++ py_str source) s)) s ;;
       if_field data "risk_level"
         (fun level s =>
            up <- py_upper level ;;
            Ok (push_note ("Risk level: " ++ up) s)) s) s.

(** One round of [for entry in cleaned_results]. *)
Definition cleaned_entry (s : locals) (entry : json) : M locals :=
  c <- get_or_else entry "collection" "platform" ;;
  platform <- py_lower (py_or c (JStr EmptyString)) ;;
  d <- get_or_else entry "data" "cleaned_data" ;;
  let data := py_or d (JDict []) in
  err <- get data "error" ;;
  if truthy err then Ok s
  else if String.eqb platform "github" then cleaned_github data s
  else if String.eqb platform "twitter" then cleaned_twitter data s
  else if String.eqb platform "reddit" then cleaned_reddit data s
  else if String.eqb platform "snapchat" then cleaned_snapchat data s
  else if String.eqb platform "stackoverflow" then cleaned_stackoverflow data s
  else if String.eqb platform "linkedin" then cleaned_linkedin data s
  else if String.eqb platform "profile_osint" then cleaned_profile_osint data s
  else if String.eqb platform "search_engines" then cleaned_search_engines data s
  else if String.eqb platform "breachdirectory" then cleaned_breachdirectory data s
  else if String.eqb platform "compromise" then cleaned_compromise data s
  else Ok s.

(** The accumulators before the first document. *)
Definition initial_locals (identifier : json) : locals :=
  {| l_name := py_or identifier (JStr EmptyString);
     l_bio := JStr EmptyString;
     l_primary_location := JStr EmptyString;
     l_usernames := [];
     l_relationship_graph := [];
     l_emails := [];
     l_interests := [];
     l_links := [];
     l_posts := [];
     l_repos := [];
     l_key_events := [];
     l_compromised := false;
     l_compromise_notes := [];
     l_locations_found := [];
     l_names_found := [];
     l_bios_found := [] |}.

(** ** Cleaned-data correlation: building the final profile *)

(** One round of the title deduplication: [seen_titles] and
    [unique_posts]. *)
Definition dedupe_post (st : pyset * list json) (post : json)
  : M (pyset * list json) :=
  let (seen_titles, unique_posts) := st in
  title <- get_or_str post "title" EmptyString ;;
  if truthy title then
    seen <- set_mem seen_titles title ;;
    if negb seen then
      seen_titles <- set_add seen_titles title ;;
      Ok (seen_titles, (unique_posts ++ [post])%list)
    else Ok st
  else Ok st.

Definition dedupe_posts (posts : list json) : M (list json) :=
  st <- for_each posts (([] : pyset), ([] : list json)) dedupe_post ;;
  Ok (snd st).

(** [key_events.sort(key=lambda x: x[0] if x[0] else "")] and the
    rendering of the first 20 *)
Definition cleaned_timelines (key_events : list (json * string)) : M (list json) :=
  sorted_ <- sort_by_key
               (map (fun e => (if truthy (fst e) then fst e else JStr EmptyString, e))
                    key_events) ;;
  Ok (map (fun ke => let '(date, event) := snd ke in
                     JStr (py_str date ++ ": " ++ event))
          (firstn 20 sorted_)).

Definition cleaned_finish (s : locals) : M json :=
  name <- (match l_names_found s with
           | [] => Ok (l_name s)
           | n :: ns => max_by_len n ns
           end) ;;
  bio <- (match l_bios_found s with
          | [] => Ok (l_bio s)
          | _ =>
              unique_bios <- unique (l_bios_found s) ;;
              b <- py_join " | " (firstn 3 unique_bios) ;;
              Ok (JStr b)
          end) ;;
  let primary_location :=
    match l_locations_found s with
    | [] => l_primary_location s
    | loc :: _ => loc
    end in
  let emails := set_order (l_emails s) in
  let links := l_links s in
  unique_posts <- dedupe_posts (l_posts s) ;;
  let posts := firstn 50 unique_posts in
  let repos := l_repos s in
  let possible_interests := firstn 30 (set_order (l_interests s)) in
  key_timelines <- cleaned_timelines (l_key_events s) ;;
  let compromised := l_compromised s in
  let behavioral_anomalies := l_compromise_notes s in
  let platform_count := Z.of_nat (length (l_usernames s)) in
  let profile_type :=
    if 4 <=? platform_count then "comprehensive"
    else if 2 <=? platform_count then "moderate"
    else "limited" in
  let platforms_str :=
    match l_usernames s with
    | [] => "unknown platforms"
    | us => Str.join ", " (dict_keys us)
    end in
  let repo_count := Z.of_nat (length repos) in
  let post_count := Z.of_nat (length unique_posts) in
  let active := py_str name ++ " is active on " ++ platforms_str in
  let repos_part :=
    if repo_count =? 0 then []
    else ["with " ++ Str.of_Z repo_count ++ " repositories"] in
  let posts_part :=
    if post_count =? 0 then []
    else ["and " ++ Str.of_Z post_count ++ " posts/activities found"] in
  let location_part :=
    if truthy primary_location then ["based in " ++ py_str primary_location]
    else [] in
  let about_parts := (active :: repos_part ++ posts_part ++ location_part)%list in
  let about := Str.join ". " about_parts ++ "." in
  let compromise_str := if compromised then "COMPROMISED" else "NO" in
  let summary :=
    "Profile: " ++ py_str name ++ " | Platforms: " ++ Str.of_Z platform_count
    ++ " | Repos: " ++ Str.of_Z repo_count ++ " | Posts: " ++ Str.of_Z post_count
    ++ " | Compromised: " ++ compromise_str in
  Ok (JDict
        [ ("name", name);
          ("profile_type", JStr profile_type);
          ("about", JStr about);
          ("usernames", JDict (l_usernames s));
          ("bio", bio);
          ("emails", JList emails);
          ("primary_location", primary_location);
          ("posts", JList posts);
          ("repositories", JList repos);
          ("activity_patterns", JStr EmptyString);
          ("possible_interests", JList possible_interests);
          ("relationship_graph", JList (l_relationship_graph s));
          ("behavioral_anomalies", JList behavioral_anomalies);
          ("key_timelines", JList key_timelines);
          ("links", JDict links);
          ("compromised", JBool compromised);
          ("summary", JStr summary);
          ("llm_analysis", JNull) ]).

Definition cleaned_loop (cleaned_results : list json) (identifier : json) : M locals :=
  for_each cleaned_results (initial_locals identifier) cleaned_entry.

Definition _correlate_cleaned_data (cleaned_results : list json) (identifier : json)
  : M json :=
  s <- cleaned_loop cleaned_results identifier ;;
  cleaned_finish s.


(** ** Rule-based correlation: one pass per platform *)

(** [if src.get(k) and not base_profile[...]: base_profile[...] = src[k]] *)
Definition fill_name (src : json) (k : string) (s : locals) : M locals :=
  v <- get src k ;;
  if truthy v && negb (truthy (l_name s)) then
    x <- item src k ;; Ok (with_name x s)
  else Ok s.

Definition fill_bio (src : json) (k : string) (s : locals) : M locals :=
  v <- get src k ;;
  if truthy v && negb (truthy (l_bio s)) then
    x <- item src k ;; Ok (with_bio x s)
  else Ok s.

Definition fill_location (src : json) (k : string) (s : locals) : M locals :=
  v <- get src k ;;
  if truthy v && negb (truthy (l_primary_location s)) then
    x <- item src k ;; Ok (with_primary_location x s)
  else Ok s.

(** [for x in xs[:n]] *)
Definition for_first (n : nat) (xs : json)
    (body : locals -> json -> M locals) (s : locals) : M locals :=
  head <- py_take n xs ;;
  items <- py_iter head ;;
  for_each items s body.

Definition rule_github (data : json) (s : locals) : M locals :=
  d <- get data "data" ;;
  let gh_root := py_or d data in
  u <- get gh_root "user" ;;
  let user := py_or u (JDict []) in
  gh_login <- get user "login" ;;
  s <- fill_name user "name" s ;;
  s <- (if truthy gh_login then
          h <- get user "html_url" ;;
          let url := py_or h (JStr ("https://github.com/" ++ py_str gh_login)) in
          Ok (set_username "github" (JDict [("handle", gh_login); ("url", url)]) s)
        else Ok s) ;;
  s <- fill_bio user "bio" s ;;
  s <- if_field user "email" add_email s ;;
  s <- fill_location user "location" s ;;
  s <- if_field user "created_at"
         (fun x s => Ok (push_event x "GitHub account created" s)) s ;;
  s <- if_field user "blog" (fun x s => Ok (setdefault_link "website" x s)) s ;;
  rs <- get_or gh_root "repos" (JList []) ;;
  repos <- py_iter (py_or rs (JList [])) ;;
  s <- for_each repos s
         (fun s r =>
            name <- get r "name" ;;
            url <- get r "html_url" ;;
            description <- get r "description" ;;
            stars <- get r "stargazers_count" ;;
            forks <- get r "forks_count" ;;
            last_updated <- get r "updated_at" ;;
            Ok (push_repo (JDict [ ("name", name); ("url", url);
                                   ("description", description); ("stars", stars);
                                   ("forks", forks);
                                   ("last_updated", last_updated) ]) s)) ;;
  fs <- get_or gh_root "followers_sample" (JList []) ;;
  followers <- py_iter (py_or fs (JList [])) ;;
  s <- for_each followers s
         (fun s f =>
            login <- get f "login" ;;
            if truthy login then
              url <- get f "html_url" ;;
              Ok (push_relation
                    (JDict [ ("username", login); ("platform", JStr "GitHub");
                             ("type", JStr "follower"); ("url", url) ]) s)
            else Ok s) ;;
  gs <- get_or gh_root "following_sample" (JList []) ;;
  following <- py_iter (py_or gs (JList [])) ;;
  for_each following s
    (fun s f =>
       login <- get f "login" ;;
       if truthy login then
         url <- get f "html_url" ;;
         Ok (push_relation
               (JDict [ ("username", login); ("platform", JStr "GitHub");
                        ("type", JStr "following"); ("url", url) ]) s)
       else Ok s).

(** The followers and the following of a Twitter document. *)
Definition twitter_relations (tw_root : json) (k kind : string) (s : locals) : M locals :=
  f <- get tw_root k ;;
  let followers := py_or f (JDict []) in
  fl_data <- (if is_dict followers then get followers "data" else Ok followers) ;;
  items <- py_iter (py_or fl_data (JList [])) ;;
  for_each items s
    (fun s f =>
       u <- get f "username" ;;
       if truthy u then
         Ok (push_relation
               (JDict [ ("username", u); ("platform", JStr "Twitter");
                        ("type", JStr kind);
                        ("url", JStr ("https://twitter.com/" ++ py_str u)) ]) s)
       else Ok s).

Definition rule_twitter (data : json) (s : locals) : M locals :=
  let tw_root := data in
  u <- get tw_root "user" ;;
  let user := py_or u (JDict []) in
  handle <- get user "username" ;;
  s <- fill_name user "name" s ;;
  s <- (if truthy handle then
          let url := JStr ("https://twitter.com/" ++ py_str handle) in
          let s := set_username "twitter" (JDict [("handle", handle); ("url", url)]) s in
          Ok (setdefault_link "twitter" url s)
        else Ok s) ;;
  s <- fill_bio user "description" s ;;
  s <- fill_location user "location" s ;;
  s <- if_field user "created_at"
         (fun x s => Ok (push_event x "Twitter account created" s)) s ;;
  s <- if_field user "url" (fun x s => Ok (setdefault_link "website" x s)) s ;;
  t <- get tw_root "tweets" ;;
  let tweets := py_or t (JList []) in
  tweet_list <- (if is_dict tweets then get_or tweets "data" (JList []) else Ok tweets) ;;
  items <- py_iter (py_or tweet_list (JList [])) ;;
  s <- for_each items s
         (fun s t =>
            text <- get_or_str t "text" EmptyString ;;
            stripped <- py_strip text ;;
            let title := JStr (Str.take 120 stripped) in
            id <- (if truthy handle then get t "id" else Ok JNull) ;;
            let url :=
              if truthy handle && truthy id then
                JStr ("https://twitter.com/" ++ py_str handle ++ "/status/" ++ py_str id)
              else JNull in
            date <- get t "created_at" ;;
            metrics <- get t "public_metrics" ;;
            Ok (push_post
                  (JDict [ ("platform", JStr "Twitter"); ("title", title);
                           ("url", url); ("date", date); ("metrics", metrics) ]) s)) ;;
  s <- twitter_relations tw_root "followers" "follower" s ;;
  twitter_relations tw_root "following" "following" s.

Definition rule_snapchat (data : json) (s : locals) : M locals :=
  let sc_root := data in
  p <- get sc_root "profile_info" ;;
  let profile := py_or p (JDict []) in
  a <- get sc_root "account_details" ;;
  let account := py_or a (JDict []) in
  pu <- get profile "username" ;;
  sc_username <- (if truthy pu then Ok pu else get sc_root "normalized_username") ;;
  s <- (if truthy sc_username then
          let url := JStr ("https://www.snapchat.com/add/" ++ py_str sc_username) in
          bio <- get profile "bio" ;;
          let s := set_username "snapchat"
                     (JDict [("handle", sc_username); ("url", url); ("bio", bio)]) s in
          Ok (setdefault_link "snapchat" url s)
        else Ok s) ;;
  s <- fill_name profile "display_name" s ;;
  s <- fill_bio profile "bio" s ;;
  s <- fill_location profile "location" s ;;
  fc <- get sc_root "follower_count" ;;
  follower_count <- (if truthy fc then Ok fc else get account "follower_count") ;;
  s <- (if truthy follower_count then
          n <- py_format_comma follower_count ;;
          add_interest_str ("Snapchat influencer (" ++ n ++ " followers)") s
        else Ok s) ;;
  s <- for_field sc_root "external_sites" external_site s ;;
  i <- get profile "interests" ;;
  s <- for_first 15 (py_or i (JList []))
         (fun s interest => if truthy interest then add_interest interest s else Ok s) s ;;
  sp <- get sc_root "spotlight_videos" ;;
  s <- for_first 5 (py_or sp (JList []))
         (fun s video =>
            title <- get_or_str video "title" "Spotlight Video" ;;
            url <- get video "url" ;;
            date <- get video "upload_date" ;;
            views <- get video "watch_count" ;;
            likes <- get video "like_count" ;;
            comments <- get video "comment_count" ;;
            Ok (push_post
                  (JDict [ ("platform", JStr "Snapchat"); ("title", title);
                           ("url", url); ("date", date);
                           ("metrics", JDict [("views", views); ("likes", likes);
                                              ("comments", comments)]) ]) s)) s ;;
  h <- get sc_root "highlights" ;;
  s <- for_first 5 (py_or h (JList []))
         (fun s highlight =>
            t <- get_or_else highlight "title" "name" ;;
            let title := py_or t (JStr "Story Highlight") in
            url <- get highlight "url" ;;
            date <- get_or_else highlight "date" "created_at" ;;
            Ok (push_post
                  (JDict [ ("platform", JStr "Snapchat"); ("title", title);
                           ("url", url); ("date", date) ]) s)) s ;;
  st <- get_or_else sc_root "stories" "public_stories" ;;
  s <- for_first 5 (py_or st (JList []))
         (fun s story =>
            title <- get_or_str story "title" "Story" ;;
            url <- get story "url" ;;
            date <- get_or_else story "date" "posted_at" ;;
            views <- get story "views" ;;
            Ok (push_post
                  (JDict [ ("platform", JStr "Snapchat"); ("title", title);
                           ("url", url); ("date", date);
                           ("metrics", JDict [("views", views)]) ]) s)) s ;;
  s <- if_field sc_root "account_created"
         (fun x s => Ok (push_event x "Snapchat account created" s)) s ;;
  if_flag profile "verified" (add_interest_str "Verified Snapchat account") s.

(** The body of [for user in users: ...; break]. *)
Definition rule_stackoverflow_user (user : json) (s : locals) : M locals :=
  so_username <- get user "display_name" ;;
  so_user_id <- get user "user_id" ;;
  s <- (if truthy so_username && truthy so_user_id then
          l <- get user "link" ;;
          let url := py_or l (JStr ("https://stackoverflow.com/users/"
                                    ++ py_str so_user_id)) in
          let s := set_username "stackoverflow"
                     (JDict [("handle", so_username); ("url", url)]) s in
          Ok (setdefault_link "stackoverflow" url s)
        else Ok s) ;;
  let s := if truthy so_username && negb (truthy (l_name s))
           then with_name so_username s else s in
  s <- fill_location user "location" s ;;
  reputation <- get user "reputation" ;;
  s <- (if truthy reputation then
          n <- py_format_comma reputation ;;
          add_interest_str ("StackOverflow expert (rep: " ++ n ++ ")") s
        else Ok s) ;;
  b <- get user "badge_counts" ;;
  let badges := py_or b (JDict []) in
  gold <- get_or badges "gold" (JInt 0) ;;
  silver <- get_or badges "silver" (JInt 0) ;;
  bronze <- get_or badges "bronze" (JInt 0) ;;
  s <- (if truthy gold || truthy silver || truthy bronze then
          add_interest_str
            ("SO badges: " ++ py_str gold ++ "🥇 " ++ py_str silver ++ "🥈 "
             ++ py_str bronze ++ "🥉") s
        else Ok s) ;;
  creation_date <- get user "creation_date" ;;
  let s :=
    if truthy creation_date then
      match fromtimestamp_ymd creation_date with
      | Some dt_str => push_event (JStr dt_str) "StackOverflow account created" s
      | None => s
      end
    else s in
  s <- if_field user "website_url"
         (fun x s => Ok (setdefault_link "website" x s)) s ;;
  t <- get user "top_tags" ;;
  for_first 10 (py_or t (JList []))
    (fun s tag =>
       tag_name <- get tag "tag_name" ;;
       if truthy tag_name then add_interest tag_name s else Ok s) s.

Definition rule_stackoverflow (data : json) (s : locals) : M locals :=
  let so_root := data in
  u <- get so_root "users" ;;
  users <- py_iter (py_or u (JList [])) ;;
  match users with
  | [] => Ok s
  | user :: _ => rule_stackoverflow_user user s
  end.

(** [for name, _count in subs]: each member must unpack into two. *)
Definition unpack2 (v : json) : M (json * json) :=
  parts <- py_iter v ;;
  match parts with
  | [a; b] => Ok (a, b)
  | _ => Raise ValueError
  end.

Definition rule_reddit (data : json) (s : locals) : M locals :=
  let rd_root := data in
  ui <- get rd_root "user_info" ;;
  let user_info := py_or ui (JDict []) in
  username <- get user_info "username" ;;
  s <- (if truthy username then
          let url := JStr ("https://reddit.com/user/" ++ py_str username) in
          let s := set_username "reddit" (JDict [("handle", username); ("url", url)]) s in
          Ok (setdefault_link "reddit" url s)
        else Ok s) ;;
  s <- if_field user_info "account_creation_date"
         (fun x s => Ok (push_event x "Reddit account created" s)) s ;;
  s <- for_field rd_root "posts"
         (fun s p =>
            title <- get p "title" ;;
            url <- get p "url" ;;
            date <- get p "timestamp" ;;
            upvotes <- get p "upvotes" ;;
            downvotes <- get p "downvotes" ;;
            Ok (push_post
                  (JDict [ ("platform", JStr "Reddit"); ("title", title);
                           ("url", url); ("date", date);
                           ("metrics", JDict [("upvotes", upvotes);
                                              ("downvotes", downvotes)]) ]) s)) s ;;
  a <- get rd_root "activity_metrics" ;;
  let activity := py_or a (JDict []) in
  for_field activity "most_active_subreddits"
    (fun s sub =>
       nc <- unpack2 sub ;;
       let name := fst nc in
       if truthy name then add_interest_str ("r/" ++ py_str name) s else Ok s) s.

(** The platform a URL's host points to. *)
Definition infer_platform (host : string) : option string :=
  if Str.contains "linkedin.com" host then Some "linkedin"
  else if Str.contains "github.com" host then Some "github"
  else if Str.contains "twitter.com" host || Str.contains "x.com" host then Some "twitter"
  else if Str.contains "reddit.com" host then Some "reddit"
  else if Str.contains "youtube.com" host || Str.contains "youtu.be" host
  then Some "youtube"
  else None.

(** One round of [for r in results] of the ProfileOSINT and search-engine
    documents. *)
Definition rule_result (s : locals) (r : json) : M locals :=
  url <- get r "url" ;;
  p <- get r "platform" ;;
  platform <- py_lower (py_or p (JStr "Other")) ;;
  if negb (truthy url) then Ok s
  else
    let host :=
      match url with
      | JStr u => match urlparse_netloc u with
                  | Some n => Str.lower n
                  | None => EmptyString
                  end
      | _ => EmptyString
      end in
    let inferred := infer_platform host in
    let platform :=
      match inferred with
      | Some i => if String.eqb platform "other" then i else platform
      | None => platform
      end in
    let s :=
      if String.eqb platform "github" && negb (dict_has (l_links s) "github")
      then set_link "github" url s
      else if Str.mem platform ["linkedin"; "twitter"; "reddit"; "youtube"]
              && negb (dict_has (l_links s) platform)
      then set_link platform url s
      else s in
    snippet <- get_or_str r "snippet" EmptyString ;;
    for_field r "entities"
      (fun s ent =>
         ty <- get ent "type" ;;
         s <- (if py_eq ty (JStr "EMAIL") then
                 text <- get ent "text" ;; add_email text s
               else Ok s) ;;
         ty <- get ent "type" ;;
         if py_eq ty (JStr "NAME") && negb (truthy (l_name s)) then
           text <- get ent "text" ;; Ok (with_name text s)
         else Ok s) s.

Definition rule_links (data : json) (s : locals) : M locals :=
  for_field data "results" rule_result s.

Definition rule_breachdirectory (data : json) (s : locals) : M locals :=
  f <- get data "found" ;;
  let found := py_or f (JInt 0) in
  positive <- py_gt_int found 0 ;;
  if (positive : bool) then
    Ok (push_note ("BreachDirectory reports " ++ py_str found ++ " leaked records.")
          (with_compromised true s))
  else Ok s.

Definition rule_compromise (data : json) (s : locals) : M locals :=
  st <- get data "status" ;;
  status <- py_upper (py_or st (JStr EmptyString)) ;;
  if Str.mem status ["COMPROMISED"; "AT RISK"] then
    score <- get data "compromise_score" ;;
    Ok (push_note ("HudsonRock/COMB status: " ++ status ++ " (score "
                   ++ py_str score ++ ").")
          (with_compromised true s))
  else Ok s.

(** One of the seven [for entry in structured_osint] loops: the branch runs
    on the documents of the collections it names. *)
Definition rule_pass (colls : list string) (branch : json -> locals -> M locals)
    (entries : list json) (s : locals) : M locals :=
  for_each entries s
    (fun s entry =>
       c <- get entry "collection" ;;
       coll <- py_lower (py_or c (JStr EmptyString)) ;;
       d <- get entry "data" ;;
       let data := py_or d (JDict []) in
       if Str.mem coll colls then branch data s else Ok s).

Definition rule_loops (entries : list json) (identifier : json) : M locals :=
  let s := initial_locals identifier in
  s <- rule_pass ["github"] rule_github entries s ;;
  s <- rule_pass ["twitter"] rule_twitter entries s ;;
  s <- rule_pass ["snapchat"] rule_snapchat entries s ;;
  s <- rule_pass ["stackoverflow"] rule_stackoverflow entries s ;;
  s <- rule_pass ["reddit"] rule_reddit entries s ;;
  s <- rule_pass ["profile_osint"; "search_engines"] rule_links entries s ;;
  s <- rule_pass ["breachdirectory"] rule_breachdirectory entries s ;;
  rule_pass ["compromise"] rule_compromise entries s.

(** ** Rule-based correlation: building the final profile *)

(** [sorted(xs)] on arbitrary members *)
Definition py_sorted (xs : list json) : M (list json) :=
  r <- sort_by_key (map (fun x => (x, tt)) xs) ;;
  Ok (map fst r).

(** The posts counted by platform, in order of first appearance. *)
Definition count_platform (counts : list (string * Z)) (p : json)
  : M (list (string * Z)) :=
  pl <- get_or_str p "platform" EmptyString ;;
  plat <- py_lower pl ;;
  if String.eqb plat EmptyString then Ok counts
  else
    Ok ((fix bump (cs : list (string * Z)) : list (string * Z) :=
           match cs with
           | [] => [(plat, 0 + 1)]
           | (k, v) :: cs' =>
               if String.eqb k plat then (k, v + 1) :: cs' else (k, v) :: bump cs'
           end) counts).

Definition base_profile_dict (s : locals) (profile_type about : json)
    (emails posts possible_interests key_timelines : list json)
    (activity_patterns summary : json) : json :=
  JDict [ ("name", l_name s);
          ("profile_type", profile_type);
          ("about", about);
          ("usernames", JDict (l_usernames s));
          ("bio", l_bio s);
          ("emails", JList emails);
          ("primary_location", l_primary_location s);
          ("posts", JList posts);
          ("repositories", JList (l_repos s));
          ("activity_patterns", activity_patterns);
          ("possible_interests", JList possible_interests);
          ("relationship_graph", JList (l_relationship_graph s));
          ("behavioral_anomalies", JList []);
          ("key_timelines", JList key_timelines);
          ("links", JDict (l_links s));
          ("compromised", JBool (l_compromised s));
          ("summary", summary);
          ("llm_analysis", JNull) ].

Definition rule_finish (s : locals) : M json :=
  emails <- py_sorted (filter truthy (set_order (l_emails s))) ;;
  possible_interests <- py_sorted (set_order (l_interests s)) ;;
  let repos := l_repos s in
  let posts := l_posts s in
  let compromised := l_compromised s in
  let platforms := Str.sorted (dict_keys (l_usernames s)) in
  let total_repos := Z.of_nat (length repos) in
  let total_posts := Z.of_nat (length posts) in
  notes <- (match l_compromise_notes s with
            | [] => Ok []
            | ns => j <- py_join "; " ns ;; Ok [j]
            end) ;;
  let profile_bit :=
    if truthy (l_name s) then ["Profile: " ++ py_str (l_name s)] else [] in
  let platforms_bit :=
    match platforms with
    | [] => []
    | _ => ["Platforms: " ++ Str.join ", " platforms]
    end in
  let repos_bit :=
    if total_repos =? 0 then []
    else ["GitHub repositories: " ++ Str.of_Z total_repos] in
  let posts_bit :=
    if total_posts =? 0 then []
    else ["Social posts collected: " ++ Str.of_Z total_posts] in
  let compromised_bit :=
    [if compromised then "Compromised: YES" else "Compromised: NO"] in
  let summary_bits :=
    (profile_bit ++ platforms_bit ++ repos_bit ++ posts_bit ++ compromised_bit
     ++ notes)%list in
  let summary := Str.join " | " summary_bits in
  let keyed := map (fun e => (fst e, e)) (l_key_events s) in
  let key_events_sorted :=
    match sort_by_key keyed with
    | Ok r => map snd r
    | Raise _ => l_key_events s
    end in
  let key_timelines :=
    map (fun e => JStr (py_str (fst e) ++ ": " ++ snd e)) key_events_sorted in
  platform_counts <- for_each posts ([] : list (string * Z)) count_platform ;;
  let activity :=
    match platform_counts with
    | [] => []
    | _ => ["Activity: "
            ++ Str.join ", "
                 (map (fun kv => fst kv ++ "=" ++ Str.of_Z (snd kv) ++ " posts")
                      platform_counts)]
    end in
  let observed :=
    match repos with
    | [] => []
    | _ => ["GitHub repos observed: " ++ Str.of_Z (Z.of_nat (length repos))]
    end in
  let parts := (activity ++ observed)%list in
  let activity_patterns :=
    match parts with
    | [] => JStr EmptyString
    | _ => JStr (Str.join " | " parts)
    end in
  _ensure_profile_classification
    (base_profile_dict s JNull JNull emails posts possible_interests key_timelines
       activity_patterns (JStr summary)).

Definition NO_DATA_SUMMARY : string :=
  "No OSINT data available for this identifier yet. Run data collection first.".

Definition _rule_based_correlation (structured_osint identifier : json) : M json :=
  match structured_osint with
  | JList (entry :: entries) =>
      s <- rule_loops (entry :: entries) identifier ;;
      rule_finish s
  | _ =>
      Ok (base_profile_dict (initial_locals identifier) JNull JNull [] [] [] []
            (JStr EmptyString) (JStr NO_DATA_SUMMARY))
  end.

End Correlation.

(* ===================================================================== *)
(** * Prompts                                                            *)
(* ===================================================================== *)

(** The double quote, and a word between double quotes. *)
Definition dq : string := String Str.dquote EmptyString.
Definition q (s : string) : string := dq ++ s ++ dq.

Definition SCHEMA_DESCRIPTION : string :=
  "
The JSON object MUST use exactly the following top-level schema:
- " ++ q "name" ++ ": string or null – real name or primary identifier.
- " ++ q "profile_type" ++ ": string or null – short label such as " ++ q "developer"
  ++ ", " ++ q "influencer" ++ ", " ++ q "executive" ++ ", " ++ q "organization"
  ++ ", " ++ q "researcher" ++ ", or " ++ q "individual" ++ ".
- " ++ q "about"
  ++ ": string or null – 1–3 sentence description of who this profile appears to be.
- " ++ q "usernames"
  ++ ": object – keys are platform names (github, twitter, reddit, linkedin, etc.) and values are objects of the form {"
  ++ q "handle" ++ ": string or null, " ++ q "url" ++ ": string or null, " ++ q "bio"
  ++ ": string or null}.
- " ++ q "bio" ++ ": string or null – concise primary bio text if available.
- " ++ q "emails" ++ ": array of strings – unique email addresses or empty array.
- " ++ q "primary_location"
  ++ ": string or null – city/country or best-effort location.
- " ++ q "posts" ++ ": array of objects – each with {" ++ q "platform"
  ++ ": string or null, " ++ q "title" ++ ": string or null, " ++ q "url"
  ++ ": string or null, " ++ q "date" ++ ": string or null, " ++ q "metrics"
  ++ ": object or null}.
- " ++ q "repositories" ++ ": array of objects – each with {" ++ q "name"
  ++ ": string or null, " ++ q "url" ++ ": string or null, " ++ q "description"
  ++ ": string or null, " ++ q "language" ++ ": string or null, " ++ q "stars"
  ++ ": integer or null, " ++ q "forks" ++ ": integer or null, " ++ q "last_updated"
  ++ ": string or null}.
- " ++ q "activity_patterns"
  ++ ": string or null – short summary of observed posting or coding behaviour.
- " ++ q "possible_interests"
  ++ ": array of strings – topics, technologies, or communities inferred from data.
- " ++ q "relationship_graph" ++ ": array of objects – each with {" ++ q "username"
  ++ ": string or null, " ++ q "platform" ++ ": string or null, " ++ q "type"
  ++ ": string or null, " ++ q "url" ++ ": string or null}.
- " ++ q "behavioral_anomalies"
  ++ ": array of strings – unusual patterns, red flags, or anomalies.
- " ++ q "key_timelines"
  ++ ": array of strings – important dated events in free-text form.
- " ++ q "links"
  ++ ": object – keys are labels (github, twitter, linkedin, website, etc.) and values are URL strings.
- " ++ q "compromised"
  ++ ": boolean – true if there is credible evidence of compromise, otherwise false.
- " ++ q "summary"
  ++ ": string or null – machine-friendly one-paragraph summary of the profile.
- " ++ q "llm_analysis" ++ ": string or null – optional longer narrative; may be null.

Rules:
- Do NOT add or remove top-level keys. Always include all of them.
- When you have no confident value for a field, set it to null (for strings) or an empty array/object of the correct type.
- The output must be a single JSON object compatible with Python json.loads(), with no text before or after it.
".

Definition base_instruction (osint_data : string) : string :=
  "
You are the ShadowHorn OSINT & Threat Intelligence AI assistant.
Your job is to analyze the provided OSINT JSON data and output a single VALID JSON object (no prose, no markdown, no code fences).
The JSON must be parseable by Python's json.loads() — return only the JSON object.

Context:
- The input is OSINT data collected from multiple sources (social media, code repos, breach lookups).
- Produce structured intelligence suitable for automated reports and downstream processing.
- Use the exact correlation schema described below so downstream systems can rely on it.
- If a user appears compromised and it is not a clear false positive, set "
  ++ q "compromised" ++ ": true; otherwise set " ++ q "compromised" ++ ": false.
- Always include links to supporting evidence where available.
- Include platform-level details (GitHub repos, Twitter posts, Reddit posts) when present.
- Include a short machine-friendly summary field named " ++ q "summary" ++ ".

Required JSON schema:
"
  ++ SCHEMA_DESCRIPTION
  ++ "

OSINT data:
"
  ++ osint_data
  ++ "
".

Definition FAST_ADDITION : string :=
  "
Mode: FAST correlation.
Instructions:
- Prioritize speed and high-confidence, easy-to-derive signals.
- At minimum, fill these fields as well as possible: name, profile_type, about, usernames, emails, primary_location, links, compromised, summary.
- For remaining fields you may leave them null or empty if data is not obvious, but the keys MUST still exist.
- Keep the output compact but fully valid JSON using the required schema.
".

Definition DEEP_ADDITION : string :=
  "
Mode: DEEP correlation.
Instructions:
- Perform comprehensive correlation across all available platform data.
- Populate as many fields in the required schema as possible, including:
  identity (name, profile_type, about, primary_location),
  usernames and links across platforms,
  detailed posts and repositories,
  activity_patterns, possible_interests, relationship_graph, behavioral_anomalies, key_timelines,
  compromise assessment and a high-quality summary and llm_analysis.
- Output complete JSON only. Do not include any text outside the JSON object.
".

Definition self_addition (custom_prompt : string) : string :=
  "
Mode: SELF-defined correlation (user instruction).
User instruction:
"
  ++ custom_prompt
  ++ "

Instructions:
- Follow the user's OSINT-related intent, but ALWAYS use the exact JSON schema described above.
- Do not change top-level key names or types; fill them as best as possible from the data.
- Output a valid JSON object only, parseable by Python.
".

Definition INVALID_SELF_PROMPT : string :=
  "Invalid custom prompt. For self mode, provide an OSINT-related instruction (e.g., 'Correlate GitHub, Twitter and Reddit for user X and list repos, posts, links, and compromised indicators').".

Section Prompts.

Definition SAFE_KEYWORDS : list string :=
  [ "osint"; "correlation"; "profile"; "user"; "social media"; "github";
    "twitter"; "reddit"; "account"; "username"; "analysis"; "breach";
    "compromise"; "leak"; "email"; "repository"; "repos"; "post"; "posts";
    "timeline" ].

(** [is_osint_prompt(text)], with the default threshold of 1 *)
Definition is_osint_prompt (text : string) : bool :=
  if String.eqb text EmptyString then false
  else
    let lower := Str.lower text in
    let found := length (filter (fun kw => Str.contains kw lower) SAFE_KEYWORDS) in
    (1 <=? found)%nat.

(** [build_prompt(mode, osint_data, custom_prompt)]; [dumps] is
    [json.dumps] on the one-key error object. *)
Definition build_prompt (dumps_error : string -> string)
    (mode osint_data custom_prompt : string) : string :=
  if String.eqb mode "fast" then base_instruction osint_data ++ FAST_ADDITION
  else if String.eqb mode "deep" then base_instruction osint_data ++ DEEP_ADDITION
  else if String.eqb mode "self" then
    if String.eqb custom_prompt EmptyString || negb (is_osint_prompt custom_prompt)
    then dumps_error INVALID_SELF_PROMPT
    else base_instruction osint_data ++ self_addition custom_prompt
  else base_instruction osint_data
       ++ "
Instructions: Output valid JSON only using the required schema.".

(** ** Cleaning the text a model returns *)

(** [re.sub(r"```(?:json|js|text)?\s*", "", text)]: [skip] characters of a
    match are still to be dropped; [ws] says that the whitespace ending a
    match is being dropped. *)
Fixpoint strip_fences (skip : nat) (ws : bool) (s : string) : string :=
  match s with
  | EmptyString => EmptyString
  | String c s' =>
      match skip with
      | S k => strip_fences k ws s'
      | O =>
          if ws && Str.is_space c then strip_fences 0 true s'
          else if prefix "```" s then
            let tag :=
              if prefix "```json" s then 4%nat
              else if prefix "```js" s then 2%nat
              else if prefix "```text" s then 4%nat
              else 0%nat in
            strip_fences (2 + tag) true s'
          else String c (strip_fences 0 false s')
      end
  end.

(** [text.replace("```", "")] *)
Fixpoint drop_backticks (skip : nat) (s : string) : string :=
  match s with
  | EmptyString => EmptyString
  | String c s' =>
      match skip with
      | S k => drop_backticks k s'
      | O => if prefix "```" s then drop_backticks 2 s'
             else String c (drop_backticks 0 s')
      end
  end.

(** [text.find(c)] and [text.rfind(c)] *)
Fixpoint find_char (c : ascii) (s : string) : option nat :=
  match s with
  | EmptyString => None
  | String c' s' =>
      if Ascii.eqb c c' then Some 0%nat
      else option_map S (find_char c s')
  end.

Fixpoint rfind_char (c : ascii) (s : string) : option nat :=
  match s with
  | EmptyString => None
  | String c' s' =>
      match rfind_char c s' with
      | Some i => Some (S i)
      | None => if Ascii.eqb c c' then Some 0%nat else None
      end
  end.

Definition clean_model_text (text : option string) : string :=
  match text with
  | None => EmptyString
  | Some text =>
      if String.eqb text EmptyString then EmptyString
      else
        let text := strip_fences 0 false text in
        let text := drop_backticks 0 text in
        let text := Str.strip text in
        match find_char "{" text, rfind_char "}" text with
        | Some first_brace, Some last_brace =>
            if (first_brace <? last_brace)%nat then
              Str.strip (substring first_brace (last_brace + 1 - first_brace) text)
            else text
        | _, _ => text
        end
  end.

(** ** The extraction prompts of the deep-clean mode *)

Definition CLEAN_PROMPT_GITHUB : string :=
  "Extract all structured information from this GitHub data and return as JSON:
{
  " ++ q "username" ++ ": " ++ q "string" ++ ",
  " ++ q "name" ++ ": " ++ q "string or null" ++ ",
  " ++ q "bio" ++ ": " ++ q "string or null" ++ ",
  " ++ q "email" ++ ": " ++ q "string or null" ++ ", 
  " ++ q "location" ++ ": " ++ q "string or null" ++ ",
  " ++ q "company" ++ ": " ++ q "string or null" ++ ",
  " ++ q "website" ++ ": " ++ q "string or null" ++ ",
  " ++ q "created_at" ++ ": " ++ q "date string or null" ++ ",
  " ++ q "followers_count" ++ ": number,
  " ++ q "following_count" ++ ": number,
  " ++ q "public_repos_count" ++ ": number,
  " ++ q "repositories" ++ ": [{" ++ q "name" ++ ": " ++ q "string" ++ ", "
  ++ q "description" ++ ": " ++ q "string" ++ ", " ++ q "stars" ++ ": number, "
  ++ q "forks" ++ ": number, " ++ q "language" ++ ": " ++ q "string" ++ ", " ++ q "url"
  ++ ": " ++ q "string" ++ ", " ++ q "updated_at" ++ ": " ++ q "string" ++ "}],
  " ++ q "top_languages" ++ ": [" ++ q "string" ++ "],
  " ++ q "organizations" ++ ": [" ++ q "string" ++ "],
  " ++ q "followers_sample" ++ ": [{" ++ q "username" ++ ": " ++ q "string" ++ ", "
  ++ q "url" ++ ": " ++ q "string" ++ "}],
  " ++ q "following_sample" ++ ": [{" ++ q "username" ++ ": " ++ q "string" ++ ", "
  ++ q "url" ++ ": " ++ q "string" ++ "}],
  " ++ q "profile_url" ++ ": " ++ q "string" ++ "
}
Extract as much as possible. Return only valid JSON.".

Definition CLEAN_PROMPT_TWITTER : string :=
  "Extract all structured information from this Twitter/X data and return as JSON:
{
  " ++ q "username" ++ ": " ++ q "string" ++ ",
  " ++ q "name" ++ ": " ++ q "string or null" ++ ",
  " ++ q "bio" ++ ": " ++ q "string or null" ++ ",
  " ++ q "location" ++ ": " ++ q "string or null" ++ ",
  " ++ q "website" ++ ": " ++ q "string or null" ++ ",
  " ++ q "created_at" ++ ": " ++ q "date string or null" ++ ",
  " ++ q "followers_count" ++ ": number,
  " ++ q "following_count" ++ ": number,
  " ++ q "tweets_count" ++ ": number,
  " ++ q "verified" ++ ": boolean,
  " ++ q "recent_tweets" ++ ": [{" ++ q "text" ++ ": " ++ q "string" ++ ", "
  ++ q "date" ++ ": " ++ q "string" ++ ", " ++ q "likes" ++ ": number, "
  ++ q "retweets" ++ ": number, " ++ q "url" ++ ": " ++ q "string" ++ "}],
  " ++ q "hashtags_used" ++ ": [" ++ q "string" ++ "],
  " ++ q "mentions" ++ ": [" ++ q "string" ++ "],
  " ++ q "profile_url" ++ ": " ++ q "string" ++ "
}
Extract as much as possible. Return only valid JSON.".

Definition CLEAN_PROMPT_REDDIT : string :=
  "Extract all structured information from this Reddit data and return as JSON:
{
  " ++ q "username" ++ ": " ++ q "string" ++ ",
  " ++ q "karma_post" ++ ": number,
  " ++ q "karma_comment" ++ ": number,
  " ++ q "created_at" ++ ": " ++ q "date string or null" ++ ",
  " ++ q "verified_email" ++ ": boolean,
  " ++ q "subreddits_active" ++ ": [" ++ q "string" ++ "],
  " ++ q "recent_posts" ++ ": [{" ++ q "title" ++ ": " ++ q "string" ++ ", "
  ++ q "subreddit" ++ ": " ++ q "string" ++ ", " ++ q "score" ++ ": number, "
  ++ q "url" ++ ": " ++ q "string" ++ ", " ++ q "date" ++ ": " ++ q "string" ++ "}],
  " ++ q "recent_comments" ++ ": [{" ++ q "text" ++ ": " ++ q "string" ++ ", "
  ++ q "subreddit" ++ ": " ++ q "string" ++ ", " ++ q "score" ++ ": number, "
  ++ q "date" ++ ": " ++ q "string" ++ "}],
  " ++ q "profile_url" ++ ": " ++ q "string" ++ "
}
Extract as much as possible. Return only valid JSON.".

Definition CLEAN_PROMPT_SNAPCHAT : string :=
  "Extract all structured information from this Snapchat data and return as JSON:
{
  " ++ q "username" ++ ": " ++ q "string" ++ ",
  " ++ q "display_name" ++ ": " ++ q "string or null" ++ ",
  " ++ q "bio" ++ ": " ++ q "string or null" ++ ",
  " ++ q "location" ++ ": " ++ q "string or null" ++ ",
  " ++ q "follower_count" ++ ": number or null,
  " ++ q "verified" ++ ": boolean,
  " ++ q "interests" ++ ": [" ++ q "string" ++ "],
  " ++ q "external_sites" ++ ": [" ++ q "string" ++ "],
  " ++ q "spotlight_videos" ++ ": [{" ++ q "title" ++ ": " ++ q "string" ++ ", "
  ++ q "url" ++ ": " ++ q "string" ++ ", " ++ q "views" ++ ": number, " ++ q "likes"
  ++ ": number}],
  " ++ q "profile_url" ++ ": " ++ q "string" ++ "
}
Extract as much as possible. Return only valid JSON.".

Definition CLEAN_PROMPT_STACKOVERFLOW : string :=
  "Extract all structured information from this StackOverflow data and return as JSON:
{
  " ++ q "username" ++ ": " ++ q "string" ++ ",
  " ++ q "user_id" ++ ": number,
  " ++ q "location" ++ ": " ++ q "string or null" ++ ",
  " ++ q "website" ++ ": " ++ q "string or null" ++ ",
  " ++ q "reputation" ++ ": number,
  " ++ q "badges" ++ ": {" ++ q "gold" ++ ": number, " ++ q "silver" ++ ": number, "
  ++ q "bronze" ++ ": number},
  " ++ q "top_tags" ++ ": [{" ++ q "name" ++ ": " ++ q "string" ++ ", "
  ++ q "answer_count" ++ ": number, " ++ q "question_count" ++ ": number}],
  " ++ q "created_at" ++ ": " ++ q "date string or null" ++ ",
  " ++ q "profile_url" ++ ": " ++ q "string" ++ "
}
Extract as much as possible. Return only valid JSON.".

Definition CLEAN_PROMPT_LINKEDIN : string :=
  "Extract all structured information from this LinkedIn data and return as JSON:
{
  " ++ q "username" ++ ": " ++ q "string or null" ++ ",
  " ++ q "name" ++ ": " ++ q "string" ++ ",
  " ++ q "headline" ++ ": " ++ q "string or null" ++ ",
  " ++ q "location" ++ ": " ++ q "string or null" ++ ",
  " ++ q "about" ++ ": " ++ q "string or null" ++ ",
  " ++ q "current_company" ++ ": " ++ q "string or null" ++ ",
  " ++ q "current_position" ++ ": " ++ q "string or null" ++ ",
  " ++ q "experience" ++ ": [{" ++ q "title" ++ ": " ++ q "string" ++ ", "
  ++ q "company" ++ ": " ++ q "string" ++ ", " ++ q "duration" ++ ": " ++ q "string"
  ++ "}],
  " ++ q "education" ++ ": [{" ++ q "school" ++ ": " ++ q "string" ++ ", "
  ++ q "degree" ++ ": " ++ q "string" ++ ", " ++ q "field" ++ ": " ++ q "string"
  ++ "}],
  " ++ q "skills" ++ ": [" ++ q "string" ++ "],
  " ++ q "certifications" ++ ": [" ++ q "string" ++ "],
  " ++ q "profile_url" ++ ": " ++ q "string" ++ "
}
Extract as much as possible. Return only valid JSON.".

Definition CLEAN_PROMPT_PROFILE_OSINT : string :=
  "Extract all structured information from this profile/OSINT data and return as JSON:
{
  " ++ q "emails_found" ++ ": [" ++ q "string" ++ "],
  " ++ q "usernames_found" ++ ": [" ++ q "string" ++ "],
  " ++ q "names_found" ++ ": [" ++ q "string" ++ "],
  " ++ q "locations_found" ++ ": [" ++ q "string" ++ "],
  " ++ q "phones_found" ++ ": [" ++ q "string" ++ "],
  " ++ q "social_profiles" ++ ": [{" ++ q "platform" ++ ": " ++ q "string" ++ ", "
  ++ q "url" ++ ": " ++ q "string" ++ ", " ++ q "username" ++ ": " ++ q "string"
  ++ "}],
  " ++ q "websites" ++ ": [" ++ q "string" ++ "],
  " ++ q "other_info" ++ ": [" ++ q "string" ++ "]
}
Extract as much as possible. Return only valid JSON.".

Definition CLEAN_PROMPT_SEARCH_ENGINES : string :=
  "Extract all structured information from this search engine results and return as JSON:
{
  " ++ q "total_results" ++ ": number,
  " ++ q "notable_links" ++ ": [{" ++ q "title" ++ ": " ++ q "string" ++ ", "
  ++ q "url" ++ ": " ++ q "string" ++ ", " ++ q "snippet" ++ ": " ++ q "string" ++ ", "
  ++ q "source" ++ ": " ++ q "string" ++ "}],
  " ++ q "social_profiles_found" ++ ": [{" ++ q "platform" ++ ": " ++ q "string"
  ++ ", " ++ q "url" ++ ": " ++ q "string" ++ "}],
  " ++ q "news_mentions" ++ ": [{" ++ q "title" ++ ": " ++ q "string" ++ ", "
  ++ q "url" ++ ": " ++ q "string" ++ ", " ++ q "date" ++ ": " ++ q "string" ++ "}],
  " ++ q "other_appearances" ++ ": [" ++ q "string" ++ "]
}
Extract as much as possible. Return only valid JSON.".

Definition CLEAN_PROMPT_BREACHDIRECTORY : string :=
  "Extract all structured information from this breach data and return as JSON:
{
  " ++ q "email_searched" ++ ": " ++ q "string" ++ ",
  " ++ q "found_in_breaches" ++ ": boolean,
  " ++ q "breaches" ++ ": [{" ++ q "source" ++ ": " ++ q "string" ++ ", " ++ q "date"
  ++ ": " ++ q "string" ++ ", " ++ q "data_types" ++ ": [" ++ q "string" ++ "]}],
  " ++ q "passwords_exposed" ++ ": boolean,
  " ++ q "total_breach_count" ++ ": number
}
Extract as much as possible. Return only valid JSON.".

Definition CLEAN_PROMPT_COMPROMISE : string :=
  "Extract all structured information from this compromise check data and return as JSON:
{
  " ++ q "identifier_checked" ++ ": " ++ q "string" ++ ",
  " ++ q "is_compromised" ++ ": boolean,
  " ++ q "breach_sources" ++ ": [" ++ q "string" ++ "],
  " ++ q "exposed_data_types" ++ ": [" ++ q "string" ++ "],
  " ++ q "last_breach_date" ++ ": " ++ q "string or null" ++ ",
  " ++ q "risk_level" ++ ": " ++ q "string (low/medium/high/critical)" ++ "
}
Extract as much as possible. Return only valid JSON.".

Definition PLATFORM_CLEAN_PROMPTS : list (string * string) :=
  [ ("github", CLEAN_PROMPT_GITHUB);
    ("twitter", CLEAN_PROMPT_TWITTER);
    ("reddit", CLEAN_PROMPT_REDDIT);
    ("snapchat", CLEAN_PROMPT_SNAPCHAT);
    ("stackoverflow", CLEAN_PROMPT_STACKOVERFLOW);
    ("linkedin", CLEAN_PROMPT_LINKEDIN);
    ("profile_osint", CLEAN_PROMPT_PROFILE_OSINT);
    ("search_engines", CLEAN_PROMPT_SEARCH_ENGINES);
    ("breachdirectory", CLEAN_PROMPT_BREACHDIRECTORY);
    ("compromise", CLEAN_PROMPT_COMPROMISE) ].

End Prompts.

(* ===================================================================== *)
(** * Backends: selection, retry and fallback                            *)
(* ===================================================================== *)

(** What a run does to the outside world, in order. *)
Inductive event : Type :=
| BackendChosen (backend : option string)
| Called (model : string)
| Slept (seconds : Q)
| FlanCalled
| Reported (step platform status : string)
| Stored (platform : string).

Section Backends.
Context {F : PyFloat} {R : PyRuntime}.

(** The outside world of a run: MongoDB, the files, the environment
    variables, the installed packages, the two model backends, the [json]
    module, the clock. *)
Record world : Type := mkWorld {
  (** [MongoClient(mongo_uri)] and [get_database] *)
  connect : string -> M unit;
  (** [db.get_collection(name).find_one({"identifier": identifier})] *)
  find_one : string -> json -> M (option json);
  (** [cleaned_coll.update_one(..., upsert=True)] *)
  update_one : string -> json -> M unit;
  (** [load_osint_files()] *)
  osint_files : string;
  (** [transformers] and [torch] can be imported *)
  local_ok : bool;
  (** [get_openrouter_key_from_db(mongo_uri)] *)
  openrouter_key : string -> json;
  (** the environment variables [CORRELATION_BACKEND], lowered, and
      [CORRELATION_MODEL] *)
  CORRELATION_BACKEND : string;
  MODEL : string;
  (** [_call_local_flan(prompt, max_new_tokens)] *)
  call_local_flan : string -> M json;
  (** the n-th [client.chat.completions.create(model, messages)] of the
      run: it raises, or it answers with the text of the first choice *)
  chat : nat -> string -> string -> M (option string);
  (** [json.loads], [None] for a [JSONDecodeError]; [json.dumps], plain and
      with [indent=2] *)
  json_loads : string -> option json;
  json_dumps : json -> string;
  json_dumps_indent : json -> string;
  (** [str(e)] for an exception that is not the client's *)
  exn_text : exn -> string;
  (** [time.strftime("%Y-%m-%dT%H:%M:%SZ", time.gmtime())] at the n-th
      reading of the clock *)
  clock : nat -> string
}.

Definition DEFAULT_MONGO_URI : string := "mongodb://localhost:27017/".

Definition str_of_exn (w : world) (e : exn) : string :=
  match e with
  | LibraryError msg => msg
  | _ => exn_text w e
  end.

(** ** Choosing the backend *)

Definition detect_backends (w : world) (mongo_uri : string) : bool * bool :=
  (local_ok w, truthy (openrouter_key w mongo_uri)).

Definition choose_backend (w : world) (preferred : option string) (mongo_uri : string)
  : option string :=
  let status := detect_backends w mongo_uri in
  let is_configured name :=
    if String.eqb name "local_flan" then fst status
    else if String.eqb name "openrouter" then snd status
    else false in
  let wanted name :=
    negb (String.eqb name EmptyString) && negb (String.eqb name "auto")
    && is_configured name in
  let preferred := match preferred with Some p => p | None => EmptyString end in
  let env_choice := CORRELATION_BACKEND w in
  if wanted preferred then Some preferred
  else if wanted env_choice then Some env_choice
  else if is_configured "local_flan" then Some "local_flan"
  else if is_configured "openrouter" then Some "openrouter"
  else None.

(** ** The models to try *)

Definition OPENROUTER_MODEL_PRIORITY : list string :=
  [ "nex-agi/deepseek-v3.1-nex-n1:free";
    "tngtech/deepseek-r1t2-chimera:free";
    "tngtech/deepseek-r1t-chimera:free";
    "deepseek/deepseek-r1-0528:free";
    "openai/gpt-oss-20b:free";
    "openai/gpt-oss-120b:free" ].

Definition add_if_valid (ordered : list string) (model_id : option string)
  : list string :=
  let mid := Str.strip (match model_id with Some m => m | None => EmptyString end) in
  if String.eqb mid EmptyString then ordered
  else if Str.mem mid ordered then ordered
  else (ordered ++ [mid])%list.

Definition _build_openrouter_model_list (w : world) (preferred : option string)
  : list string :=
  let ordered := add_if_valid [] preferred in
  let ordered := add_if_valid ordered (Some (MODEL w)) in
  fold_left (fun ordered mid => add_if_valid ordered (Some mid))
    OPENROUTER_MODEL_PRIORITY ordered.

(** ** The remote loop *)

Definition MAX_RETRIES : nat := 3.
Definition INITIAL_BACKOFF : Q := 0.8.
Definition BACKOFF_FACTOR : Q := 2.0.

Definition any_token (tokens : list string) (msg : string) : bool :=
  existsb (fun tok => Str.contains tok msg) tokens.

Definition CAPACITY_TOKENS : list string :=
  ["429"; "rate limit"; "Rate limit"; "overloaded"; "capacity"].

Definition TRANSIENT_TOKENS : list string :=
  ["503"; "Service Unavailable"; "No instances available"; "timed out"; "timeout"].

(** [result.setdefault(k, v)] on a value that is a dict *)
Definition setdefault (result : json) (k : string) (v : json) : json :=
  match result with
  | JDict d => JDict (dict_setdefault d k v)
  | _ => result
  end.

(** The calls made so far. *)
Definition calls_made (trace : list event) : nat :=
  length (filter (fun e => match e with Called _ => true | _ => false end) trace).

(** The body of the [try] of one attempt: the call, and what is made of
    its answer. *)
Definition attempt_once (w : world) (prompt : string) (include_backend : bool)
    (chosen_backend : string) (first_model : option string) (model_id : string)
    (n : nat) : M json :=
  raw_content <- chat w n model_id prompt ;;
  let cleaned := clean_model_text raw_content in
  let fallback_from result :=
    match first_model with
    | Some fm =>
        if negb (String.eqb fm EmptyString) && negb (String.eqb fm model_id)
        then setdefault result "fallback_from" (JStr fm)
        else result
    | None => result
    end in
  match json_loads w cleaned with
  | Some parsed =>
      if is_dict parsed then
        result <- _coerce_profile_schema parsed ;;
        if include_backend then
          let result := setdefault result "backend_used" (JStr chosen_backend) in
          let result := setdefault result "model_used" (JStr model_id) in
          Ok (fallback_from result)
        else Ok result
      else Ok parsed
  | None =>
      let result :=
        JDict [ ("error", JStr "Model did not return valid JSON");
                ("raw_response",
                 match raw_content with Some t => JStr t | None => JNull end);
                ("cleaned_attempt", JStr cleaned);
                ("model_used", JStr model_id) ] in
      if include_backend then
        Ok (fallback_from (setdefault result "backend_used" (JStr chosen_backend)))
      else Ok result
  end.

(** How a run over the models goes on: a result to return, or the last
    error to carry to the next model. *)
Record progress : Type := mkProgress {
  returned : option json;
  last_error : option string;
  trace : list event
}.

(** [while attempt < MAX_RETRIES] for one model; [fuel] bounds the rounds. *)
Fixpoint try_model (w : world) (prompt : string) (include_backend : bool)
    (chosen_backend : string) (first_model : option string) (model_id : string)
    (fuel attempt : nat) (backoff : Q) (st : progress) : progress :=
  match fuel with
  | O => st
  | S fuel' =>
      if (attempt <? MAX_RETRIES)%nat then
        let attempt := (attempt + 1)%nat in
        let n := calls_made (trace st) in
        let tr := (trace st ++ [Called model_id])%list in
        match attempt_once w prompt include_backend chosen_backend first_model
                model_id n with
        | Ok result => mkProgress (Some result) (last_error st) tr
        | Raise e =>
            let msg := str_of_exn w e in
            if any_token CAPACITY_TOKENS msg then mkProgress None (Some msg) tr
            else if any_token TRANSIENT_TOKENS msg && (attempt <? MAX_RETRIES)%nat
            then
              try_model w prompt include_backend chosen_backend first_model model_id
                fuel' attempt (backoff * BACKOFF_FACTOR)%Q
                (mkProgress None (Some msg) (tr ++ [Slept backoff])%list)
            else mkProgress None (Some msg) tr
        end
      else st
  end.

(** [for model_id in models_to_try] *)
Fixpoint try_models (w : world) (prompt : string) (include_backend : bool)
    (chosen_backend : string) (first_model : option string)
    (models : list string) (st : progress) : progress :=
  match models with
  | [] => st
  | model_id :: models' =>
      let st := try_model w prompt include_backend chosen_backend first_model
                  model_id MAX_RETRIES 0 INITIAL_BACKOFF st in
      match returned st with
      | Some _ => st
      | None =>
          try_models w prompt include_backend chosen_backend first_model models' st
      end
  end.

(** The remote branch of [run_correlation], from the API key on. *)
Definition run_remote (w : world) (prompt : string) (include_backend : bool)
    (chosen_backend : string) (preferred_model : option string)
    (tr : list event) : json * list event :=
  let api_key := openrouter_key w DEFAULT_MONGO_URI in
  if negb (truthy api_key) then
    let result :=
      JDict [("error",
              JStr "OpenRouter/OpenAI API key not found in environment or database (api_keys.openRouter)")] in
    (if include_backend then setdefault result "backend_used" (JStr chosen_backend)
     else result, tr)
  else
    let models_to_try := _build_openrouter_model_list w preferred_model in
    let first_model := hd_error models_to_try in
    let st := try_models w prompt include_backend chosen_backend first_model
                models_to_try (mkProgress None None tr) in
    match returned st with
    | Some result => (result, trace st)
    | None =>
        let result :=
          JDict [ ("error",
                   JStr (match last_error st with
                         | Some e =>
                             if String.eqb e EmptyString
                             then "Failed to get response from any OpenRouter model"
                             else e
                         | None => "Failed to get response from any OpenRouter model"
                         end));
                  ("models_tried", JList (map JStr models_to_try)) ] in
        let result :=
          if include_backend then
            let result := setdefault result "backend_used" (JStr chosen_backend) in
            match first_model with
            | Some fm => if String.eqb fm EmptyString then result
                         else setdefault result "model_used" (JStr fm)
            | None => result
            end
          else result in
        (result, trace st)
    end.

(** ** The run *)

(** The documents of the identifier in the seven collections the
    correlation reads; a collection whose lookup raises is skipped. *)
Definition load_documents (w : world) (identifier : json) : list json :=
  fold_left
    (fun all_data name =>
       match find_one w name identifier with
       | Ok (Some doc) =>
           match get doc "data" with
           | Ok data =>
               if truthy doc && negb (is_none data) then
                 match get doc "collected_at" with
                 | Ok at_ =>
                     (all_data
                      ++ [JDict [ ("collection", JStr name);
                                  ("identifier", identifier);
                                  ("collected_at", JStr (py_str at_));
                                  ("data", data) ]])%list
                 | Raise _ => all_data
                 end
               else all_data
           | Raise _ => all_data
           end
       | _ => all_data
       end)
    [ "github"; "twitter"; "reddit"; "profile_osint"; "search_engines";
      "breachdirectory"; "compromise" ]
    [].

(** The local branch of [run_correlation]. *)
Definition run_local (w : world) (structured_osint : option json) (osint_data : string)
    (identifier : json) (include_backend : bool) (chosen_backend : string)
    (tr : list event) : M json * list event :=
  let structured_osint :=
    match structured_osint with
    | Some so => so
    | None =>
        if String.eqb osint_data EmptyString then JList []
        else match json_loads w osint_data with
             | Some so => so
             | None => JList []
             end
    end in
  match _rule_based_correlation structured_osint identifier with
  | Raise e => (Raise e, tr)
  | Ok result =>
      let analysis_prompt :=
        "You are a senior cyber threat intelligence analyst. "
        ++ "Given the following JSON profile, write a clear, concise 5-8 sentence "
        ++ "assessment of this user's online presence, exposure, and compromise risk. "
        ++ "Focus on platforms, notable repositories or posts, and any breach signals. "
        ++ "Respond with plain text only, no JSON, no bullet points.

"
        ++ json_dumps_indent w result in
      let tr := (tr ++ [FlanCalled])%list in
      let result :=
        match call_local_flan w analysis_prompt with
        | Ok narrative =>
            if truthy narrative && is_dict result then
              match py_strip narrative with
              | Ok text =>
                  match set_item result "llm_analysis" (JStr text) with
                  | Ok r => r
                  | Raise _ => result
                  end
              | Raise _ => result
              end
            else result
        | Raise _ => result
        end in
      if is_dict result then
        match _coerce_profile_schema result with
        | Ok result =>
            (Ok (if include_backend
                 then setdefault result "backend_used" (JStr chosen_backend)
                 else result), tr)
        | Raise e => (Raise e, tr)
        end
      else (Ok result, tr)
  end.

(** The guard on the built prompt: [build_prompt] answers an invalid self
    prompt with a JSON error object, which is detected and returned. *)
Definition prompt_rejection (w : world) (prompt : string) : option json :=
  match json_loads w prompt with
  | Some (JDict d) =>
      let e := dict_lookup d "error" JNull in
      if truthy e then Some e else None
  | _ => None
  end.

Definition run_correlation (w : world) (mode custom_prompt : string)
    (identifier : json) (mongo_uri : string) (backend : option string)
    (include_backend : bool) (preferred_model : option string)
  : M json * list event :=
  let all_data :=
    if truthy identifier then
      match connect w mongo_uri with
      | Ok _ => load_documents w identifier
      | Raise _ => []
      end
    else [] in
  let structured_osint :=
    match all_data with
    | [] => None
    | _ => Some (JList all_data)
    end in
  let osint_data :=
    match all_data with
    | [] => osint_files w
    | _ => json_dumps_indent w (JList all_data)
    end in
  let prompt :=
    build_prompt (fun msg => json_dumps w (JDict [("error", JStr msg)]))
      mode osint_data custom_prompt in
  match prompt_rejection w prompt with
  | Some e => (Ok (JDict [("error", e)]), [])
  | None =>
      let chosen := choose_backend w backend mongo_uri in
      let tr := [BackendChosen chosen] in
      match chosen with
      | None =>
          (Ok (JDict [("error",
                       JStr "No correlation backend is configured (local_flan or openrouter)")]),
           tr)
      | Some chosen_backend =>
          if String.eqb chosen_backend EmptyString then
            (Ok (JDict [("error",
                         JStr "No correlation backend is configured (local_flan or openrouter)")]),
             tr)
          else if String.eqb chosen_backend "local_flan" then
            run_local w structured_osint osint_data identifier include_backend
              chosen_backend tr
          else
            let '(result, tr) :=
              run_remote w prompt include_backend chosen_backend preferred_model tr in
            (Ok result, tr)
      end
  end.

End Backends.

(* ===================================================================== *)
(** * The deep-clean orchestrator                                        *)
(* ===================================================================== *)

Section DeepClean.
Context {F : PyFloat} {R : PyRuntime}.

(** [for model_id in models_to_try[:3]] of [_clean_single_platform] *)
Fixpoint clean_with_models (w : world) (platform : string) (raw_data : json)
    (full_prompt : string) (models : list string) (tr : list event)
  : json * list event :=
  match models with
  | [] =>
      (JDict [ ("error", JStr "Failed to clean data");
               ("raw_preserved", raw_data);
               ("_platform", JStr platform) ], tr)
  | model_id :: models' =>
      let n := calls_made tr in
      let tr := (tr ++ [Called model_id])%list in
      let attempt :=
        raw_content <- chat w n model_id full_prompt ;;
        let cleaned := clean_model_text raw_content in
        match json_loads w cleaned with
        | Some parsed =>
            parsed <- set_item parsed "_cleaned_by" (JStr model_id) ;;
            parsed <- set_item parsed "_platform" (JStr platform) ;;
            Ok (Some parsed)
        | None => Ok None
        end in
      match attempt with
      | Ok (Some parsed) => (parsed, tr)
      | _ => clean_with_models w platform raw_data full_prompt models' tr
      end
  end.

Definition _clean_single_platform (w : world) (platform : string) (raw_data : json)
    (mongo_uri : string) (preferred_model : option string) (tr : list event)
  : json * list event :=
  let base_prompt :=
    match find (fun kv => String.eqb (fst kv) platform) PLATFORM_CLEAN_PROMPTS with
    | Some kv => snd kv
    | None => CLEAN_PROMPT_PROFILE_OSINT
    end in
  let data_str := json_dumps_indent w raw_data in
  let data_str :=
    if 15000 <? Z.of_nat (String.length data_str)
    then Str.take (Z.to_nat 15000) data_str ++ "
... [truncated]"
    else data_str in
  let full_prompt := base_prompt ++ "

RAW DATA:
" ++ data_str in
  let api_key := openrouter_key w mongo_uri in
  if negb (truthy api_key) then
    (JDict [ ("error", JStr "No API key available"); ("raw_preserved", raw_data) ], tr)
  else
    let models_to_try := _build_openrouter_model_list w preferred_model in
    clean_with_models w platform raw_data full_prompt (firstn 3 models_to_try) tr.

Definition platform_collections : list string :=
  [ "github"; "twitter"; "reddit"; "snapchat"; "stackoverflow"; "linkedin";
    "profile_osint"; "search_engines"; "breachdirectory"; "compromise" ].

(** What the platform loop carries: [cleaned_results], [platforms_found]
    and the events so far. *)
Record cleaning : Type := mkCleaning {
  cleaned_results : list json;
  platforms_found : list string;
  events : list event
}.

(** One round of [for platform in platform_collections], with its
    [try ... except Exception]. *)
Definition deep_clean_platform (w : world) (identifier : json) (mongo_uri : string)
    (preferred_model : option string) (st : cleaning) (platform : string) : cleaning :=
  let failed found tr e :=
    mkCleaning (cleaned_results st) found
      (tr ++ [Reported "error" platform
                ("Error cleaning " ++ platform ++ ": " ++ str_of_exn w e)])%list in
  match find_one w platform identifier with
  | Raise e => failed (platforms_found st) (events st) e
  | Ok None => st
  | Ok (Some doc) =>
      if negb (truthy doc) then st
      else
        match get doc "data" with
        | Raise e => failed (platforms_found st) (events st) e
        | Ok raw_data =>
            if negb (truthy raw_data) then st
            else
              let found := (platforms_found st ++ [platform])%list in
              let tr :=
                (events st
                 ++ [Reported "cleaning" platform
                       ("Cleaning " ++ Str.upper platform ++ " data...")])%list in
              let '(cleaned, tr) :=
                _clean_single_platform w platform raw_data mongo_uri preferred_model tr in
              match get doc "collected_at" with
              | Raise e => failed found tr e
              | Ok collected_at =>
                  let cleaned_doc :=
                    JDict [ ("identifier", identifier);
                            ("platform", JStr platform);
                            ("cleaned_data", cleaned);
                            ("original_collected_at", collected_at);
                            ("cleaned_at", JStr (clock w (length tr))) ] in
                  match update_one w platform cleaned_doc with
                  | Raise e => failed found tr e
                  | Ok _ =>
                      mkCleaning
                        (cleaned_results st
                         ++ [JDict [ ("collection", JStr platform);
                                     ("identifier", identifier);
                                     ("data", cleaned) ]])%list
                        found
                        (tr ++ [Stored platform;
                                Reported "cleaned" platform
                                  ("✓ " ++ Str.upper platform
                                   ++ " cleaned successfully")])%list
                  end
              end
        end
  end.

Definition run_deep_clean_correlation (w : world) (identifier : json)
    (mongo_uri : string) (preferred_model : option string) : json * list event :=
  let tr := [Reported "init" EmptyString "Starting deep clean correlation..."] in
  let failure tr e :=
    (JDict [("error", JStr ("Deep clean correlation failed: " ++ str_of_exn w e))],
     (tr ++ [Reported "error" EmptyString
               ("Deep clean failed: " ++ str_of_exn w e)])%list) in
  match connect w mongo_uri with
  | Raise e => failure tr e
  | Ok _ =>
      let tr := (tr ++ [Reported "loading" EmptyString "Loading collected data..."])%list in
      let st :=
        fold_left (deep_clean_platform w identifier mongo_uri preferred_model)
          platform_collections (mkCleaning [] [] tr) in
      let tr := events st in
      match cleaned_results st with
      | [] =>
          (JDict [ ("error",
                    JStr ("No data found to clean for identifier: "
                          ++ py_str identifier));
                   ("platforms_checked", JList (map JStr platform_collections)) ],
           tr)
      | _ =>
          let tr :=
            (tr ++ [Reported "correlating" EmptyString
                      ("Starting correlation with "
                       ++ Str.of_Z (Z.of_nat (length (cleaned_results st)))
                       ++ " cleaned sources...")])%list in
          let run :=
            correlation_result <-
              _correlate_cleaned_data (cleaned_results st) identifier ;;
            correlation_result <-
              set_item correlation_result "_deep_clean_meta"
                (JDict [ ("platforms_processed",
                          JList (map JStr (platforms_found st)));
                         ("platforms_cleaned", py_len (cleaned_results st));
                         ("cleaned_at", JStr (clock w (length tr)));
                         ("mode", JStr "deep_clean") ]) ;;
            _coerce_profile_schema correlation_result in
          match run with
          | Raise e => failure tr e
          | Ok correlation_result =>
              (correlation_result,
               (tr ++ [Reported "complete" EmptyString
                         "Deep clean correlation complete!"])%list)
          end
      end
  end.

End DeepClean.

(* ===================================================================== *)
(** * The vocabulary of the properties                                   *)
(* ===================================================================== *)

Section Vocabulary.
Context {F : PyFloat} {R : PyRuntime}.

(** The dict the coercion reads its fields from: the [profile] or the
    [result] entry of the input when that is a dict, the input itself when
    it is a dict, the empty dict otherwise. *)
Definition src_of (raw : json) : dict :=
  match raw with
  | JDict d =>
      match dict_lookup d "profile" JNull with
      | JDict d' => d'
      | _ =>
          match dict_lookup d "result" JNull with
          | JDict d' => d'
          | _ => d
          end
      end
  | _ => []
  end.

(** The canonical fields as the loop over [CANONICAL_KEYS] leaves them. *)
Definition coerced_fields (d : dict) : dict :=
  let at_ k := dict_lookup d k JNull in
  [ ("name", coerce_scalar (at_ "name"));
    ("profile_type", coerce_scalar (at_ "profile_type"));
    ("about", coerce_scalar (at_ "about"));
    ("usernames", coerce_map (at_ "usernames"));
    ("bio", coerce_scalar (at_ "bio"));
    ("emails", coerce_str_list (at_ "emails"));
    ("primary_location", coerce_scalar (at_ "primary_location"));
    ("posts", coerce_seq (at_ "posts"));
    ("repositories", coerce_seq (at_ "repositories"));
    ("activity_patterns", coerce_scalar (at_ "activity_patterns"));
    ("possible_interests", coerce_str_list (at_ "possible_interests"));
    ("relationship_graph", coerce_seq (at_ "relationship_graph"));
    ("behavioral_anomalies", coerce_str_list (at_ "behavioral_anomalies"));
    ("key_timelines", coerce_str_list (at_ "key_timelines"));
    ("links", coerce_map (at_ "links"));
    ("compromised", coerce_compromised (at_ "compromised") (JBool false));
    ("summary", coerce_scalar (at_ "summary"));
    ("llm_analysis", coerce_scalar (at_ "llm_analysis")) ].

(** One entry of the usernames map after [normalise_username]. *)
Definition normalise_entry (data : json) : json :=
  match data with
  | JDict e =>
      let h := dict_lookup e "handle" JNull in
      JDict [ ("handle", if truthy h then h else dict_lookup e "username" JNull);
              ("url", dict_lookup e "url" JNull);
              ("bio", dict_lookup e "bio" JNull) ]
  | _ =>
      JDict [ ("handle", if is_none data then JNull else JStr (py_str data));
              ("url", JNull);
              ("bio", JNull) ]
  end.

(** The usernames map after the normalisation loop, from [acc] on. *)
Definition normalise_all (us acc : dict) : dict :=
  fold_left (fun n pd => dict_set n (fst pd) (normalise_entry (snd pd))) us acc.

(** What [_ensure_profile_classification] leaves in a field it may fill:
    the value that was there when it is truthy, a non-empty string
    otherwise. *)
Definition filled (old new : json) : Prop :=
  (truthy old = true /\ new = old) \/
  (truthy old = false /\ exists s, new = JStr s /\ truthy new = true).

(** The canonical fields with the usernames map normalised. *)
Definition normalised_fields (d : dict) : dict :=
  match coerce_map (dict_lookup d "usernames" JNull) with
  | JDict us => dict_set (coerced_fields d) "usernames" (JDict (normalise_all us []))
  | _ => coerced_fields d
  end.

(** [_coerce_profile_schema] from the selected profile on. *)
Definition coerce_body (profile : json) : M json :=
  let src := if is_dict profile then profile else JDict [] in
  result <- for_each CANONICAL_KEYS ([] : dict) (coerce_key src) ;;
  u <- get (JDict result) "usernames" ;;
  let usernames := py_or u (JDict []) in
  result <-
    (match usernames with
     | JDict us =>
         normalised <- for_each us ([] : dict) normalise_username ;;
         Ok (dict_set result "usernames" (JDict normalised))
     | _ => Ok result
     end) ;;
  _ensure_profile_classification (JDict result).

(** The first lines of [_coerce_profile_schema]: the choice between the
    input, its [profile] entry and its [result] entry. *)
Definition select_profile (raw : json) : M json :=
  if is_dict raw then
    p <- get raw "profile" ;;
    if is_dict p then item raw "profile"
    else
      r <- get raw "result" ;;
      if is_dict r then item raw "result" else Ok raw
  else Ok raw.

(** The container type each canonical key must carry. *)
Definition field_ok (key : string) (v : json) : bool :=
  if Str.mem key ["emails"; "possible_interests"; "behavioral_anomalies"; "key_timelines"]
  then match v with JList l => forallb is_str l | _ => false end
  else if Str.mem key ["posts"; "repositories"; "relationship_graph"] then is_list v
  else if Str.mem key ["usernames"; "links"] then is_dict v
  else if String.eqb key "compromised" then is_bool v
  else is_none v || is_str v.

(** A canonical Profile: a dict with exactly the canonical keys, each bound
    to a value of its container type. *)
Definition canonical (p : json) : Prop :=
  exists d, p = JDict d /\
            dict_keys d = dict_keys CANONICAL_KEYS /\
            forallb (fun kv => field_ok (fst kv) (snd kv)) d = true.

(** An entry of the usernames map is settled when its handle is null or
    truthy: the second pass reads [handle or username] again and finds no
    username key, so a falsy handle that is not null becomes null. *)
Definition handle_settled (entry : string * json) : bool :=
  match snd entry with
  | JDict e => let h := dict_lookup e "handle" JNull in is_none h || truthy h
  | _ => false
  end.

(** Every entry of the usernames map of [p] is settled. *)
Definition handles_settled (p : json) : bool :=
  match p with
  | JDict d =>
      match dict_lookup d "usernames" JNull with
      | JDict us => forallb handle_settled us
      | _ => false
      end
  | _ => false
  end.

(** The usernames map after normalisation: distinct platforms, every entry
    of the inner shape. *)
Definition normal_dict (n : dict) : Prop :=
  NoDup (dict_keys n) /\
  forall kv, In kv n -> exists data, snd kv = normalise_entry data.

(** A value Python compares with an integer. *)
Definition is_number (v : json) : bool :=
  match v with
  | JBool _ | JInt _ | JFloat _ => true
  | _ => false
  end.


(** The title the deduplication reads: [post.get("title") or ""]. *)
Definition title_of (post : json) : json :=
  match post with
  | JDict d => py_or (dict_lookup d "title" JNull) (JStr EmptyString)
  | _ => JStr EmptyString
  end.

(** The posts whose title is truthy and equal to no title seen before
    them. *)
Fixpoint keep_first (seen : list json) (posts : list json) : list json :=
  match posts with
  | [] => []
  | p :: ps =>
      let t := title_of p in
      if truthy t && negb (existsb (fun y => py_eq y t) seen)
      then p :: keep_first (seen ++ [t]) ps
      else keep_first seen ps
  end.

(** Two posts whose titles differ. *)
Definition distinct_titles (a b : json) : Prop :=
  py_eq (title_of a) (title_of b) = false.

(** The two documents of the scenario: the raw GitHub document and the
    BreachDirectory document. *)
Definition scenario_documents : json :=
  JList
    [ JDict [ ("collection", JStr "github");
              ("data",
               JDict [ ("data",
                        JDict [ ("user", JDict [ ("login", JStr "alice");
                                                 ("bio", JStr "dev") ]);
                                ("repos",
                                 JList [ JDict [ ("name", JStr "x");
                                                 ("stargazers_count", JInt 60) ] ])
                              ]) ]) ];
      JDict [ ("collection", JStr "breachdirectory");
              ("data", JDict [ ("found", JInt 3) ]) ] ].


(** The handle an entry of the usernames map carries. *)
Definition handle_of (entry : string * json) : json :=
  match snd entry with
  | JDict e => dict_lookup e "handle" JNull
  | _ => JNull
  end.

(** The calls made to one model. *)
Definition calls_to (model_id : string) (trace : list event) : nat :=
  length (filter (fun e => match e with
                           | Called m => String.eqb model_id m
                           | _ => false
                           end) trace).

(** The integer a repository contributes to a total: its field [k] when
    the repository is a dict and the field an int, nothing otherwise. *)
Definition int_field (k : string) (r : json) : Z :=
  match r with
  | JDict e => match dict_lookup e k (JInt 0) with JInt z => z | _ => 0 end
  | _ => 0
  end.

(** A repository whose field [k], when it is a dict, is an int or is
    missing. *)
Definition int_or_absent (k : string) (r : json) : bool :=
  match r with
  | JDict e => match dict_lookup e k (JInt 0) with JInt _ => true | _ => false end
  | _ => true
  end.

Definition total (k : string) (rs : list json) : Z :=
  fold_right Z.add 0 (map (int_field k) rs).

Definition ONGOING : json :=
  labelled "7. ONGOING"
    "Establish continuous monitoring across all identified platforms and repositories".

Definition label_of (entry : json) : json :=
  match entry with
  | JDict e => dict_lookup e "label" JNull
  | _ => JNull
  end.

Definition TIMELINE_ANALYSIS : json :=
  labelled "Timeline Analysis"
    "Correlate account creation dates to identify coordinated identity creation or account takeover events".

(** The labels of [build_ioc_items], in the order it writes them. *)
Definition IOC_LABELS : list string :=
  ["Usernames"; "Email Addresses"; "Platform URLs"; "Repository URLs"].

End Vocabulary.

(* ===================================================================== *)
(** * Sample inputs and scripted worlds                                  *)
(* ===================================================================== *)

(** The concrete runs use documents without floating-point numbers, under
    a runtime that enumerates sets in insertion order and whose two library
    calls raise. *)
Section Samples.

#[local] Instance no_floats : PyFloat := {|
  float := Empty_set;
  float_str := fun x => match x with end;
  float_truth := fun x => match x with end;
  float_cmp := fun x _ => match x with end;
  float_cmpZ := fun x _ => match x with end;
  float_add := fun x _ => x;
  float_addZ := fun x _ => x;
  float_fmt_comma := fun x => match x with end |}.

#[local] Instance plain_runtime : PyRuntime := {|
  set_order := fun l => l;
  set_order_members := fun l => Permutation_refl l;
  fromtimestamp_ymd := fun _ => None;
  urlparse_netloc := fun _ => None |}.

(** A username given as an empty string. *)
Definition falsy_handle_input : json :=
  JDict [("usernames", JDict [("github", JStr EmptyString)])].

(** A profile whose usernames carry a username or nothing. *)
Definition settled_input : json :=
  JDict [("name", JStr "Alice");
         ("usernames", JDict [("github", JDict [("username", JStr "alice")]);
                              ("reddit", JNull)]);
         ("compromised", JStr "yes")].

(** A Twitter document with the same text tweeted twice. *)
Definition repeated_tweets : list json :=
  [ JDict [ ("collection", JStr "twitter");
            ("data",
             JDict [ ("user", JDict [("username", JStr "alice")]);
                     ("tweets",
                      JList [ JDict [("text", JStr "Hello"); ("id", JInt 1)];
                              JDict [("text", JStr "Hello"); ("id", JInt 2)] ]) ]) ] ].


(** Two cleaned documents that carry a name each. *)
Definition cleaned_names : list json :=
  [ JDict [ ("collection", JStr "github");
            ("data", JDict [ ("name", JStr "Al"); ("username", JStr "al") ]) ];
    JDict [ ("collection", JStr "twitter");
            ("data", JDict [ ("name", JStr "Alice Smith");
                             ("username", JStr "alice") ]) ] ].

(** Three accounts, ten repositories and fifty stars: every rule but the
    compromise rule adds its points. *)
Definition busy_profile : json :=
  JDict [ ("compromised", JBool false);
          ("usernames",
           JDict [ ("github", JDict [("handle", JStr "alice")]);
                   ("twitter", JDict [("handle", JStr "alice_t")]);
                   ("reddit", JDict [("handle", JStr "alice_r")]) ]) ].

Definition busy_counts : json :=
  JDict [ ("repos", JInt 10); ("total_stars", JInt 50) ].

(** [json.dumps] and [json.loads] on the texts the runs below meet: the
    one-key error object, and the answers listed in [parses]. *)
Definition error_object_text (msg : string) : string :=
  "{" ++ q "error" ++ ": " ++ q msg ++ "}".

Definition dumps_error_object (v : json) : string :=
  match v with
  | JDict [(_, JStr msg)] => error_object_text msg
  | _ => "{}"
  end.

Definition loads_error_object (parses : list (string * json)) (text : string)
  : option json :=
  match find (fun kv => String.eqb (fst kv) text) parses with
  | Some kv => Some (snd kv)
  | None =>
      let head := "{" ++ q "error" ++ ": " ++ dq in
      let msg :=
        substring (String.length head)
          (String.length text - String.length head - 2) text in
      if String.eqb text (error_object_text msg)
      then Some (JDict [("error", JStr msg)])
      else None
  end.

(** A world with an API key and no local model, whose database holds
    [store] and whose models answer as [answers] says. *)
Definition scripted_world (answers : nat -> string -> string -> M (option string))
    (store : string -> json -> M (option json)) (parses : list (string * json))
  : world :=
  {| connect := fun _ => Ok tt;
     find_one := store;
     update_one := fun _ _ => Ok tt;
     osint_files := "(no files)";
     local_ok := false;
     openrouter_key := fun _ => JStr "sk-or-test";
     CORRELATION_BACKEND := EmptyString;
     MODEL := EmptyString;
     call_local_flan := fun _ => Raise (LibraryError "transformers is not installed");
     chat := answers;
     json_loads := loads_error_object parses;
     json_dumps := dumps_error_object;
     json_dumps_indent := fun _ => "(data)";
     exn_text := fun _ => "error";
     clock := fun _ => "2024-01-01T00:00:00Z" |}.

Definition empty_store (collection : string) (identifier : json) : M (option json) :=
  Ok None.

(** The preferred model is rate-limited, the first model of the priority
    list answers in prose, every other model answers with a JSON object. *)
Definition prose_answers (n : nat) (model_id prompt : string) : M (option string) :=
  if String.eqb model_id "model-a"
  then Raise (LibraryError "Error code: 429 - Rate limit exceeded")
  else if String.eqb model_id "nex-agi/deepseek-v3.1-nex-n1:free"
  then Ok (Some "Sorry, I cannot help with that.")
  else Ok (Some "{}").

Definition prose_world : world :=
  scripted_world prose_answers empty_store [("{}", JDict [])].

Definition busy_message : string :=
  "Error code: 503 - Service Unavailable: no capacity".

Definition busy_world : world :=
  scripted_world (fun _ _ _ => Raise (LibraryError busy_message)) empty_store [].

Definition unavailable_message : string :=
  "Error code: 503 - Service Unavailable".

Definition unavailable_world : world :=
  scripted_world (fun _ _ _ => Raise (LibraryError unavailable_message))
    empty_store [].

Definition open_world : world :=
  scripted_world (fun _ _ _ => Ok (Some "{}")) empty_store [("{}", JDict [])].

(** One GitHub document in the database; the model cleans it to a
    username. *)
Definition github_store (collection : string) (identifier : json) : M (option json) :=
  if String.eqb collection "github" then
    Ok (Some (JDict [ ("identifier", identifier);
                      ("data", JDict [("user", JDict [("login", JStr "alice")])]);
                      ("collected_at", JStr "2023-12-31T00:00:00Z") ]))
  else Ok None.

Definition cleaned_text : string :=
  "{" ++ q "username" ++ ": " ++ q "alice" ++ "}".

Definition clean_world : world :=
  scripted_world (fun _ _ _ => Ok (Some cleaned_text)) github_store
    [(cleaned_text, JDict [("username", JStr "alice")])].

(** A profile marked compromised, with one account. *)
Definition breached_profile : json :=
  JDict [ ("compromised", JBool true);
          ("usernames", JDict [ ("github", JDict [("handle", JStr "alice")]) ]) ].

(** Two repositories with a hundred stars. *)
Definition starred_counts : json :=
  JDict [ ("repos", JInt 2); ("total_stars", JInt 100) ].

(** Ten repositories and eleven connections. *)
Definition networked_counts : json :=
  JDict [ ("repos", JInt 10); ("connections", JInt 11) ].

(** A repository with three stars, then one whose stars are null. *)
Definition null_stars_profile : dict :=
  [ ("repositories",
     JList [ JDict [("name", JStr "tool"); ("stars", JInt 3)];
             JDict [("name", JStr "site"); ("stars", JNull)] ]) ].

(** Two repositories and a member that is no dict; two connections. *)
Definition counted_profile : dict :=
  [ ("repositories",
     JList [ JDict [("stars", JInt 3); ("forks", JInt 1)];
             JStr "not a repository";
             JDict [("stars", JInt 4)] ]);
    ("usernames", JDict [ ("github", JDict [("handle", JStr "alice")]) ]);
    ("relationship_graph", JList [JStr "bob"; JStr "carol"]) ].

(** The document [_clean_single_platform] leaves when no model cleaned
    the data. *)
Definition failed_document : json :=
  JDict [ ("collection", JStr "github");
          ("identifier", JStr "alice");
          ("data", JDict [ ("error", JStr "Failed to clean data");
                           ("raw_preserved", JDict [("name", JStr "Mallory")]);
                           ("_platform", JStr "github") ]) ].

(** A profile inside a [profile] wrapper. *)
Definition plain_profile : dict :=
  [ ("name", JStr "Alice"); ("emails", JList [JStr "a@example.org"; JInt 7]) ].

Definition wrapped_profile : dict :=
  [ ("profile", JDict plain_profile); ("name", JStr "ignored") ].

(** A model's answer: one JSON object inside a sentence. *)
Definition prose_around_object : string :=
  "Here is the profile: " ++ "{" ++ (q "name" ++ ": null") ++ "}" ++ " Done.".

End Samples.


(* ===================================================================== *)
(** * Properties of schema coercion                                      *)
(* ===================================================================== *)

Section SchemaProperties.
Context {F : PyFloat}.

(** ** What the coercion loop computes *)

Lemma coerce_loop (d : dict) :
  for_each CANONICAL_KEYS ([] : dict) (coerce_key (JDict d)) = Ok (coerced_fields d).
Proof. reflexivity. Qed.

Lemma normalise_username_eq (n : dict) (p : string) (data : json) :
  normalise_username n (p, data) = Ok (dict_set n p (normalise_entry data)).
Proof.
  destruct data; try reflexivity.
  cbn. destruct (truthy (dict_lookup d "handle" JNull)); reflexivity.
Qed.

Lemma for_each_normalise (us acc : dict) :
  for_each us acc normalise_username = Ok (normalise_all us acc).
Proof.
  revert acc. induction us as [|[p data] us IH]; intros acc; [reflexivity|].
  cbn [for_each]. rewrite normalise_username_eq. cbn [bind]. apply IH.
Qed.


(** ** Text produced by the classification *)

Lemma rstrip_dot (s : string) : Str.rstrip (s ++ ".") = s ++ ".".
Proof.
  induction s as [|c s IH]; [reflexivity|].
  cbn [append Str.rstrip]. rewrite IH.
  destruct s; reflexivity.
Qed.

Lemma lstrip_dot (s : string) : exists s', Str.lstrip (s ++ ".") = s' ++ ".".
Proof.
  induction s as [|c s [s' IH]].
  - exists EmptyString. reflexivity.
  - cbn [append Str.lstrip]. destruct (Str.is_space c).
    + exists s'. exact IH.
    + exists (String c s). reflexivity.
Qed.

Lemma strip_dot_nonempty (s : string) :
  String.eqb (Str.strip (s ++ ".")) EmptyString = false.
Proof.
  unfold Str.strip. destruct (lstrip_dot s) as [s' ->].
  rewrite rstrip_dot. destruct s'; reflexivity.
Qed.

Lemma ends_dot_app (a t : string) :
  (exists s, t = s ++ ".") -> exists s, a ++ t = s ++ ".".
Proof.
  intros [s ->]. induction a as [|c a [s' IH]].
  - now exists s.
  - exists (String c s'). cbn [append]. now rewrite IH.
Qed.

Lemma truthy_sentence (a b c d e f g : string) :
  truthy (JStr (Str.strip (a ++ b ++ c ++ d ++ e ++ f ++ g ++ "."))) = true.
Proof.
  cbn [truthy].
  destruct (ends_dot_app a (b ++ c ++ d ++ e ++ f ++ g ++ ".")) as [s ->].
  { do 5 apply ends_dot_app. now exists g. }
  now rewrite strip_dot_nonempty.
Qed.

(** ** Dictionaries *)

Lemma dict_set_same (d : dict) (k : string) (v : json) :
  dict_get d k = Some v -> dict_set d k v = d.
Proof.
  induction d as [|[k' v'] d IH]; cbn; [discriminate|].
  destruct (String.eqb k' k) eqn:E.
  - intros [= ->]. apply String.eqb_eq in E. now subst.
  - intros H. now rewrite IH.
Qed.

Lemma dict_keys_set_present (d : dict) (k : string) (v : json) :
  dict_has d k = true -> dict_keys (dict_set d k v) = dict_keys d.
Proof.
  unfold dict_has, dict_keys.
  induction d as [|[k' v'] d IH]; cbn; [discriminate|].
  destruct (String.eqb k' k) eqn:E; cbn.
  - apply String.eqb_eq in E. now subst.
  - intros H. now rewrite IH.
Qed.

Lemma dict_get_set_eq (d : dict) (k : string) (v : json) :
  dict_get (dict_set d k v) k = Some v.
Proof.
  induction d as [|[k' v'] d IH]; cbn.
  - now rewrite String.eqb_refl.
  - destruct (String.eqb k' k) eqn:E; cbn.
    + now rewrite String.eqb_refl.
    + now rewrite E.
Qed.

Lemma dict_get_set_neq (d : dict) (k k' : string) (v : json) :
  String.eqb k k' = false -> dict_get (dict_set d k v) k' = dict_get d k'.
Proof.
  intros N. induction d as [|[k0 v0] d IH]; cbn.
  - now rewrite N.
  - destruct (String.eqb k0 k) eqn:E; cbn.
    + apply String.eqb_eq in E. subst. now rewrite N.
    + now rewrite IH.
Qed.

(** ** The classification step *)

Lemma ensure_classification_dict (d : dict) :
  exists pt ab,
    _ensure_profile_classification (JDict d)
      = Ok (JDict (dict_set (dict_set d "profile_type" pt) "about" ab))
    /\ filled (dict_lookup d "profile_type" JNull) pt
    /\ filled (dict_lookup d "about" JNull) ab.
Proof.
  unfold _ensure_profile_classification.
  cbn [get get_or bind set_item].
  set (pt0 := dict_lookup d "profile_type" JNull).
  set (ab0 := dict_lookup d "about" JNull).
  set (platforms := match py_or (dict_lookup d "usernames" JNull) (JDict []) with
                    | JDict us => Str.sorted (dict_keys us)
                    | _ => []
                    end).
  set (repos := py_or (dict_lookup d "repositories" JNull) (JList [])).
  assert (Hpt : exists pt,
    (if negb (truthy pt0)
     then if Str.mem "github" platforms && truthy repos then JStr "developer"
          else if Str.mem "linkedin" platforms then JStr "professional"
          else if Str.mem "twitter" platforms || Str.mem "reddit" platforms
               then JStr "individual"
               else if match platforms with [] => false | _ => true end
                    then JStr "online_profile" else JStr "unknown"
     else pt0) = pt /\ filled pt0 pt).
  { eexists; split; [reflexivity|].
    unfold filled. destruct (truthy pt0) eqn:T; cbn [negb]; [now left|right].
    split; [reflexivity|].
    repeat match goal with |- context [if ?c then _ else _] => destruct c end;
      eexists; split; reflexivity. }
  destruct Hpt as (pt & -> & Hpt).
  destruct (truthy ab0) eqn:T; cbn [negb bind].
  - exists pt, ab0. split; [reflexivity|]. split; [exact Hpt|]. now left.
  - eexists pt, _. split; [reflexivity|]. split; [exact Hpt|]. right.
    split; [exact T|]. eexists; split; [reflexivity|].
    apply truthy_sentence.
Qed.

(** ** Closed form of the coercion *)

Lemma dict_lookup_get (d : dict) (k : string) (v : json) :
  dict_lookup d k JNull = v -> is_none v = false -> dict_get d k = Some v.
Proof.
  unfold dict_lookup. destruct (dict_get d k); intros <-; [reflexivity|discriminate].
Qed.

Lemma coerce_map_dict (v : json) : exists us, coerce_map v = JDict us.
Proof. destruct v; cbn; eauto. Qed.

Lemma coerce_unfold (raw : json) :
  _coerce_profile_schema raw = bind (select_profile raw) coerce_body.
Proof. reflexivity. Qed.

Lemma coerce_body_eq (profile : json) (d : dict) :
  (if is_dict profile then profile else JDict []) = JDict d ->
  coerce_body profile = _ensure_profile_classification (JDict (normalised_fields d)).
Proof.
  unfold coerce_body. intros ->. cbv zeta. rewrite coerce_loop.
  unfold bind at 1.
  change (get (JDict (coerced_fields d)) "usernames")
    with (Ok (coerce_map (dict_lookup d "usernames" JNull)) : M json).
  unfold bind at 1. unfold normalised_fields.
  destruct (coerce_map_dict (dict_lookup d "usernames" JNull)) as [us ->].
  assert (E : py_or (JDict us) (JDict []) = JDict us) by (destruct us; reflexivity).
  rewrite E, for_each_normalise. reflexivity.
Qed.

Lemma select_profile_src (raw : json) :
  exists profile,
    select_profile raw = Ok profile /\
    (if is_dict profile then profile else JDict []) = JDict (src_of raw).
Proof.
  destruct raw as [| | | | |l|d]; try (eexists; split; reflexivity).
  unfold select_profile, src_of. cbn [is_dict get get_or bind item].
  destruct (dict_lookup d "profile" JNull) eqn:P; cbn [is_dict bind].
  7: { rewrite (dict_lookup_get _ _ _ P eq_refl). eexists; split; reflexivity. }
  all: destruct (dict_lookup d "result" JNull) eqn:R; cbn [is_dict];
    try (eexists; split; reflexivity);
    rewrite (dict_lookup_get _ _ _ R eq_refl); eexists; split; reflexivity.
Qed.

Lemma coerce_closed (raw : json) :
  _coerce_profile_schema raw
  = _ensure_profile_classification (JDict (normalised_fields (src_of raw))).
Proof.
  rewrite coerce_unfold.
  destruct (select_profile_src raw) as (profile & -> & Hsrc).
  cbn [bind]. now apply coerce_body_eq.
Qed.

(** ** The canonical shape *)

Lemma coerce_scalar_ok (v : json) :
  is_none (coerce_scalar v) || is_str (coerce_scalar v) = true.
Proof. destruct v; reflexivity. Qed.

Lemma coerce_str_list_ok (v : json) :
  match coerce_str_list v with JList l => forallb is_str l | _ => false end = true.
Proof.
  unfold coerce_str_list. destruct v; try reflexivity.
  cbn [_normalize_list]. induction l; cbn; auto.
Qed.

Lemma coerce_seq_ok (v : json) : is_list (coerce_seq v) = true.
Proof. reflexivity. Qed.

Lemma coerce_map_ok (v : json) : is_dict (coerce_map v) = true.
Proof. destruct v; reflexivity. Qed.

Lemma coerce_compromised_ok (v dflt : json) : is_bool (coerce_compromised v dflt) = true.
Proof. destruct v; reflexivity. Qed.

Lemma filled_scalar_ok (v new : json) :
  filled (coerce_scalar v) new -> is_none new || is_str new = true.
Proof.
  intros [[_ ->]|[_ (s & -> & _)]]; [apply coerce_scalar_ok|reflexivity].
Qed.

(** The keys of a coerced profile are the canonical keys. *)
Lemma coerce_keys (raw : json) :
  exists d, _coerce_profile_schema raw = Ok (JDict d) /\
            dict_keys d = dict_keys CANONICAL_KEYS.
Proof.
  rewrite coerce_closed.
  set (d := src_of raw).
  destruct (ensure_classification_dict (normalised_fields d)) as (pt & ab & -> & _ & _).
  eexists; split; [reflexivity|].
  unfold normalised_fields.
  destruct (coerce_map_dict (dict_lookup d "usernames" JNull)) as [us ->].
  reflexivity.
Qed.

(** C1: for every JSON value, [_coerce_profile_schema] returns (it does not
    raise), and what it returns is a dict whose keys are exactly the 18
    canonical keys, each bound to a value of its container type: a list of
    strings for emails, possible_interests, behavioral_anomalies and
    key_timelines, a list for posts, repositories and relationship_graph, a
    dict for usernames and links, a bool for compromised, a string or null
    for the scalar fields. *)
Theorem coerce_profile_schema_total (raw : json) :
  exists p, _coerce_profile_schema raw = Ok p /\ canonical p.
Proof.
  rewrite coerce_closed.
  set (d := src_of raw).
  destruct (ensure_classification_dict (normalised_fields d)) as (pt & ab & -> & Hpt & Hab).
  eexists; split; [reflexivity|].
  unfold normalised_fields in *.
  destruct (coerce_map_dict (dict_lookup d "usernames" JNull)) as [us Eus].
  rewrite Eus in *.
  eexists; split; [reflexivity|]. split; [reflexivity|].
  change (dict_lookup _ "profile_type" JNull)
    with (coerce_scalar (dict_lookup d "profile_type" JNull)) in Hpt.
  change (dict_lookup _ "about" JNull)
    with (coerce_scalar (dict_lookup d "about" JNull)) in Hab.
  apply filled_scalar_ok in Hpt, Hab.
  cbn [dict_set coerced_fields String.eqb Ascii.eqb Bool.eqb forallb fst snd].
  change (field_ok "profile_type" pt) with (is_none pt || is_str pt).
  change (field_ok "about" ab) with (is_none ab || is_str ab).
  rewrite Hpt, Hab.
  unfold field_ok; cbn [Str.mem existsb String.eqb Ascii.eqb Bool.eqb orb andb].
  rewrite !coerce_scalar_ok, !coerce_str_list_ok, !coerce_map_ok,
    !coerce_compromised_ok.
  reflexivity.
Qed.


(** ** Applying the coercion twice *)

Lemma coerce_scalar_idem (v : json) : coerce_scalar (coerce_scalar v) = coerce_scalar v.
Proof. destruct v; reflexivity. Qed.

Lemma coerce_str_list_idem (v : json) :
  coerce_str_list (coerce_str_list v) = coerce_str_list v.
Proof.
  unfold coerce_str_list. destruct v; try reflexivity.
  cbn [_normalize_list]. f_equal. rewrite map_map. reflexivity.
Qed.

Lemma coerce_seq_idem (v : json) : coerce_seq (coerce_seq v) = coerce_seq v.
Proof. reflexivity. Qed.

Lemma coerce_map_idem (v : json) : coerce_map (coerce_map v) = coerce_map v.
Proof. destruct v; reflexivity. Qed.

Lemma coerce_compromised_idem (v dflt dflt' : json) :
  coerce_compromised (coerce_compromised v dflt) dflt' = coerce_compromised v dflt.
Proof. destruct v; reflexivity. Qed.

Lemma filled_truthy (old new : json) : filled old new -> truthy new = true.
Proof. intros [[T ->]|[_ (s & -> & T)]]; exact T. Qed.

Lemma filled_scalar_fixed (v new : json) :
  filled (coerce_scalar v) new -> coerce_scalar new = new.
Proof.
  intros [[_ ->]|[_ (s & -> & _)]]; [apply coerce_scalar_idem|reflexivity].
Qed.

Lemma normalise_entry_shape (data : json) :
  exists h u b, normalise_entry data = JDict [("handle", h); ("url", u); ("bio", b)].
Proof. destruct data; cbn; eauto. Qed.

Lemma normalise_entry_settled (k : string) (data : json) :
  handle_settled (k, normalise_entry data) = true ->
  normalise_entry (normalise_entry data) = normalise_entry data.
Proof.
  destruct (normalise_entry_shape data) as (h & u & b & ->).
  unfold handle_settled. cbn.
  destruct (truthy h) eqn:T; [reflexivity|].
  rewrite orb_false_r. destruct h; now try discriminate.
Qed.

Lemma dict_get_none_keys (d : dict) (k : string) :
  dict_get d k = None <-> ~ In k (dict_keys d).
Proof.
  unfold dict_keys. induction d as [|[k' v'] d IH]; cbn.
  - tauto.
  - destruct (String.eqb k' k) eqn:E.
    + apply String.eqb_eq in E. split; [discriminate|]. intros H. exfalso. auto.
    + apply String.eqb_neq in E. rewrite IH. tauto.
Qed.

Lemma dict_set_absent (d : dict) (k : string) (v : json) :
  dict_get d k = None -> dict_set d k v = (d ++ [(k, v)])%list.
Proof.
  induction d as [|[k' v'] d IH]; cbn; [reflexivity|].
  destruct (String.eqb k' k); [discriminate|].
  intros H. now rewrite IH.
Qed.

Lemma dict_keys_set (d : dict) (k : string) (v : json) :
  dict_keys (dict_set d k v)
  = if dict_has d k then dict_keys d else (dict_keys d ++ [k])%list.
Proof.
  unfold dict_has. destruct (dict_get d k) eqn:G.
  - apply dict_keys_set_present. unfold dict_has. now rewrite G.
  - rewrite dict_set_absent by assumption. unfold dict_keys. now rewrite map_app.
Qed.

Lemma dict_set_nodup (d : dict) (k : string) (v : json) :
  NoDup (dict_keys d) -> NoDup (dict_keys (dict_set d k v)).
Proof.
  intros N. rewrite dict_keys_set. unfold dict_has.
  destruct (dict_get d k) eqn:G; [exact N|].
  apply dict_get_none_keys in G.
  apply NoDup_app; [exact N|repeat constructor; auto| ].
  intros x Hx [<-|[]]. auto.
Qed.

Lemma dict_set_In (d : dict) (k : string) (v : json) (kv : string * json) :
  In kv (dict_set d k v) -> kv = (k, v) \/ In kv d.
Proof.
  induction d as [|[k' v'] d IH]; cbn.
  - intros [<-|[]]. now left.
  - destruct (String.eqb k' k); cbn.
    + intros [<-|H]; auto.
    + intros [<-|H]; auto. destruct (IH H); auto.
Qed.

Lemma normalise_all_normal (us acc : dict) :
  normal_dict acc -> normal_dict (normalise_all us acc).
Proof.
  revert acc. induction us as [|[k data] us IH]; intros acc Hacc; [exact Hacc|].
  cbn [normalise_all fold_left fst snd]. apply IH.
  destruct Hacc as [N E]. split.
  - now apply dict_set_nodup.
  - intros kv H. apply dict_set_In in H. destruct H as [->|H]; [|now apply E].
    now exists data.
Qed.

Lemma normalise_all_fresh (n acc : dict) :
  NoDup (dict_keys n) ->
  (forall k, In k (dict_keys n) -> dict_get acc k = None) ->
  normalise_all n acc
  = (acc ++ map (fun kv => (fst kv, normalise_entry (snd kv))) n)%list.
Proof.
  revert acc. induction n as [|[k e] n IH]; intros acc N Fresh.
  - cbn. now rewrite app_nil_r.
  - cbn [normalise_all fold_left fst snd map].
    inversion N as [|? ? Hk N']; subst.
    rewrite dict_set_absent by (apply Fresh; now left).
    change (fold_left _ n ?a) with (normalise_all n a).
    rewrite IH; [now rewrite <- app_assoc|exact N'|].
    intros k' Hk'. apply dict_get_none_keys.
    unfold dict_keys. rewrite map_app, in_app_iff. cbn.
    intros [H|[<-|[]]]; [|now apply Hk].
    assert (G : dict_get acc k' = None) by (apply Fresh; now right).
    now apply dict_get_none_keys in G.
Qed.

Lemma normalise_all_fixed (n : dict) :
  normal_dict n -> forallb handle_settled n = true -> normalise_all n [] = n.
Proof.
  intros [N E] S. rewrite normalise_all_fresh; [|exact N|reflexivity].
  cbn [app]. clear N. induction n as [|[k e] n IH]; [reflexivity|].
  cbn [map fst snd]. cbn [forallb] in S. apply andb_prop in S as [Sk S].
  rewrite IH; [|intros kv H; apply E; now right|exact S].
  destruct (E (k, e)) as [data D]; [now left|]. cbn [snd] in D. subst e.
  now rewrite (normalise_entry_settled k).
Qed.

Lemma filled_fixed (old new new' : json) :
  filled old new -> filled new new' -> new' = new.
Proof.
  intros H [[_ ->]|[T _]]; [reflexivity|].
  apply filled_truthy in H. congruence.
Qed.

(** C2, amended: a second pass of [_coerce_profile_schema] over its own
    result changes nothing, provided every handle in the coerced usernames
    map is null or truthy. *)
Theorem coerce_idempotent_when_settled (raw p : json) :
  _coerce_profile_schema raw = Ok p ->
  handles_settled p = true ->
  _coerce_profile_schema p = Ok p.
Proof.
  rewrite coerce_closed. set (d := src_of raw).
  destruct (ensure_classification_dict (normalised_fields d))
    as (pt & ab & -> & Hpt & Hab).
  intros [= <-].
  unfold normalised_fields in *.
  destruct (coerce_map_dict (dict_lookup d "usernames" JNull)) as [us Eus].
  rewrite Eus in *.
  change (dict_lookup _ "profile_type" JNull)
    with (coerce_scalar (dict_lookup d "profile_type" JNull)) in Hpt.
  change (dict_lookup _ "about" JNull)
    with (coerce_scalar (dict_lookup d "about" JNull)) in Hab.
  pose proof (normalise_all_normal us [] (conj (NoDup_nil _) (fun kv (H : In kv []) => match H with end))) as Hn.
  set (n := normalise_all us []) in *.
  cbn [dict_set coerced_fields String.eqb Ascii.eqb Bool.eqb].
  intros S.
  assert (Sn : forallb handle_settled n = true) by exact S. clear S.
  rewrite coerce_closed.
  match goal with |- context [src_of (JDict ?P)] =>
    change (src_of (JDict P)) with P; set (P0 := P) end.
  assert (E : normalised_fields P0 = P0).
  { unfold normalised_fields.
    change (dict_lookup P0 "usernames" JNull) with (JDict n).
    cbn [coerce_map is_dict].
    rewrite (normalise_all_fixed n Hn Sn).
    unfold P0, coerced_fields.
    cbn [dict_lookup dict_get dict_set String.eqb Ascii.eqb Bool.eqb].
    rewrite !coerce_scalar_idem, !coerce_str_list_idem, !coerce_map_idem,
      !coerce_compromised_idem.
    rewrite (filled_scalar_fixed _ _ Hpt), (filled_scalar_fixed _ _ Hab).
    reflexivity. }
  rewrite E.
  destruct (ensure_classification_dict P0) as (pt' & ab' & -> & Hpt' & Hab').
  change (dict_lookup P0 "profile_type" JNull) with pt in Hpt'.
  change (dict_lookup P0 "about" JNull) with ab in Hab'.
  rewrite (filled_fixed _ _ _ Hpt Hpt'), (filled_fixed _ _ _ Hab Hab').
  reflexivity.
Qed.

End SchemaProperties.

(* ===================================================================== *)
(** * Reasoning about a computation that returned                        *)
(* ===================================================================== *)

Lemma bind_Ok {A B : Type} (c : M A) (k : A -> M B) (b : B) :
  bind c k = Ok b -> exists a, c = Ok a /\ k a = Ok b.
Proof. destruct c as [a|e]; cbn; [eauto|discriminate]. Qed.

Ltac bind_inv H :=
  let a := fresh "a" in
  let Ha := fresh "H" a in
  apply bind_Ok in H; destruct H as (a & Ha & H).

(* ===================================================================== *)
(** * Properties of the risk derivation                                  *)
(* ===================================================================== *)

Section RiskProperties.
Context {F : PyFloat}.

Lemma risk_points_uncompromised (profile counts c : json) (score : Z) (reasons : list string) :
  get profile "compromised" = Ok c ->
  truthy c = false ->
  risk_points profile counts = Ok (score, reasons) ->
  0 <= score <= 30.
Proof.
  intros Hc Tc H. unfold risk_points in H. rewrite Hc in H. cbn [bind] in H.
  rewrite Tc in H.
  repeat match type of H with
         | bind _ _ = Ok _ => bind_inv H
         | (let '(_, _) := if ?b then _ else _ in _) = _ => destruct b
         end;
    injection H as <- _; lia.
Qed.

Lemma risk_level_upto_30 (score : Z) :
  score <= 30 -> risk_level score = "low" \/ risk_level score = "medium".
Proof.
  intros H. unfold risk_level.
  destruct (60 <=? score) eqn:E1; [lia|].
  destruct (40 <=? score) eqn:E2; [lia|].
  destruct (20 <=? score); auto.
Qed.

Lemma py_ge_int_number (v : json) (n : Z) :
  is_number v = true -> exists b, py_ge_int v n = Ok b.
Proof. destruct v; try discriminate; cbn; eauto. Qed.

Lemma extract_usernames_dict (d : dict) : exists us, extract_usernames (JDict d) = Ok us.
Proof.
  unfold extract_usernames. cbn [get_or bind].
  destruct (dict_lookup d "usernames" (JDict [])) as [| | | | | |us]; eauto.
  generalize (@nil json). induction us as [|[k data] us IH]; intros acc; cbn [for_each].
  - eauto.
  - destruct data as [| | | | | |e]; cbn [extract_username bind]; try apply IH.
    destruct (dict_has e "handle") eqn:Hh; [|apply IH].
    unfold dict_has in Hh. cbn [item].
    destruct (dict_get e "handle"); [|discriminate]. cbn [bind]. apply IH.
Qed.

(** [derive_risk] returns whenever the profile is a dict and the two counts
    it reads are numbers. *)
Lemma derive_risk_returns (d : dict) (counts repos stars : json) :
  item counts "repos" = Ok repos -> is_number repos = true ->
  item counts "total_stars" = Ok stars -> is_number stars = true ->
  exists r, derive_risk (JDict d) counts = Ok r.
Proof.
  intros Hr Nr Hs Ns. unfold derive_risk, risk_points.
  cbn [get get_or bind].
  destruct (extract_usernames_dict d) as [us ->]. cbn [bind].
  rewrite Hr. cbn [bind]. destruct (py_ge_int_number repos 10 Nr) as [b ->].
  cbn [bind]. rewrite Hs. cbn [bind].
  destruct (py_ge_int_number stars 50 Ns) as [b' ->]. cbn [bind].
  destruct (truthy _), (3 <=? _), b, b'; cbn; eauto.
Qed.

Lemma derive_risk_level_upto_30 (profile counts c r : json) :
  get profile "compromised" = Ok c ->
  truthy c = false ->
  derive_risk profile counts = Ok r ->
  exists score reasons,
    risk_points profile counts = Ok (score, reasons) /\
    score <= 15 + 10 + 5 /\
    (get r "level" = Ok (JStr "low") \/ get r "level" = Ok (JStr "medium")).
Proof.
  intros Hc Tc H. unfold derive_risk in H.
  bind_inv H. destruct a as [score reasons]. injection H as <-.
  exists score, reasons. split; [exact Ha|].
  destruct (risk_points_uncompromised _ _ _ _ _ Hc Tc Ha) as [_ Hs].
  split; [exact Hs|]. cbn [get get_or dict_lookup dict_get String.eqb Ascii.eqb Bool.eqb].
  destruct (risk_level_upto_30 score Hs) as [-> | ->]; auto.
Qed.

(** C10: when the profile's compromised field is falsy, the score
    [derive_risk] computes is at most 15 + 10 + 5 = 30, and the level it
    returns is low or medium, never high or critical; and it does return
    one when the two counts it reads are numbers. *)
Theorem derive_risk_uncompromised (profile counts c : json) :
  get profile "compromised" = Ok c ->
  truthy c = false ->
  (forall r,
     derive_risk profile counts = Ok r ->
     exists score reasons,
       risk_points profile counts = Ok (score, reasons) /\
       score <= 15 + 10 + 5 /\
       (get r "level" = Ok (JStr "low") \/ get r "level" = Ok (JStr "medium")) /\
       get r "level" <> Ok (JStr "high") /\
       get r "level" <> Ok (JStr "critical")) /\
  (forall repos stars,
     item counts "repos" = Ok repos -> is_number repos = true ->
     item counts "total_stars" = Ok stars -> is_number stars = true ->
     exists r, derive_risk profile counts = Ok r).
Proof.
  intros Hc Tc. split.
  - intros r H.
    destruct (derive_risk_level_upto_30 _ _ _ _ Hc Tc H) as (score & reasons & Hp & Hs & Hl).
    exists score, reasons. repeat split; try assumption.
    + destruct Hl as [-> | ->]; discriminate.
    + destruct Hl as [-> | ->]; discriminate.
  - intros repos stars Hr Nr Hs Ns.
    destruct profile as [| | | | | |d]; try discriminate Hc.
    exact (derive_risk_returns d counts repos stars Hr Nr Hs Ns).
Qed.

End RiskProperties.

(* ===================================================================== *)
(** * Properties of the cleaned-data correlation                         *)
(* ===================================================================== *)

Section CleanedProperties.
Context {F : PyFloat} {R : PyRuntime}.

(** ** The name: the longest candidate *)




(** ** The posts: one per title, the first *)

Lemma dedupe_refines (posts : list json) (seen unique : list json)
    (st : pyset * list json) :
  for_each posts (seen, unique) dedupe_post = Ok st ->
  snd st = (unique ++ keep_first seen posts)%list.
Proof.
  revert seen unique. induction posts as [|p ps IH]; intros seen unique H.
  - cbn in H. injection H as <-. cbn. now rewrite app_nil_r.
  - cbn [for_each] in H. bind_inv H. unfold dedupe_post in Ha.
    bind_inv Ha. unfold get_or_str in Ha0. bind_inv Ha0. injection Ha0 as <-.
    destruct p as [| | | | | |d]; try discriminate.
    cbn in Ha1. injection Ha1 as <-.
    cbn [keep_first title_of].
    set (t := py_or (dict_lookup d "title" JNull) (JStr EmptyString)) in *.
    destruct (truthy t); cbn [andb].
    + bind_inv Ha. unfold set_mem in Ha0.
      destruct (hashable t) eqn:Hh; [|discriminate]. injection Ha0 as <-.
      destruct (existsb (fun y => py_eq y t) seen) eqn:E; cbn [negb] in *.
      * injection Ha as <-. now apply IH.
      * bind_inv Ha. injection Ha as <-.
        unfold set_add, set_mem in Ha0. rewrite Hh in Ha0. cbn [bind] in Ha0.
        rewrite E in Ha0. injection Ha0 as <-.
        apply IH in H. rewrite H. now rewrite <- app_assoc.
    + injection Ha as <-. now apply IH.
Qed.

Lemma keep_first_fresh (posts : list json) (seen : list json) (x y : json) :
  In x (keep_first seen posts) -> In y seen -> py_eq y (title_of x) = false.
Proof.
  revert seen. induction posts as [|p ps IH]; intros seen Hx Hy; [destruct Hx|].
  cbn [keep_first] in Hx.
  destruct (truthy (title_of p) && negb (existsb (fun y => py_eq y (title_of p)) seen))
    eqn:E.
  - destruct Hx as [<-|Hx].
    + apply andb_prop in E as [_ E]. apply negb_true_iff in E.
      destruct (py_eq y (title_of p)) eqn:Q; [|reflexivity].
      assert (X : existsb (fun y => py_eq y (title_of p)) seen = true)
        by (apply existsb_exists; eauto).
      congruence.
    + apply (IH _ Hx). apply in_or_app. now left.
  - now apply (IH _ Hx).
Qed.

Lemma keep_first_distinct (posts : list json) (seen : list json) :
  ForallOrdPairs distinct_titles (keep_first seen posts).
Proof.
  revert seen. induction posts as [|p ps IH]; intros seen; cbn [keep_first].
  - constructor.
  - destruct (truthy (title_of p) && negb (existsb (fun y => py_eq y (title_of p)) seen)).
    + constructor; [|apply IH].
      apply Forall_forall. intros x Hx. unfold distinct_titles.
      apply (keep_first_fresh ps (seen ++ [title_of p])%list x _ Hx).
      apply in_or_app. right. now left.
    + apply IH.
Qed.

Lemma In_firstn {A : Type} (n : nat) (l : list A) (x : A) :
  In x (firstn n l) -> In x l.
Proof.
  revert n. induction l as [|a l IH]; intros [|n]; cbn; try tauto.
  intros [->|H]; eauto.
Qed.

Lemma ForallOrdPairs_firstn {A : Type} (P : A -> A -> Prop) (n : nat) (l : list A) :
  ForallOrdPairs P l -> ForallOrdPairs P (firstn n l).
Proof.
  revert n. induction l as [|a l IH]; intros [|n] H; cbn; try constructor.
  - inversion H as [|? ? Ha Hl]; subst.
    apply Forall_forall. intros x Hx. rewrite Forall_forall in Ha.
    apply Ha. now apply (In_firstn n).
  - inversion H; subst. now apply IH.
Qed.

(** Cleaned-data correlation returns, as posts, the first 50 of the posts
    it gathered that carry a title no earlier one carries; no two of them
    have equal titles. *)
Lemma cleaned_posts_deduplicated (cleaned_results : list json) (identifier p : json) :
  _correlate_cleaned_data cleaned_results identifier = Ok p ->
  exists s posts,
    cleaned_loop cleaned_results identifier = Ok s /\
    get p "posts" = Ok (JList posts) /\
    posts = firstn 50 (keep_first [] (l_posts s)) /\
    ForallOrdPairs distinct_titles posts.
Proof.
  unfold _correlate_cleaned_data. intros H. bind_inv H.
  exists a, (firstn 50 (keep_first [] (l_posts a))).
  unfold cleaned_finish in H. bind_inv H. bind_inv H. bind_inv H. bind_inv H.
  injection H as <-.
  unfold dedupe_posts in Ha2. bind_inv Ha2. injection Ha2 as <-.
  apply dedupe_refines in Ha4. cbn [app] in Ha4.
  split; [exact Ha|]. split.
  - cbn [get get_or dict_lookup dict_get String.eqb Ascii.eqb Bool.eqb].
    now rewrite Ha4.
  - split; [reflexivity|]. apply ForallOrdPairs_firstn, keep_first_distinct.
Qed.

End CleanedProperties.


(* ===================================================================== *)
(** * Properties of the rule-based correlation                           *)
(* ===================================================================== *)

Section RuleProperties.
Context {F : PyFloat} {R : PyRuntime}.

(** ** The name: first come, first kept *)

Section NameKept.
Variable N : json.
Hypothesis N_truthy : truthy N = true.















End NameKept.




(** ** The scenario of a GitHub document and a BreachDirectory document *)



End RuleProperties.


(* ===================================================================== *)
(** * Properties of the remote loop                                      *)
(* ===================================================================== *)

Section BackendProperties.
Context {F : PyFloat} {R : PyRuntime}.

Lemma calls_made_app (a b : list event) :
  calls_made (a ++ b) = (calls_made a + calls_made b)%nat.
Proof. unfold calls_made. now rewrite filter_app, length_app. Qed.

Lemma attempt_once_raise (w : world) (prompt : string) (ib : bool) (cb : string)
    (fm : option string) (m : string) (n : nat) (e : exn) :
  chat w n m prompt = Raise e -> attempt_once w prompt ib cb fm m n = Raise e.
Proof. intros H. unfold attempt_once. now rewrite H. Qed.

(** What one round of the [while] loop does when the call raises. *)
Lemma try_model_raise (w : world) (prompt : string) (ib : bool) (cb : string)
    (fm : option string) (m : string) (fuel attempt : nat) (backoff : Q)
    (st : progress) (e : exn) :
  (attempt < MAX_RETRIES)%nat ->
  chat w (calls_made (trace st)) m prompt = Raise e ->
  try_model w prompt ib cb fm m (S fuel) attempt backoff st
  = let msg := str_of_exn w e in
    let tr := (trace st ++ [Called m])%list in
    if any_token CAPACITY_TOKENS msg then mkProgress None (Some msg) tr
    else if any_token TRANSIENT_TOKENS msg && (attempt + 1 <? MAX_RETRIES)%nat
    then try_model w prompt ib cb fm m fuel (attempt + 1) (backoff * BACKOFF_FACTOR)%Q
           (mkProgress None (Some msg) (tr ++ [Slept backoff])%list)
    else mkProgress None (Some msg) tr.
Proof.
  intros Ha Hc. cbn [try_model].
  apply Nat.ltb_lt in Ha. rewrite Ha.
  now rewrite (attempt_once_raise _ _ _ _ _ _ _ _ Hc).
Qed.

(** The trace only grows, by at most three calls per model. *)
Lemma try_model_calls (w : world) (prompt : string) (ib : bool) (cb : string)
    (fm : option string) (m : string) (fuel attempt : nat) (backoff : Q)
    (st : progress) :
  (calls_made (trace (try_model w prompt ib cb fm m fuel attempt backoff st))
   <= calls_made (trace st) + (MAX_RETRIES - attempt))%nat.
Proof.
  revert attempt backoff st. induction fuel as [|fuel IH]; intros attempt backoff st.
  - cbn [try_model]. lia.
  - cbn [try_model]. destruct (attempt <? MAX_RETRIES)%nat eqn:E; [|lia].
    apply Nat.ltb_lt in E.
    assert (C : forall tr x, calls_made (tr ++ [Called x]) = S (calls_made tr))
      by (intros; rewrite calls_made_app; cbn; lia).
    assert (S' : forall tr x, calls_made (tr ++ [Slept x]) = calls_made tr)
      by (intros; rewrite calls_made_app; cbn; lia).
    destruct (attempt_once w prompt ib cb fm m (calls_made (trace st))).
    + cbn [trace]. rewrite C. lia.
    + destruct (any_token CAPACITY_TOKENS (str_of_exn w e)).
      * cbn [trace]. rewrite C. lia.
      * destruct (any_token TRANSIENT_TOKENS (str_of_exn w e)
                  && (attempt + 1 <? MAX_RETRIES)%nat).
        -- etransitivity; [apply IH|]. cbn [trace]. rewrite S', C. lia.
        -- cbn [trace]. rewrite C. lia.
Qed.

(** C6, amended: a model is called at most three times; an error whose
    text carries a capacity token (429, rate limit, Rate limit, overloaded,
    capacity) sends the loop on to the next model after that one call, with
    no sleep, also when the text carries a transient token; an error whose
    text carries a transient token (503, Service Unavailable, No instances
    available, timed out, timeout) and no capacity token is retried on the
    same model, after a sleep of 0.8s and then of 1.6s, and the third
    failure sends the loop on to the next model. *)
Theorem retry_policy (w : world) (prompt : string) (ib : bool) (cb : string)
    (fm : option string) (m : string) (st : progress) :
  let run := try_model w prompt ib cb fm m MAX_RETRIES 0 INITIAL_BACKOFF st in
  let n := calls_made (trace st) in
  (calls_made (trace run) <= n + 3)%nat /\
  (forall e,
     chat w n m prompt = Raise e ->
     any_token CAPACITY_TOKENS (str_of_exn w e) = true ->
     run = mkProgress None (Some (str_of_exn w e)) (trace st ++ [Called m])%list) /\
  (forall e1 e2 e3,
     chat w n m prompt = Raise e1 ->
     chat w (n + 1) m prompt = Raise e2 ->
     chat w (n + 2) m prompt = Raise e3 ->
     any_token CAPACITY_TOKENS (str_of_exn w e1) = false ->
     any_token TRANSIENT_TOKENS (str_of_exn w e1) = true ->
     any_token CAPACITY_TOKENS (str_of_exn w e2) = false ->
     any_token TRANSIENT_TOKENS (str_of_exn w e2) = true ->
     run = mkProgress None (Some (str_of_exn w e3))
             (trace st ++ [Called m; Slept 0.8; Called m; Slept (0.8 * 2.0);
                           Called m])%list
     /\ (0.8 * 2.0 == 1.6)%Q).
Proof.
  cbv zeta. split; [|split].
  - apply (try_model_calls w prompt ib cb fm m MAX_RETRIES 0 INITIAL_BACKOFF st).
  - intros e Hc Hcap. unfold MAX_RETRIES at 1.
    rewrite (try_model_raise _ _ _ _ _ _ _ _ _ _ e); [|unfold MAX_RETRIES; lia|exact Hc].
    cbv zeta. now rewrite Hcap.
  - intros e1 e2 e3 H1 H2 H3 C1 T1 C2 T2. split; [|reflexivity].
    unfold MAX_RETRIES at 1.
    rewrite (try_model_raise _ _ _ _ _ _ _ _ _ _ e1); [|unfold MAX_RETRIES; lia|exact H1].
    cbv zeta. rewrite C1, T1. cbn [andb Nat.add Nat.ltb Nat.leb MAX_RETRIES].
    rewrite (try_model_raise _ _ _ _ _ _ _ _ _ _ e2); [|unfold MAX_RETRIES; lia|].
    2:{ cbn [trace]. rewrite !calls_made_app. cbn [calls_made filter length].
        rewrite Nat.add_0_r. exact H2. }
    cbv zeta. rewrite C2, T2. cbn [andb Nat.add Nat.ltb Nat.leb MAX_RETRIES trace].
    rewrite (try_model_raise _ _ _ _ _ _ _ _ _ _ e3); [|unfold MAX_RETRIES; lia|].
    2:{ cbn [trace]. rewrite !calls_made_app. cbn [calls_made filter length].
        rewrite !Nat.add_0_r, <- Nat.add_assoc. exact H3. }
    cbv zeta. cbn [andb Nat.add Nat.ltb Nat.leb MAX_RETRIES trace].
    rewrite andb_false_r.
    rewrite <- !app_assoc. cbn [app].
    destruct (any_token CAPACITY_TOKENS (str_of_exn w e3)); reflexivity.
Qed.

Lemma error_dict_fields (ib : bool) (cb : string) (fm : option string) (m : string)
    (raw cleaned : json) :
  let result :=
    JDict [ ("error", JStr "Model did not return valid JSON");
            ("raw_response", raw); ("cleaned_attempt", cleaned);
            ("model_used", JStr m) ] in
  let fallback_from result :=
    match fm with
    | Some f =>
        if negb (String.eqb f EmptyString) && negb (String.eqb f m)
        then setdefault result "fallback_from" (JStr f)
        else result
    | None => result
    end in
  let r := if ib then fallback_from (setdefault result "backend_used" (JStr cb))
           else result in
  get r "error" = Ok (JStr "Model did not return valid JSON") /\
  get r "model_used" = Ok (JStr m).
Proof.
  cbv zeta. destruct ib; [|split; reflexivity].
  destruct fm as [f|]; [|split; reflexivity].
  destruct (negb (String.eqb f EmptyString) && negb (String.eqb f m));
    split; reflexivity.
Qed.

(** C5, amended: when the first model's call raises a capacity error and
    the second model's answer does not parse as JSON, the loop returns the
    second model's diagnostic error ("Model did not return valid JSON",
    tagged with that model) and calls no further model, whatever a third
    model would have answered. *)
Theorem parse_error_ends_fallback (w : world) (prompt : string) (ib : bool)
    (cb : string) (fm : option string) (A B : string) (rest : list string)
    (st : progress) (e : exn) (raw : option string) :
  chat w (calls_made (trace st)) A prompt = Raise e ->
  any_token CAPACITY_TOKENS (str_of_exn w e) = true ->
  chat w (calls_made (trace st) + 1) B prompt = Ok raw ->
  json_loads w (clean_model_text raw) = None ->
  let run := try_models w prompt ib cb fm (A :: B :: rest) st in
  trace run = (trace st ++ [Called A; Called B])%list /\
  exists r,
    returned run = Some r /\
    get r "error" = Ok (JStr "Model did not return valid JSON") /\
    get r "model_used" = Ok (JStr B).
Proof.
  intros HA Hcap HB Hparse. cbv zeta.
  assert (EA : try_model w prompt ib cb fm A MAX_RETRIES 0 INITIAL_BACKOFF st
               = mkProgress None (Some (str_of_exn w e))
                   (trace st ++ [Called A])%list).
  { unfold MAX_RETRIES at 1.
    rewrite (try_model_raise _ _ _ _ _ _ _ _ _ _ e); [|unfold MAX_RETRIES; lia|exact HA].
    cbv zeta. now rewrite Hcap. }
  assert (EB : exists r,
             attempt_once w prompt ib cb fm B (calls_made (trace st) + 1) = Ok r /\
             get r "error" = Ok (JStr "Model did not return valid JSON") /\
             get r "model_used" = Ok (JStr B)).
  { unfold attempt_once. rewrite HB. cbn [bind]. rewrite Hparse.
    destruct (error_dict_fields ib cb fm B
                (match raw with Some t => JStr t | None => JNull end)
                (JStr (clean_model_text raw))) as [He Hm].
    cbv zeta in He, Hm.
    destruct ib; eexists; (split; [reflexivity|]); split; assumption. }
  destruct EB as (r & EB & He & Hm).
  assert (E : calls_made (trace st ++ [Called A]) = (calls_made (trace st) + 1)%nat)
    by (rewrite calls_made_app; reflexivity).
  assert (EB' : try_model w prompt ib cb fm B MAX_RETRIES 0 INITIAL_BACKOFF
                  (mkProgress None (Some (str_of_exn w e))
                     (trace st ++ [Called A])%list)
                = mkProgress (Some r) (Some (str_of_exn w e))
                    (trace st ++ [Called A; Called B])%list).
  { unfold MAX_RETRIES at 1. cbn [try_model].
    replace (0 <? MAX_RETRIES)%nat with true by reflexivity.
    cbn [trace last_error]. rewrite E, EB, <- app_assoc. reflexivity. }
  cbn [try_models]. rewrite EA. cbn [returned]. rewrite EB'. cbn [returned trace].
  split; [reflexivity|]. exists r. auto.
Qed.





(** ** The guard of the self mode *)



End BackendProperties.

(* ===================================================================== *)
(** * Properties of the deep-clean orchestrator                          *)
(* ===================================================================== *)

Section DeepCleanProperties.
Context {F : PyFloat} {R : PyRuntime}.

Lemma canonical_keys_no_meta (d : dict) :
  dict_keys d = dict_keys CANONICAL_KEYS ->
  get (JDict d) "_deep_clean_meta" = Ok JNull.
Proof.
  intros K. cbn [get get_or]. unfold dict_lookup.
  assert (G : dict_get d "_deep_clean_meta" = None).
  { apply dict_get_none_keys. rewrite K. cbn.
    intros H. repeat (destruct H as [H|H]; [discriminate H|]). exact H. }
  now rewrite G.
Qed.

(** C9 fails on the code: whatever the run finds, the dict it returns has
    no [_deep_clean_meta] entry.  The metadata block is attached to the
    correlation result and then lost, because [_coerce_profile_schema]
    builds its result from the canonical keys alone. *)
Theorem deep_clean_meta_dropped (w : world) (identifier : json) (mongo_uri : string)
    (pm : option string) :
  get (fst (run_deep_clean_correlation w identifier mongo_uri pm)) "_deep_clean_meta"
  = Ok JNull.
Proof.
  unfold run_deep_clean_correlation. cbv zeta.
  destruct (connect w mongo_uri); [|reflexivity].
  match goal with
  | |- context [fold_left ?f ?l ?a] => generalize (fold_left f l a)
  end.
  intros st. destruct (cleaned_results st) as [|c cs]; [reflexivity|].
  match goal with
  | |- context [bind ?c ?k] => destruct (bind c k) as [r|e] eqn:E
  end; [|reflexivity].
  cbn [fst].
  apply bind_Ok in E. destruct E as (found & _ & E).
  apply bind_Ok in E. destruct E as (tagged & _ & E).
  destruct (coerce_keys tagged) as (d & Hd & K).
  rewrite Hd in E. injection E as <-. now apply canonical_keys_no_meta.
Qed.

End DeepCleanProperties.


(* ===================================================================== *)
(** * Properties of the text functions                                   *)
(* ===================================================================== *)

Section TextProperties.

(** ** Prefixes and substrings *)

Lemma prefix_cons (a b : ascii) (n s : string) :
  prefix (String a n) (String b s) = Ascii.eqb a b && prefix n s.
Proof.
  cbn [prefix]. destruct (ascii_dec a b) as [->|N].
  - now rewrite Ascii.eqb_refl.
  - apply Ascii.eqb_neq in N. now rewrite N.
Qed.

Lemma prefix_app (n t : string) : prefix n (n ++ t) = true.
Proof.
  induction n as [|c n IH]; [now destruct t|].
  cbn [append]. now rewrite prefix_cons, Ascii.eqb_refl.
Qed.

Lemma prefix_inv (n s : string) : prefix n s = true -> exists t, s = n ++ t.
Proof.
  revert s. induction n as [|c n IH]; intros s H; [now exists s|].
  destruct s as [|d s]; [discriminate H|].
  rewrite prefix_cons in H. apply andb_prop in H as [E H].
  apply Ascii.eqb_eq in E. subst d. destruct (IH s H) as [t ->]. now exists t.
Qed.

Lemma contains_unfold (n s : string) :
  Str.contains n s
  = prefix n s || match s with
                  | EmptyString => false
                  | String _ s' => Str.contains n s'
                  end.
Proof. now destruct s. Qed.

Lemma append_assoc (a b c : string) : (a ++ b) ++ c = a ++ b ++ c.
Proof. induction a as [|x a IH]; cbn; [reflexivity|now rewrite IH]. Qed.

Lemma append_nil_r (a : string) : a ++ EmptyString = a.
Proof. induction a as [|x a IH]; cbn; [reflexivity|now rewrite IH]. Qed.

Lemma length_append (a b : string) :
  String.length (a ++ b) = (String.length a + String.length b)%nat.
Proof. induction a as [|x a IH]; cbn; [reflexivity|now rewrite IH]. Qed.

(** [needle in hay] holds exactly when [hay] is [needle] between two
    texts. *)
Lemma contains_infix (n s : string) :
  Str.contains n s = true <-> exists a b, s = a ++ n ++ b.
Proof.
  split.
  - induction s as [|c s IH]; rewrite contains_unfold; intros H.
    + rewrite orb_false_r in H. destruct (prefix_inv _ _ H) as [t ->].
      now exists EmptyString, t.
    + apply orb_prop in H as [H|H].
      * destruct (prefix_inv _ _ H) as [t ->]. now exists EmptyString, t.
      * destruct (IH H) as (a & b & ->). now exists (String c a), b.
  - intros (a & b & ->). induction a as [|c a IH].
    + cbn [append]. rewrite contains_unfold, prefix_app. reflexivity.
    + cbn [append]. rewrite contains_unfold, IH. apply orb_true_r.
Qed.

Lemma contains_within (n u s a b : string) :
  s = a ++ u ++ b -> Str.contains n u = true -> Str.contains n s = true.
Proof.
  intros -> H. apply contains_infix in H as (x & y & ->).
  apply contains_infix. exists (a ++ x), (y ++ b).
  now rewrite !append_assoc.
Qed.

Lemma absent_within (n u s a b : string) :
  s = a ++ u ++ b -> Str.contains n s = false -> Str.contains n u = false.
Proof.
  intros E H. destruct (Str.contains n u) eqn:C; [|reflexivity].
  now rewrite (contains_within _ _ _ _ _ E C) in H.
Qed.

Lemma lstrip_suffix (s : string) : exists a, s = a ++ Str.lstrip s.
Proof.
  induction s as [|c s [a IH]]; [now exists EmptyString|].
  cbn [Str.lstrip]. destruct (Str.is_space c).
  - exists (String c a). cbn. now rewrite <- IH.
  - now exists EmptyString.
Qed.

Lemma rstrip_prefix (s : string) : exists b, s = Str.rstrip s ++ b.
Proof.
  induction s as [|c s [b IH]]; [now exists EmptyString|].
  cbn [Str.rstrip]. destruct (Str.rstrip s) as [|d r].
  - cbn in IH. subst b. destruct (Str.is_space c).
    + now exists (String c s).
    + now exists s.
  - exists b. cbn. now rewrite IH at 1.
Qed.

Lemma strip_within (s : string) : exists a b, s = a ++ Str.strip s ++ b.
Proof.
  unfold Str.strip. destruct (lstrip_suffix s) as [a Ea].
  destruct (rstrip_prefix (Str.lstrip s)) as [b Eb].
  exists a, b. now rewrite <- Eb.
Qed.

Lemma substring_0_prefix (n : nat) (s : string) :
  exists b, s = substring 0 n s ++ b.
Proof.
  revert n. induction s as [|c s IH]; intros [|n]; cbn [substring];
    try (now exists EmptyString); [now exists (String c s)|].
  destruct (IH n) as [b E]. exists b. cbn. now rewrite <- E.
Qed.

Lemma substring_within (i n : nat) (s : string) :
  exists a b, s = a ++ substring i n s ++ b.
Proof.
  revert i. induction s as [|c s IH]; intros i.
  - exists EmptyString, EmptyString. now destruct i, n.
  - destruct i as [|i].
    + destruct (substring_0_prefix n (String c s)) as [b E].
      now exists EmptyString, b.
    + destruct (IH i) as (a & b & E).
      exists (String c a), b. cbn. now rewrite <- E.
Qed.

(** ** Code fences *)

Lemma no_fence_cons (c : ascii) (s : string) :
  Str.contains "```" (String c s) = false ->
  prefix "```" (String c s) = false /\ Str.contains "```" s = false.
Proof. rewrite contains_unfold. intros H. now apply orb_false_elim in H. Qed.

Lemma prefix_app_false (n m s : string) :
  prefix n s = false -> prefix (n ++ m) s = false.
Proof.
  revert s. induction n as [|c n IH]; intros s H; [now destruct s|].
  destruct s as [|d s]; [reflexivity|].
  cbn [append]. rewrite prefix_cons in *.
  destruct (Ascii.eqb c d); [|reflexivity]. now apply IH.
Qed.

Lemma strip_fences_emit (c : ascii) (s : string) :
  prefix "```" (String c s) = false ->
  strip_fences 0 false (String c s) = String c (strip_fences 0 false s).
Proof. intros H. cbn [strip_fences andb]. now rewrite H. Qed.

Lemma strip_fences_head1 (s : string) :
  prefix "`" s = false -> prefix "`" (strip_fences 0 false s) = false.
Proof.
  destruct s as [|c s]; [reflexivity|]. intros H.
  rewrite strip_fences_emit by exact (prefix_app_false "`" "``" _ H).
  rewrite prefix_cons in *.
  destruct (Ascii.eqb "`" c); [|reflexivity].
  now destruct s.
Qed.

Lemma strip_fences_head2 (s : string) :
  prefix "``" s = false -> prefix "``" (strip_fences 0 false s) = false.
Proof.
  destruct s as [|c s]; [reflexivity|]. intros H.
  rewrite strip_fences_emit by exact (prefix_app_false "``" "`" _ H).
  rewrite prefix_cons in *.
  destruct (Ascii.eqb "`" c); [|reflexivity]. now apply strip_fences_head1.
Qed.

(** A text that starts with no fence keeps starting with none when the
    fences after its first character are removed. *)
Lemma strip_fences_head (c : ascii) (s : string) :
  prefix "```" (String c s) = false ->
  prefix "```" (String c (strip_fences 0 false s)) = false.
Proof.
  rewrite !prefix_cons.
  destruct (Ascii.eqb "`" c); [|reflexivity]. apply strip_fences_head2.
Qed.

Lemma strip_fences_no_fence (s : string) (skip : nat) (ws : bool) :
  Str.contains "```" (strip_fences skip ws s) = false.
Proof.
  revert skip ws. induction s as [|c s IH]; intros skip ws; [reflexivity|].
  cbn [strip_fences]. destruct skip as [|k]; [|apply IH].
  destruct (ws && Str.is_space c); [apply IH|].
  destruct (prefix "```" (String c s)) eqn:P; [apply IH|].
  rewrite contains_unfold, IH, orb_false_r.
  now apply strip_fences_head.
Qed.

Lemma strip_fences_fixed (s : string) :
  Str.contains "```" s = false -> strip_fences 0 false s = s.
Proof.
  induction s as [|c s IH]; intros H; [reflexivity|].
  apply no_fence_cons in H as [P H]. cbn [strip_fences andb].
  now rewrite P, IH.
Qed.

(** [text.replace("```", "")] finds nothing to replace in a text with no
    fence. *)
Lemma drop_backticks_fixed (s : string) :
  Str.contains "```" s = false -> drop_backticks 0 s = s.
Proof.
  induction s as [|c s IH]; intros H; [reflexivity|].
  apply no_fence_cons in H as [P H]. cbn [drop_backticks].
  now rewrite P, IH.
Qed.

(** X1: The cleaned text holds no code fence; the [replace] that follows the
    [re.sub] has nothing left to remove. *)
Theorem clean_model_text_has_no_fence (text : option string) :
  Str.contains "```" (clean_model_text text) = false /\
  (forall t, text = Some t ->
     drop_backticks 0 (strip_fences 0 false t) = strip_fences 0 false t).
Proof.
  split.
  - destruct text as [t|]; [|reflexivity]. unfold clean_model_text.
    destruct (String.eqb t EmptyString); [reflexivity|].
    rewrite (drop_backticks_fixed _ (strip_fences_no_fence t 0 false)).
    set (u := strip_fences 0 false t).
    assert (U : Str.contains "```" (Str.strip u) = false).
    { destruct (strip_within u) as (a & b & E).
      exact (absent_within _ _ _ _ _ E (strip_fences_no_fence t 0 false)). }
    destruct (find_char "{" (Str.strip u)) as [i|]; [|exact U].
    destruct (rfind_char "}" (Str.strip u)) as [j|]; [|exact U].
    destruct (i <? j)%nat; [|exact U].
    destruct (substring_within i (j + 1 - i) (Str.strip u)) as (a & b & E).
    pose proof (absent_within _ _ _ _ _ E U) as V.
    destruct (strip_within (substring i (j + 1 - i) (Str.strip u))) as (a' & b' & E').
    exact (absent_within _ _ _ _ _ E' V).
  - intros t _. apply drop_backticks_fixed, strip_fences_no_fence.
Qed.

(** ** The JSON object inside a model's answer *)

Lemma has_char_app (c : ascii) (a b : string) :
  Str.has_char c (a ++ b) = Str.has_char c a || Str.has_char c b.
Proof.
  induction a as [|x a IH]; [reflexivity|].
  cbn [append Str.has_char]. now rewrite IH, orb_assoc.
Qed.

Lemma has_char_within (c : ascii) (u s a b : string) :
  s = a ++ u ++ b -> Str.has_char c s = false -> Str.has_char c u = false.
Proof.
  intros -> H. rewrite !has_char_app in H.
  apply orb_false_elim in H as [_ H]. now apply orb_false_elim in H.
Qed.

Lemma lstrip_app_nonspace (a t : string) (c : ascii) :
  Str.is_space c = false ->
  Str.lstrip (a ++ String c t) = Str.lstrip a ++ String c t.
Proof.
  intros N. induction a as [|x a IH]; cbn [append Str.lstrip].
  - now rewrite N.
  - now destruct (Str.is_space x).
Qed.

Lemma rstrip_cons_nonspace (c : ascii) (t : string) :
  Str.is_space c = false -> Str.rstrip (String c t) = String c (Str.rstrip t).
Proof. intros N. cbn [Str.rstrip]. rewrite N. now destruct (Str.rstrip t). Qed.

Lemma rstrip_app_nonspace (a t : string) (c : ascii) :
  Str.is_space c = false ->
  Str.rstrip (a ++ String c t) = a ++ String c (Str.rstrip t).
Proof.
  intros N. induction a as [|x a IH]; cbn [append].
  - now apply rstrip_cons_nonspace.
  - cbn [Str.rstrip]. rewrite IH. now destruct a.
Qed.

Lemma find_char_app (c : ascii) (a t : string) :
  Str.has_char c a = false ->
  find_char c (a ++ String c t) = Some (String.length a).
Proof.
  induction a as [|x a IH]; cbn [append find_char Str.has_char String.length].
  - now rewrite Ascii.eqb_refl.
  - intros H. apply orb_false_elim in H as [E H]. now rewrite E, IH.
Qed.

Lemma rfind_char_absent (c : ascii) (t : string) :
  Str.has_char c t = false -> rfind_char c t = None.
Proof.
  induction t as [|x t IH]; [reflexivity|]. cbn [Str.has_char rfind_char].
  intros H. apply orb_false_elim in H as [E H]. now rewrite IH, E.
Qed.

Lemma rfind_char_app (c : ascii) (a t : string) :
  Str.has_char c t = false ->
  rfind_char c (a ++ String c t) = Some (String.length a).
Proof.
  intros H. induction a as [|x a IH]; cbn [append rfind_char String.length].
  - now rewrite (rfind_char_absent _ _ H), Ascii.eqb_refl.
  - now rewrite IH.
Qed.

Lemma substring_0_app (b c : string) : substring 0 (String.length b) (b ++ c) = b.
Proof.
  induction b as [|x b IH]; cbn [append String.length substring].
  - now destruct c.
  - now rewrite IH.
Qed.

Lemma substring_app_mid (a b c : string) :
  substring (String.length a) (String.length b) (a ++ b ++ c) = b.
Proof.
  induction a as [|x a IH]; cbn [append String.length substring].
  - apply substring_0_app.
  - exact IH.
Qed.

Lemma eqb_app_cons_nil (a t : string) (c : ascii) :
  String.eqb (a ++ String c t) EmptyString = false.
Proof. now destruct a. Qed.

(** X2: When the model wraps one JSON object in prose, the cleaned text is
    the object: what stands before the first opening brace and after the
    last closing brace is dropped. *)
Theorem clean_model_text_extracts_object (pre body post : string) :
  Str.has_char "{" pre = false ->
  Str.has_char "}" post = false ->
  Str.contains "```" (pre ++ "{" ++ body ++ "}" ++ post) = false ->
  clean_model_text (Some (pre ++ "{" ++ body ++ "}" ++ post))
  = "{" ++ body ++ "}".
Proof.
  intros Hpre Hpost Hfence. unfold clean_model_text.
  change (pre ++ "{" ++ body ++ "}" ++ post)
    with (pre ++ String "{" (body ++ String "}" post)) in *.
  change ("{" ++ body ++ "}") with (String "{" (body ++ String "}" EmptyString)).
  rewrite eqb_app_cons_nil.
  rewrite (strip_fences_fixed _ Hfence), (drop_backticks_fixed _ Hfence).
  set (P := Str.lstrip pre). set (Q := Str.rstrip post).
  set (B := String "{" (body ++ String "}" EmptyString)).
  assert (HP : Str.has_char "{" P = false).
  { destruct (lstrip_suffix pre) as [a E].
    apply (has_char_within _ _ pre a EmptyString); [|exact Hpre].
    now rewrite append_nil_r. }
  assert (HQ : Str.has_char "}" Q = false).
  { destruct (rstrip_prefix post) as [b E].
    now apply (has_char_within _ _ post EmptyString b). }
  assert (T : Str.strip (pre ++ String "{" (body ++ String "}" post))
              = P ++ B ++ Q).
  { unfold Str.strip. rewrite lstrip_app_nonspace by reflexivity. fold P.
    replace (P ++ String "{" (body ++ String "}" post))
      with ((P ++ String "{" body) ++ String "}" post)
      by (rewrite append_assoc; reflexivity).
    rewrite rstrip_app_nonspace by reflexivity. fold Q.
    rewrite append_assoc. unfold B. cbn [append].
    now rewrite append_assoc. }
  rewrite T.
  assert (I : find_char "{" (P ++ B ++ Q) = Some (String.length P)).
  { unfold B. cbn [append]. now apply find_char_app. }
  assert (J : rfind_char "}" (P ++ B ++ Q)
              = Some (String.length P + S (String.length body))%nat).
  { replace (P ++ B ++ Q) with ((P ++ String "{" body) ++ String "}" Q).
    - rewrite rfind_char_app by exact HQ. now rewrite length_append.
    - unfold B. cbn [append]. now rewrite !append_assoc. }
  rewrite I, J.
  replace (String.length P <? String.length P + S (String.length body))%nat
    with true by (symmetry; apply Nat.ltb_lt; lia).
  replace (String.length P + S (String.length body) + 1 - String.length P)%nat
    with (String.length B)
    by (unfold B; cbn [String.length]; rewrite length_append; cbn; lia).
  rewrite substring_app_mid.
  unfold Str.strip, B.
  change (Str.lstrip (String "{" (body ++ String "}" EmptyString)))
    with (String "{" (body ++ String "}" EmptyString)).
  change (String "{" (body ++ String "}" EmptyString))
    with ((String "{" body) ++ String "}" EmptyString).
  now rewrite rstrip_app_nonspace.
Qed.

(** ** The keyword guard *)







(** ** The prompt *)

Lemma contains_self (n : string) : Str.contains n n = true.
Proof.
  apply contains_infix. exists EmptyString, EmptyString.
  cbn [append]. now rewrite append_nil_r.
Qed.

Lemma contains_app_l (n s t : string) :
  Str.contains n s = true -> Str.contains n (s ++ t) = true.
Proof.
  intros H. apply (contains_within n s (s ++ t) EmptyString t); [reflexivity|exact H].
Qed.

Lemma contains_app_r (n s t : string) :
  Str.contains n t = true -> Str.contains n (s ++ t) = true.
Proof.
  intros H. apply (contains_within n t (s ++ t) s EmptyString); [|exact H].
  now rewrite append_nil_r.
Qed.

(** Looks for [n] among the texts a goal's text is appended from. *)
Ltac find_part :=
  lazymatch goal with
  | |- Str.contains ?n ?n = true => apply contains_self
  | |- Str.contains ?n (?n ++ _) = true => apply contains_app_l, contains_self
  | |- Str.contains ?n (_ ++ ?t) = true => apply contains_app_r; find_part
  end.

Lemma base_instruction_parts (osint_data : string) :
  Str.contains osint_data (base_instruction osint_data) = true /\
  Str.contains SCHEMA_DESCRIPTION (base_instruction osint_data) = true.
Proof. unfold base_instruction. split; find_part. Qed.

(** X4: Every prompt that is sent holds the OSINT data and the schema
    description as they are, and in self mode the caller's instruction as
    it is. *)
Theorem prompt_embeds_data (dumps_error : string -> string)
    (mode osint_data custom_prompt : string) :
  (mode = "self" -> is_osint_prompt custom_prompt = true) ->
  let prompt := build_prompt dumps_error mode osint_data custom_prompt in
  Str.contains osint_data prompt = true /\
  Str.contains SCHEMA_DESCRIPTION prompt = true /\
  (mode = "self" -> Str.contains custom_prompt prompt = true).
Proof.
  intros Hself. cbv zeta.
  destruct (base_instruction_parts osint_data) as [D S].
  unfold build_prompt.
  destruct (String.eqb mode "fast") eqn:Ef.
  { apply String.eqb_eq in Ef. subst mode.
    repeat split; try (now apply contains_app_l). discriminate. }
  destruct (String.eqb mode "deep") eqn:Ed.
  { apply String.eqb_eq in Ed. subst mode.
    repeat split; try (now apply contains_app_l). discriminate. }
  destruct (String.eqb mode "self") eqn:Es.
  - apply String.eqb_eq in Es. rewrite (Hself Es).
    assert (N : String.eqb custom_prompt EmptyString = false).
    { specialize (Hself Es). now destruct custom_prompt. }
    rewrite N. cbn [negb orb].
    repeat split; try (now apply contains_app_l).
    intros _. apply contains_app_r. unfold self_addition. find_part.
  - apply String.eqb_neq in Es.
    repeat split; try (now apply contains_app_l). intros E. now destruct Es.
Qed.

End TextProperties.

(* ===================================================================== *)
(** * Properties of the timeline summary                                 *)
(* ===================================================================== *)

Section TimelineProperties.
Context {F : PyFloat}.

Lemma substring_0_all (n : nat) (s : string) :
  (String.length s <= n)%nat -> substring 0 n s = s.
Proof.
  revert n. induction s as [|c s IH]; intros [|n] H; cbn in *; try reflexivity; try lia.
  rewrite IH; [reflexivity|lia].
Qed.

Lemma text_after_here (rest : string) : text_after ": " (": " ++ rest) = rest.
Proof.
  assert (P : prefix ": " (": " ++ rest) = true) by apply prefix_app.
  cbn [append] in *. unfold text_after. rewrite P.
  cbn [String.length substring]. apply substring_0_all. lia.
Qed.

Lemma text_after_first (d rest : string) :
  Str.contains ": " d = false -> text_after ": " (d ++ ": " ++ rest) = rest.
Proof.
  induction d as [|c d IH]; intros H.
  - apply text_after_here.
  - rewrite contains_unfold in H. apply orb_false_elim in H as [P C].
    assert (Q : prefix ": " (String c d ++ ": " ++ rest) = false).
    { cbn [append]. rewrite prefix_cons in *.
      destruct (Ascii.eqb ":" c); [|reflexivity]. cbn [andb] in *.
      destruct d as [|c' d]; [reflexivity|].
      cbn [append]. rewrite prefix_cons in *.
      destruct (Ascii.eqb " " c'); [|reflexivity]. now destruct d. }
    cbn [append] in *. cbn [text_after]. rewrite Q. exact (IH C).
Qed.

Lemma text_before_absent (sep s : string) :
  Str.contains sep s = false -> text_before sep s = s.
Proof.
  induction s as [|c s IH]; intros H; rewrite contains_unfold in H;
    apply orb_false_elim in H as [P C]; cbn [text_before]; rewrite P; [reflexivity|].
  now rewrite (IH C).
Qed.

Lemma timeline_label_event (date event : string) :
  Str.contains ": " date = false ->
  Str.contains ": " event = false ->
  timeline_label (JStr (date ++ ": " ++ event)) = event.
Proof.
  intros Hd He. unfold timeline_label. cbn [py_str].
  assert (C : Str.contains ": " (date ++ ": " ++ event) = true).
  { apply contains_infix. now exists date, event. }
  rewrite C. unfold second_piece. rewrite (text_after_first _ _ Hd).
  now apply text_before_absent.
Qed.

(** X5: For timelines in the form the correlation writes them, a date, a colon
    and a space, and the event, the summary names the event of the first
    entry and the event of the last one: the part after the separator,
    not the date before it. *)
Theorem timeline_summary_names_events (x : json) (xs : list json)
    (date1 event1 date2 event2 : string) :
  x = JStr (date1 ++ ": " ++ event1) ->
  last xs x = JStr (date2 ++ ": " ++ event2) ->
  Str.contains ": " date1 = false -> Str.contains ": " event1 = false ->
  Str.contains ": " date2 = false -> Str.contains ": " event2 = false ->
  format_timeline_summary (JList (x :: xs))
  = Ok ("Activity span from " ++ event1 ++ " to " ++ event2).
Proof.
  intros -> L D1 E1 D2 E2. unfold format_timeline_summary.
  cbn [truthy is_list negb orb py_length bind].
  destruct (Z.eqb_spec (Z.of_nat (length (JStr (date1 ++ ": " ++ event1) :: xs))) 0) as [Z0|_].
  - cbn [length] in Z0. lia.
  - cbn [index0 index_last bind]. rewrite L.
    now rewrite (timeline_label_event _ _ D1 E1), (timeline_label_event _ _ D2 E2).
Qed.

End TimelineProperties.

(* ===================================================================== *)
(** * Properties of backend selection and of the model list              *)
(* ===================================================================== *)

Section SelectionProperties.
Context {F : PyFloat} {R : PyRuntime}.

(** X6: [choose_backend] returns a backend only when [detect_backends] reports
    it configured, returns none only when neither is, and follows the
    caller's preference when that backend is configured. *)
Theorem choose_backend_configured (w : world) (preferred : option string)
    (mongo_uri : string) :
  let local_ok := fst (detect_backends w mongo_uri) in
  let remote_ok := snd (detect_backends w mongo_uri) in
  (forall b, choose_backend w preferred mongo_uri = Some b ->
     (b = "local_flan" /\ local_ok = true) \/
     (b = "openrouter" /\ remote_ok = true)) /\
  (choose_backend w preferred mongo_uri = None <->
     local_ok = false /\ remote_ok = false) /\
  (preferred = Some "openrouter" -> remote_ok = true ->
     choose_backend w preferred mongo_uri = Some "openrouter") /\
  (preferred = Some "local_flan" -> local_ok = true ->
     choose_backend w preferred mongo_uri = Some "local_flan").
Proof.
  cbv zeta.
  set (st := detect_backends w mongo_uri).
  set (p := match preferred with Some p => p | None => EmptyString end).
  set (e := CORRELATION_BACKEND w).
  set (conf := fun name : string =>
         if String.eqb name "local_flan" then fst st
         else if String.eqb name "openrouter" then snd st else false).
  set (wanted := fun name : string =>
         negb (String.eqb name EmptyString) && negb (String.eqb name "auto")
         && conf name).
  assert (E : choose_backend w preferred mongo_uri
              = if wanted p then Some p
                else if wanted e then Some e
                else if fst st then Some "local_flan"
                else if snd st then Some "openrouter" else None)
    by reflexivity.
  assert (C : forall name, wanted name = true ->
    (name = "local_flan" /\ fst st = true) \/ (name = "openrouter" /\ snd st = true)).
  { intros name H. unfold wanted in H. apply andb_prop in H as [_ H].
    unfold conf in H. destruct (String.eqb name "local_flan") eqn:E1.
    - apply String.eqb_eq in E1. auto.
    - destruct (String.eqb name "openrouter") eqn:E2; [|discriminate].
      apply String.eqb_eq in E2. auto. }
  assert (N : forall name, fst st = false -> snd st = false -> wanted name = false).
  { intros name H1 H2. destruct (wanted name) eqn:W; [|reflexivity].
    destruct (C name W) as [[_ X]|[_ X]]; congruence. }
  rewrite E. clear E. repeat split.
  - intros b. destruct (wanted p) eqn:Wp; [intros [= <-]; auto|].
    destruct (wanted e) eqn:We; [intros [= <-]; auto|].
    destruct (fst st) eqn:L; [intros [= <-]; auto|].
    destruct (snd st) eqn:Rm; [intros [= <-]; auto|discriminate].
  - destruct (wanted p) eqn:Wp; [discriminate|].
    destruct (wanted e) eqn:We; [discriminate|].
    destruct (fst st); [discriminate|reflexivity].
  - destruct (wanted p) eqn:Wp; [discriminate|].
    destruct (wanted e) eqn:We; [discriminate|].
    destruct (fst st); [discriminate|].
    destruct (snd st); [discriminate|reflexivity].
  - intros [H1 H2]. now rewrite !N, H1, H2.
  - intros -> Hr. subst p.
    replace (wanted "openrouter") with (snd st) by reflexivity. now rewrite Hr.
  - intros -> Hl. subst p.
    replace (wanted "local_flan") with (fst st) by reflexivity. now rewrite Hl.
Qed.

(** ** The models to try *)

Lemma mem_In (x : string) (l : list string) : Str.mem x l = true <-> In x l.
Proof.
  unfold Str.mem. rewrite existsb_exists. split.
  - intros (y & Hy & E). apply String.eqb_eq in E. now subst.
  - intros H. exists x. split; [exact H|apply String.eqb_refl].
Qed.

Lemma add_if_valid_ok (l : list string) (m : option string) :
  (NoDup l /\ Forall (fun m : string => m <> EmptyString) l) ->
  (NoDup (add_if_valid l m) /\ Forall (fun m : string => m <> EmptyString) (add_if_valid l m)) /\
  (forall x, In x l -> In x (add_if_valid l m)) /\
  (length (add_if_valid l m) <= S (length l))%nat /\
  (l <> [] -> hd_error (add_if_valid l m) = hd_error l).
Proof.
  intros [ND NE]. unfold add_if_valid. cbv zeta.
  set (mid := Str.strip match m with Some m => m | None => EmptyString end).
  destruct (String.eqb mid EmptyString) eqn:E.
  { repeat split; auto. }
  destruct (Str.mem mid l) eqn:Mem.
  { repeat split; auto. }
  apply String.eqb_neq in E.
  assert (NI : ~ In mid l).
  { intros H. apply mem_In in H. congruence. }
  repeat split.
  - clear NE Mem. induction l as [|y l IH]; cbn.
    + apply NoDup_cons; [intros []|apply NoDup_nil].
    + inversion ND as [|? ? Hy ND']; subst. apply NoDup_cons.
      * intros H. apply in_app_or in H as [H|H]; [now apply Hy|].
        destruct H as [H|[]]. subst. apply NI. now left.
      * apply IH; [exact ND'|]. intros H. apply NI. now right.
  - apply Forall_app. split; [exact NE|]. now constructor.
  - intros x H. apply in_or_app. now left.
  - rewrite length_app. cbn. lia.
  - intros H. now destruct l.
Qed.

Lemma add_if_valid_adds (l : list string) (m : string) :
  Str.strip m <> EmptyString -> In (Str.strip m) (add_if_valid l (Some m)).
Proof.
  intros H. unfold add_if_valid. cbv zeta.
  apply String.eqb_neq in H. rewrite H.
  destruct (Str.mem (Str.strip m) l) eqn:Mem.
  - now apply mem_In.
  - apply in_or_app. right. now left.
Qed.

Lemma fold_add_ok (ms l : list string) :
  (NoDup l /\ Forall (fun m : string => m <> EmptyString) l) ->
  let r := fold_left (fun ordered mid => add_if_valid ordered (Some mid)) ms l in
  (NoDup r /\ Forall (fun m : string => m <> EmptyString) r) /\
  (forall x, In x l -> In x r) /\
  (forall m, In m ms -> Str.strip m <> EmptyString -> In (Str.strip m) r) /\
  (length r <= length l + length ms)%nat /\
  (l <> [] -> hd_error r = hd_error l).
Proof.
  revert l. induction ms as [|m ms IH]; intros l Hl; cbn [fold_left].
  - repeat split; try apply Hl; auto; [intros ? []|lia].
  - destruct (add_if_valid_ok l (Some m) Hl) as (Hok & Hin & Hlen & Hhd).
    destruct (IH _ Hok) as (Rok & Rin & Rms & Rlen & Rhd).
    repeat split; try apply Rok.
    + intros x Hx. now apply Rin, Hin.
    + intros m' [<-|Hm] Hs; [|now apply Rms].
      now apply Rin, add_if_valid_adds.
    + cbn [length]. lia.
    + intros Hne. rewrite Rhd, Hhd; auto.
      intros E. destruct l; [now apply Hne|].
      specialize (Hin s (or_introl eq_refl)). now rewrite E in Hin.
Qed.

Lemma model_list_bounds (w : world) (preferred : option string) :
  NoDup (_build_openrouter_model_list w preferred) /\
  (length (_build_openrouter_model_list w preferred) <= 8)%nat.
Proof.
  unfold _build_openrouter_model_list. cbv zeta.
  assert (H0 : (NoDup (@nil string) /\ Forall (fun m : string => m <> EmptyString) (@nil string)))
    by (split; [apply NoDup_nil|apply Forall_nil]).
  destruct (add_if_valid_ok [] preferred H0) as (H1 & _ & L1 & _).
  destruct (add_if_valid_ok _ (Some (MODEL w)) H1) as (H2 & _ & L2 & _).
  destruct (fold_add_ok OPENROUTER_MODEL_PRIORITY _ H2) as (H3 & _ & _ & L3 & _).
  cbv zeta in *. split; [apply H3|].
  cbn [length] in *. etransitivity; [exact L3|].
  change (length OPENROUTER_MODEL_PRIORITY) with 6%nat. lia.
Qed.

Lemma model_list_first (w : world) (preferred : option string) :
  exists first,
    hd_error (_build_openrouter_model_list w preferred) = Some first /\
    first <> EmptyString.
Proof.
  unfold _build_openrouter_model_list. cbv zeta.
  assert (H0 : (NoDup (@nil string) /\ Forall (fun m : string => m <> EmptyString) (@nil string)))
    by (split; [apply NoDup_nil|apply Forall_nil]).
  destruct (add_if_valid_ok [] preferred H0) as (H1 & _).
  destruct (add_if_valid_ok _ (Some (MODEL w)) H1) as (H2 & _).
  destruct (fold_add_ok OPENROUTER_MODEL_PRIORITY _ H2) as (H3 & _ & M3 & _).
  cbv zeta in *.
  specialize (M3 "openai/gpt-oss-120b:free").
  set (l := fold_left _ _ _) in *.
  destruct l as [|first l'].
  - exfalso. apply M3; [cbn; tauto|discriminate].
  - exists first. split; [reflexivity|].
    destruct H3 as [_ NE]. now inversion NE.
Qed.


End SelectionProperties.

(* ===================================================================== *)
(** * More properties of schema coercion                                 *)
(* ===================================================================== *)

Section SchemaMoreProperties.
Context {F : PyFloat}.

(** ** Classification *)

Lemma ensure_classification_label (d : dict) :
  exists pt ab,
    _ensure_profile_classification (JDict d)
      = Ok (JDict (dict_set (dict_set d "profile_type" pt) "about" ab))
    /\ (truthy (dict_lookup d "profile_type" JNull) = false ->
        In pt [JStr "developer"; JStr "professional"; JStr "individual";
               JStr "online_profile"; JStr "unknown"]).
Proof.
  unfold _ensure_profile_classification.
  cbn [get get_or bind set_item].
  set (pt0 := dict_lookup d "profile_type" JNull).
  destruct (truthy (dict_lookup d "about" JNull)); cbn [negb bind];
    eexists; eexists; (split; [reflexivity|]);
    intros T; rewrite T; cbn [negb];
    repeat match goal with |- context [if ?c then _ else _] => destruct c end;
    cbn; tauto.
Qed.

(** X8: [_ensure_profile_classification] returns on every dict; it keeps a
    profile type and an about text that are given, fills the ones that are
    missing or empty with non-empty text (the type with one of five
    labels), and leaves every other key as it is. *)
Theorem classification_fills_only_gaps (d : dict) :
  exists r,
    _ensure_profile_classification (JDict d) = Ok (JDict r) /\
    (forall k, k <> "profile_type" -> k <> "about" -> dict_get r k = dict_get d k) /\
    (forall k, k = "profile_type" \/ k = "about" ->
       exists v, dict_get r k = Some v /\ truthy v = true /\
                 (truthy (dict_lookup d k JNull) = true -> v = dict_lookup d k JNull)) /\
    (truthy (dict_lookup d "profile_type" JNull) = false ->
     exists label, dict_get r "profile_type" = Some (JStr label) /\
                   In label ["developer"; "professional"; "individual";
                             "online_profile"; "unknown"]).
Proof.
  destruct (ensure_classification_dict d) as (pt & ab & E & Hpt & Hab).
  destruct (ensure_classification_label d) as (pt' & ab' & E' & Hl).
  rewrite E in E'. injection E' as E'.
  assert (Gpt : dict_get (dict_set (dict_set d "profile_type" pt) "about" ab) "profile_type"
                = Some pt).
  { rewrite dict_get_set_neq by reflexivity. apply dict_get_set_eq. }
  assert (Gab : dict_get (dict_set (dict_set d "profile_type" pt) "about" ab) "about"
                = Some ab) by apply dict_get_set_eq.
  eexists. split; [exact E|]. split; [|split].
  - intros k K1 K2. rewrite !dict_get_set_neq; [reflexivity| |];
      apply String.eqb_neq; congruence.
  - intros k [->| ->].
    + exists pt. split; [exact Gpt|]. split; [exact (filled_truthy _ _ Hpt)|].
      intros T. destruct Hpt as [[_ ->]|[T' _]]; [reflexivity|congruence].
    + exists ab. split; [exact Gab|]. split; [exact (filled_truthy _ _ Hab)|].
      intros T. destruct Hab as [[_ ->]|[T' _]]; [reflexivity|congruence].
  - intros T.
    assert (pt = pt').
    { assert (X : dict_get (dict_set (dict_set d "profile_type" pt') "about" ab') "profile_type"
                  = Some pt').
      { rewrite dict_get_set_neq by reflexivity. apply dict_get_set_eq. }
      rewrite <- E' in X. rewrite Gpt in X. now injection X. }
    subst pt'. specialize (Hl T). rewrite Gpt.
    cbn in Hl.
    repeat (destruct Hl as [<-|Hl]; [eexists; split; [reflexivity|cbn; tauto]|]).
    destruct Hl.
Qed.

(** ** What coercion reads *)

(** The result of coercion, written out: the coerced fields of the source,
    with the usernames normalised and the classification filled in. *)
Lemma coerce_shape (raw : json) :
  exists us pt ab,
    coerce_map (dict_lookup (src_of raw) "usernames" JNull) = JDict us /\
    _coerce_profile_schema raw
    = Ok (JDict (dict_set
                   (dict_set
                      (dict_set (coerced_fields (src_of raw)) "usernames"
                         (JDict (normalise_all us [])))
                      "profile_type" pt)
                   "about" ab)).
Proof.
  rewrite coerce_closed. unfold normalised_fields.
  destruct (coerce_map_dict (dict_lookup (src_of raw) "usernames" JNull)) as [us Eus].
  rewrite Eus.
  destruct (ensure_classification_dict
              (dict_set (coerced_fields (src_of raw)) "usernames"
                 (JDict (normalise_all us [])))) as (pt & ab & E & _).
  now exists us, pt, ab.
Qed.

Lemma src_of_plain (d : dict) :
  is_dict (dict_lookup d "profile" JNull) = false ->
  is_dict (dict_lookup d "result" JNull) = false ->
  src_of (JDict d) = d.
Proof.
  intros P Q. unfold src_of.
  destruct (dict_lookup d "profile" JNull); try discriminate P;
    destruct (dict_lookup d "result" JNull); try discriminate Q; reflexivity.
Qed.


(** X10: Coercion unwraps one level: a dict whose [profile] entry is a dict is
    coerced as that entry, and otherwise a dict whose [result] entry is a
    dict as that one. *)
Theorem coerce_unwraps_once (d inner : dict) :
  dict_get d "profile" = Some (JDict inner) \/
  (is_dict (dict_lookup d "profile" JNull) = false /\
   dict_get d "result" = Some (JDict inner)) ->
  is_dict (dict_lookup inner "profile" JNull) = false ->
  is_dict (dict_lookup inner "result" JNull) = false ->
  _coerce_profile_schema (JDict d) = _coerce_profile_schema (JDict inner).
Proof.
  intros W P Q. rewrite !coerce_closed. rewrite (src_of_plain inner P Q).
  replace (src_of (JDict d)) with inner; [reflexivity|].
  unfold src_of, dict_lookup in *.
  destruct W as [W|[W1 W2]].
  - now rewrite W.
  - rewrite W2. destruct (dict_get d "profile") as [[]|]; try reflexivity.
    discriminate W1.
Qed.

(** ** The usernames of a coerced profile *)


Lemma extract_normal_usernames (n : dict) (acc : list json) :
  (forall kv, In kv n -> exists data, snd kv = normalise_entry data) ->
  for_each n acc extract_username = Ok (acc ++ map handle_of n)%list.
Proof.
  revert acc. induction n as [|[k e] n IH]; intros acc H; cbn [for_each map].
  - now rewrite app_nil_r.
  - destruct (H (k, e) (or_introl eq_refl)) as [data E]. cbn [snd] in E.
    destruct (normalise_entry_shape data) as (h & u & b & S).
    rewrite S in E. subst e. cbn [extract_username bind].
    change (dict_has [("handle", h); ("url", u); ("bio", b)] "handle") with true.
    cbn [item dict_get String.eqb Ascii.eqb Bool.eqb bind].
    rewrite IH by (intros kv Hkv; apply H; now right).
    now rewrite <- app_assoc.
Qed.

(** X11: After coercion [extract_usernames] returns one entry for each platform
    of the usernames map, the handle of that platform, null handles
    included: the identifiers it counts are the platforms. *)
Theorem coerced_usernames_counted (raw : json) :
  exists p us handles,
    _coerce_profile_schema raw = Ok p /\
    get p "usernames" = Ok (JDict us) /\
    extract_usernames p = Ok handles /\
    handles = map handle_of us /\
    length handles = length us.
Proof.
  destruct (coerce_shape raw) as (us & pt & ab & _ & E).
  exists (JDict (dict_set
                   (dict_set
                      (dict_set (coerced_fields (src_of raw)) "usernames"
                         (JDict (normalise_all us [])))
                      "profile_type" pt)
                   "about" ab)),
    (normalise_all us []), (map handle_of (normalise_all us [])).
  split; [exact E|]. split; [reflexivity|]. split; [|split].
  - unfold extract_usernames.
    change (get_or _ "usernames" (JDict []))
      with (Ok (JDict (normalise_all us [])) : M json).
    cbn [bind].
    apply (extract_normal_usernames (normalise_all us []) []).
    apply (normalise_all_normal us []). split; [constructor|intros ? []].
  - reflexivity.
  - apply length_map.
Qed.

End SchemaMoreProperties.

(* ===================================================================== *)
(** * Properties of a whole run                                          *)
(* ===================================================================== *)

Section RunProperties.
Context {F : PyFloat} {R : PyRuntime}.

(** ** How many calls a run makes *)


Lemma calls_to_app (m : string) (a b : list event) :
  calls_to m (a ++ b) = (calls_to m a + calls_to m b)%nat.
Proof. unfold calls_to. now rewrite filter_app, length_app. Qed.

Lemma try_model_calls_to (w : world) (prompt : string) (ib : bool) (cb : string)
    (fm : option string) (m m' : string) (fuel attempt : nat) (backoff : Q)
    (st : progress) :
  (calls_to m' (trace (try_model w prompt ib cb fm m fuel attempt backoff st))
   <= calls_to m' (trace st)
      + (if String.eqb m' m then MAX_RETRIES - attempt else 0))%nat.
Proof.
  revert attempt backoff st. induction fuel as [|fuel IH]; intros attempt backoff st.
  - cbn [try_model]. lia.
  - cbn [try_model]. destruct (attempt <? MAX_RETRIES)%nat eqn:E; [|lia].
    apply Nat.ltb_lt in E.
    assert (C : forall tr, calls_to m' (tr ++ [Called m])
                           = (calls_to m' tr + if String.eqb m' m then 1 else 0)%nat).
    { intros tr. rewrite calls_to_app. unfold calls_to at 2. cbn [filter].
      now destruct (String.eqb m' m). }
    assert (S' : forall tr x, calls_to m' (tr ++ [Slept x]) = calls_to m' tr)
      by (intros; rewrite calls_to_app; cbn; lia).
    destruct (attempt_once w prompt ib cb fm m (calls_made (trace st))).
    + cbn [trace]. rewrite C. destruct (String.eqb m' m); lia.
    + destruct (any_token CAPACITY_TOKENS (str_of_exn w e)).
      * cbn [trace]. rewrite C. destruct (String.eqb m' m); lia.
      * destruct (any_token TRANSIENT_TOKENS (str_of_exn w e)
                  && (attempt + 1 <? MAX_RETRIES)%nat).
        -- etransitivity; [apply IH|]. cbn [trace]. rewrite S', C.
           destruct (String.eqb m' m); lia.
        -- cbn [trace]. rewrite C. destruct (String.eqb m' m); lia.
Qed.

Lemma try_models_calls_to (w : world) (prompt : string) (ib : bool) (cb : string)
    (fm : option string) (models : list string) (m' : string) (st : progress) :
  (calls_to m' (trace (try_models w prompt ib cb fm models st))
   <= calls_to m' (trace st) + 3 * count_occ string_dec models m')%nat.
Proof.
  revert st. induction models as [|m models IH]; intros st;
    cbn [try_models count_occ].
  - lia.
  - pose proof (try_model_calls_to w prompt ib cb fm m m' MAX_RETRIES 0
                  INITIAL_BACKOFF st) as H.
    change (MAX_RETRIES - 0)%nat with 3%nat in H.
    assert (E : (if String.eqb m' m then 3 else 0)%nat
                = (if string_dec m m' then 3 else 0)%nat).
    { destruct (string_dec m m') as [->|N]; [now rewrite String.eqb_refl|].
      destruct (String.eqb m' m) eqn:Q; [|reflexivity].
      apply String.eqb_eq in Q. now subst. }
    rewrite E in H.
    destruct (returned _).
    + destruct (string_dec m m'); lia.
    + etransitivity; [apply IH|]. destruct (string_dec m m'); lia.
Qed.

Lemma try_models_calls (w : world) (prompt : string) (ib : bool) (cb : string)
    (fm : option string) (models : list string) (st : progress) :
  (calls_made (trace (try_models w prompt ib cb fm models st))
   <= calls_made (trace st) + 3 * length models)%nat.
Proof.
  revert st. induction models as [|m models IH]; intros st; cbn [try_models length].
  - lia.
  - pose proof (try_model_calls w prompt ib cb fm m MAX_RETRIES 0 INITIAL_BACKOFF st) as H.
    change (MAX_RETRIES - 0)%nat with 3%nat in H.
    destruct (returned _); [lia|].
    etransitivity; [apply IH|]. lia.
Qed.

Lemma run_remote_calls (w : world) (prompt : string) (ib : bool) (cb : string)
    (pm : option string) (tr : list event) :
  (calls_made (snd (run_remote w prompt ib cb pm tr))
   <= calls_made tr + 3 * length (_build_openrouter_model_list w pm))%nat.
Proof.
  unfold run_remote.
  destruct (negb (truthy (openrouter_key w DEFAULT_MONGO_URI))); [cbn [snd]; lia|].
  cbv zeta.
  match goal with
  | |- context [try_models ?a ?b ?c ?d ?e ?f ?s] =>
      pose proof (try_models_calls a b c d e f s) as H
  end.
  cbn [trace] in H. destruct (returned _); cbn [snd]; exact H.
Qed.

Lemma run_local_calls (w : world) (so : option json) (osint_data : string)
    (identifier : json) (ib : bool) (cb : string) (tr : list event) :
  calls_made (snd (run_local w so osint_data identifier ib cb tr)) = calls_made tr.
Proof.
  assert (E : calls_made (tr ++ [FlanCalled]) = calls_made tr)
    by (rewrite calls_made_app; cbn; lia).
  unfold run_local. cbv zeta.
  destruct (_rule_based_correlation _ identifier); [|reflexivity].
  destruct (is_dict _); [|exact E].
  destruct (_coerce_profile_schema _); exact E.
Qed.

Lemma run_remote_calls_to (w : world) (prompt : string) (ib : bool) (cb : string)
    (pm : option string) (tr : list event) (m : string) :
  (calls_to m (snd (run_remote w prompt ib cb pm tr)) <= calls_to m tr + 3)%nat.
Proof.
  unfold run_remote.
  destruct (negb (truthy (openrouter_key w DEFAULT_MONGO_URI))); [cbn [snd]; lia|].
  cbv zeta.
  match goal with
  | |- context [try_models ?a ?b ?c ?d ?e ?f ?s] =>
      pose proof (try_models_calls_to a b c d e f m s) as H
  end.
  cbn [trace] in H.
  destruct (model_list_bounds w pm) as (ND & _).
  pose proof (proj1 (NoDup_count_occ string_dec _) ND m) as K.
  destruct (returned _); cbn [snd]; lia.
Qed.

Lemma run_local_calls_to (w : world) (so : option json) (osint_data : string)
    (identifier : json) (ib : bool) (cb : string) (tr : list event) (m : string) :
  calls_to m (snd (run_local w so osint_data identifier ib cb tr)) = calls_to m tr.
Proof.
  assert (E : calls_to m (tr ++ [FlanCalled]) = calls_to m tr)
    by (rewrite calls_to_app; cbn; lia).
  unfold run_local. cbv zeta.
  destruct (_rule_based_correlation _ identifier); [|reflexivity].
  destruct (is_dict _); [|exact E].
  destruct (_coerce_profile_schema _); exact E.
Qed.

(** X12: A run of [run_correlation] calls no model more than three times and
    makes at most 24 calls in all; on the local backend it makes none. *)
Theorem run_correlation_calls (w : world) (mode custom_prompt : string)
    (identifier : json) (mongo_uri : string) (backend : option string)
    (include_backend : bool) (preferred_model : option string) :
  let events :=
    snd (run_correlation w mode custom_prompt identifier mongo_uri backend
           include_backend preferred_model) in
  (calls_made events <= 24)%nat /\
  (forall model_id, calls_to model_id events <= 3)%nat /\
  (choose_backend w backend mongo_uri = Some "local_flan" -> calls_made events = 0%nat).
Proof.
  cbv zeta. unfold run_correlation. cbv zeta.
  destruct (prompt_rejection w _); [cbn; repeat split; intros; lia|].
  destruct (choose_backend w backend mongo_uri) as [cb|];
    [|cbn; repeat split; intros; try lia; discriminate].
  destruct (String.eqb cb EmptyString) eqn:E0.
  { cbn. repeat split; intros; try lia. }
  destruct (String.eqb cb "local_flan") eqn:E1.
  - repeat split; intros; try rewrite run_local_calls; try rewrite run_local_calls_to;
      cbn; lia.
  - match goal with
    | |- context [run_remote ?a ?b ?c ?d ?e ?t] =>
        pose proof (run_remote_calls a b c d e t) as H;
        pose proof (run_remote_calls_to a b c d e t) as H';
        destruct (run_remote a b c d e t) as [res tr']
    end.
    cbn [snd] in *.
    destruct (model_list_bounds w preferred_model) as (_ & L).
    repeat split.
    + change (calls_made [BackendChosen (Some cb)]) with 0%nat in H. lia.
    + intros m. specialize (H' m).
      change (calls_to m [BackendChosen (Some cb)]) with 0%nat in H'. lia.
    + intros [= ->]. discriminate E1.
Qed.

(** ** When every model fails *)

Lemma try_model_all_raise (w : world) (prompt : string) (ib : bool) (cb : string)
    (fm : option string) (m : string) (fuel attempt : nat) (backoff : Q)
    (st : progress) :
  (forall n m, exists e, chat w n m prompt = Raise e) ->
  returned st = None ->
  returned (try_model w prompt ib cb fm m fuel attempt backoff st) = None.
Proof.
  intros All. revert attempt backoff st.
  induction fuel as [|fuel IH]; intros attempt backoff st Hst; [exact Hst|].
  cbn [try_model]. destruct (attempt <? MAX_RETRIES)%nat; [|exact Hst].
  destruct (All (calls_made (trace st)) m) as [e He].
  rewrite (attempt_once_raise _ _ _ _ _ _ _ _ He).
  destruct (any_token CAPACITY_TOKENS (str_of_exn w e)); [reflexivity|].
  destruct (any_token TRANSIENT_TOKENS (str_of_exn w e)
            && (attempt + 1 <? MAX_RETRIES)%nat); [|reflexivity].
  now apply IH.
Qed.

Lemma try_models_all_raise (w : world) (prompt : string) (ib : bool) (cb : string)
    (fm : option string) (models : list string) (st : progress) :
  (forall n m, exists e, chat w n m prompt = Raise e) ->
  returned st = None ->
  returned (try_models w prompt ib cb fm models st) = None.
Proof.
  intros All. revert st. induction models as [|m models IH]; intros st Hst;
    cbn [try_models]; [exact Hst|].
  rewrite (try_model_all_raise _ _ _ _ _ _ _ _ _ _ All Hst).
  apply IH. now apply try_model_all_raise.
Qed.

(** X13: When every call to every model raises, the remote run returns an error
    object that lists the models it tried, with a non-empty message; with
    [include_backend] it names the backend and, as [model_used], the first
    model of the list. *)
Theorem all_models_failing (w : world) (prompt : string) (ib : bool) (cb : string)
    (pm : option string) (tr : list event) :
  truthy (openrouter_key w DEFAULT_MONGO_URI) = true ->
  (forall n m, exists e, chat w n m prompt = Raise e) ->
  let models := _build_openrouter_model_list w pm in
  let result := fst (run_remote w prompt ib cb pm tr) in
  get result "models_tried" = Ok (JList (map JStr models)) /\
  (exists msg, get result "error" = Ok (JStr msg) /\ msg <> EmptyString) /\
  (ib = true ->
   get result "backend_used" = Ok (JStr cb) /\
   exists first, hd_error models = Some first /\
                 get result "model_used" = Ok (JStr first)) /\
  (ib = false -> get result "backend_used" = Ok JNull).
Proof.
  intros Key All. cbv zeta. unfold run_remote. rewrite Key. cbn [negb]. cbv zeta.
  rewrite (try_models_all_raise _ _ _ _ _ _ (mkProgress None None tr) All eq_refl).
  cbn [fst].
  set (models := _build_openrouter_model_list w pm).
  set (st := try_models _ _ _ _ _ _ _).
  set (msg := match last_error st with
              | Some e => if String.eqb e EmptyString
                          then "Failed to get response from any OpenRouter model"
                          else e
              | None => "Failed to get response from any OpenRouter model"
              end).
  assert (Hmsg : msg <> EmptyString).
  { unfold msg. destruct (last_error st) as [e|]; [|discriminate].
    destruct (String.eqb e EmptyString) eqn:E; [discriminate|].
    now apply String.eqb_neq. }
  assert (Hfirst : exists first, hd_error models = Some first /\ first <> EmptyString).
  { destruct (model_list_first w pm) as (first & Hf & Hn). now exists first. }
  destruct Hfirst as (first & Hf & Hn).
  destruct ib.
  - rewrite Hf. apply String.eqb_neq in Hn. rewrite Hn.
    split; [reflexivity|].
    split; [exists msg; split; [reflexivity|exact Hmsg]|].
    split; [|discriminate].
    intros _. split; [reflexivity|]. exists first. split; reflexivity.
  - split; [reflexivity|].
    split; [exists msg; split; [reflexivity|exact Hmsg]|].
    split; [discriminate|reflexivity].
Qed.

(** ** The local backend *)



End RunProperties.

(* ===================================================================== *)
(** * Properties of the deep clean                                       *)
(* ===================================================================== *)

Section CleaningProperties.
Context {F : PyFloat} {R : PyRuntime}.

(** ** Cleaning one platform *)

Lemma clean_with_models_result (w : world) (platform : string) (raw_data : json)
    (full_prompt : string) (models : list string) (tr : list event) :
  let out := clean_with_models w platform raw_data full_prompt models tr in
  (calls_made (snd out) <= calls_made tr + length models)%nat /\
  ((fst out = JDict [ ("error", JStr "Failed to clean data");
                      ("raw_preserved", raw_data);
                      ("_platform", JStr platform) ] /\
    calls_made (snd out) = (calls_made tr + length models)%nat) \/
   (exists model_id,
      In model_id models /\
      get (fst out) "_cleaned_by" = Ok (JStr model_id) /\
      get (fst out) "_platform" = Ok (JStr platform))).
Proof.
  cbv zeta. revert tr. induction models as [|m models IH]; intros tr.
  - cbn [clean_with_models fst snd length]. split; [lia|]. left.
    split; [reflexivity|lia].
  - cbn [clean_with_models length]. cbv zeta.
    assert (C : calls_made (tr ++ [Called m]) = S (calls_made tr))
      by (rewrite calls_made_app; cbn; lia).
    assert (Next :
      (calls_made (snd (clean_with_models w platform raw_data full_prompt models
                          (tr ++ [Called m])))
       <= calls_made tr + S (length models))%nat /\
      ((fst (clean_with_models w platform raw_data full_prompt models
               (tr ++ [Called m]))
        = JDict [ ("error", JStr "Failed to clean data");
                  ("raw_preserved", raw_data);
                  ("_platform", JStr platform) ] /\
        calls_made (snd (clean_with_models w platform raw_data full_prompt models
                           (tr ++ [Called m])))
        = (calls_made tr + S (length models))%nat) \/
       (exists model_id,
          In model_id (m :: models) /\
          get (fst (clean_with_models w platform raw_data full_prompt models
                      (tr ++ [Called m]))) "_cleaned_by" = Ok (JStr model_id) /\
          get (fst (clean_with_models w platform raw_data full_prompt models
                      (tr ++ [Called m]))) "_platform" = Ok (JStr platform)))).
    { destruct (IH (tr ++ [Called m])%list) as (L & D). rewrite C in *.
      split; [lia|]. destruct D as [[D1 D2]|(x & Hx & D)].
      - left. split; [exact D1|lia].
      - right. exists x. split; [now right|exact D]. }
    destruct (chat w (calls_made tr) m full_prompt) as [raw|e]; cbn [bind];
      [|exact Next].
    destruct (json_loads w (clean_model_text raw)) as [parsed|]; [|exact Next].
    destruct parsed as [| | | | | |d]; cbn [set_item bind]; try exact Next.
    cbn [fst snd]. rewrite C. split; [lia|]. right. exists m.
    split; [now left|]. split.
    + cbn [get get_or]. unfold dict_lookup.
      rewrite dict_get_set_neq by reflexivity. now rewrite dict_get_set_eq.
    + cbn [get get_or]. unfold dict_lookup. now rewrite dict_get_set_eq.
Qed.

Lemma firstn_3_length {A : Type} (l : list A) : (length (firstn 3 l) <= 3)%nat.
Proof. rewrite length_firstn. lia. Qed.

Lemma clean_single_platform_bound (w : world) (platform : string)
    (raw_data : json) (mongo_uri : string) (preferred_model : option string)
    (tr : list event) :
  (calls_made (snd (_clean_single_platform w platform raw_data mongo_uri
                      preferred_model tr))
   <= calls_made tr + 3)%nat.
Proof.
  unfold _clean_single_platform. cbv zeta.
  destruct (negb (truthy (openrouter_key w mongo_uri))); [cbn [snd]; lia|].
  match goal with
  | |- context [clean_with_models ?a ?b ?c ?d ?e ?f] =>
      destruct (clean_with_models_result a b c d e f) as (L & _)
  end.
  pose proof (firstn_3_length (_build_openrouter_model_list w preferred_model)). lia.
Qed.

(** X15: Cleaning one platform makes at most three model calls.  It ends
    either with an answer that parsed as a JSON object, tagged with the
    model that gave it (one of the first three of the list) and with the
    platform, or with an error object that carries the raw data unchanged;
    without an API key no model is called. *)
Theorem clean_single_platform_outcome (w : world) (platform : string)
    (raw_data : json) (mongo_uri : string) (preferred_model : option string)
    (tr : list event) :
  let out := _clean_single_platform w platform raw_data mongo_uri preferred_model tr in
  (calls_made (snd out) <= calls_made tr + 3)%nat /\
  ((exists msg, get (fst out) "error" = Ok (JStr msg) /\ msg <> EmptyString /\
                get (fst out) "raw_preserved" = Ok raw_data) \/
   (exists model_id,
      In model_id (firstn 3 (_build_openrouter_model_list w preferred_model)) /\
      get (fst out) "_cleaned_by" = Ok (JStr model_id) /\
      get (fst out) "_platform" = Ok (JStr platform))) /\
  (truthy (openrouter_key w mongo_uri) = false -> snd out = tr).
Proof.
  cbv zeta. unfold _clean_single_platform. cbv zeta.
  destruct (truthy (openrouter_key w mongo_uri)) eqn:K; cbn [negb].
  - match goal with
    | |- context [clean_with_models ?a ?b ?c ?d ?e ?f] =>
        destruct (clean_with_models_result a b c d e f) as (L & D)
    end.
    pose proof (firstn_3_length (_build_openrouter_model_list w preferred_model)) as L3.
    split; [lia|]. split; [|discriminate].
    destruct D as [[D _]|D]; [left|right; exact D].
    rewrite D. exists "Failed to clean data". repeat split. discriminate.
  - cbn [fst snd]. split; [lia|]. split; [|reflexivity].
    left. exists "No API key available". repeat split. discriminate.
Qed.

(** ** The whole deep clean *)

Lemma calls_made_reported (tr : list event) (stage platform message : string) :
  calls_made (tr ++ [Reported stage platform message]) = calls_made tr.
Proof. rewrite calls_made_app. cbn. lia. Qed.

Lemma deep_clean_platform_calls (w : world) (identifier : json) (mongo_uri : string)
    (pm : option string) (st : cleaning) (platform : string) :
  (calls_made (events (deep_clean_platform w identifier mongo_uri pm st platform))
   <= calls_made (events st) + 3)%nat.
Proof.
  unfold deep_clean_platform. cbv zeta.
  destruct (find_one w platform identifier) as [[doc|]|e]; cbn [events];
    rewrite ?calls_made_reported; try lia.
  destruct (negb (truthy doc)); [lia|].
  destruct (get doc "data") as [raw_data|e]; cbn [events];
    rewrite ?calls_made_reported; try lia.
  destruct (negb (truthy raw_data)); [lia|].
  match goal with
  | |- context [_clean_single_platform ?a ?b ?c ?d ?e ?t] =>
      pose proof (clean_single_platform_bound a b c d e t) as L;
      destruct (_clean_single_platform a b c d e t) as [cleaned tr']
  end.
  cbn [snd] in L. rewrite calls_made_reported in L.
  destruct (get doc "collected_at") as [at_|e]; cbn [events];
    rewrite ?calls_made_reported; try lia.
  destruct (update_one w platform _); cbn [events];
    rewrite ?calls_made_reported; try lia.
  rewrite calls_made_app. cbn. lia.
Qed.

Lemma deep_clean_fold_calls (w : world) (identifier : json) (mongo_uri : string)
    (pm : option string) (platforms : list string) (st : cleaning) :
  (calls_made (events (fold_left (deep_clean_platform w identifier mongo_uri pm)
                         platforms st))
   <= calls_made (events st) + 3 * length platforms)%nat.
Proof.
  revert st. induction platforms as [|p ps IH]; intros st; cbn [fold_left length].
  - lia.
  - etransitivity; [apply IH|].
    pose proof (deep_clean_platform_calls w identifier mongo_uri pm st p). lia.
Qed.

(** X16: A deep clean makes at most 30 model calls: three for each of the ten
    collections. *)
Theorem deep_clean_calls (w : world) (identifier : json) (mongo_uri : string)
    (preferred_model : option string) :
  (calls_made (snd (run_deep_clean_correlation w identifier mongo_uri preferred_model))
   <= 30)%nat.
Proof.
  unfold run_deep_clean_correlation. cbv zeta.
  destruct (connect w mongo_uri); [|cbn; lia].
  match goal with
  | |- context [fold_left ?f ?l ?a] =>
      pose proof (deep_clean_fold_calls w identifier mongo_uri preferred_model l a) as H;
      set (st := fold_left f l a) in *
  end.
  change (length platform_collections) with 10%nat in H.
  cbn [events] in H. rewrite calls_made_reported in H.
  change (calls_made [Reported "init" EmptyString "Starting deep clean correlation..."])
    with 0%nat in H.
  destruct (cleaned_results st) as [|c cs]; [cbn [snd]; lia|].
  match goal with
  | |- context [bind ?c ?k] => destruct (bind c k)
  end; cbn [snd]; rewrite !calls_made_reported; lia.
Qed.

(** X17: When the database holds no document for the identifier (every lookup
    finds nothing or raises), the deep clean ends with the "No data found"
    error that lists the ten collections it checked; it calls no model and
    stores nothing. *)
Theorem deep_clean_without_data (w : world) (identifier : json) (mongo_uri : string)
    (preferred_model : option string) :
  connect w mongo_uri = Ok tt ->
  (forall platform, In platform platform_collections ->
     find_one w platform identifier = Ok None \/
     exists e, find_one w platform identifier = Raise e) ->
  let out := run_deep_clean_correlation w identifier mongo_uri preferred_model in
  fst out
  = JDict [ ("error", JStr ("No data found to clean for identifier: "
                            ++ py_str identifier));
            ("platforms_checked", JList (map JStr platform_collections)) ] /\
  calls_made (snd out) = 0%nat /\
  (forall platform, ~ In (Stored platform) (snd out)).
Proof.
  intros Conn Hnone. cbv zeta. unfold run_deep_clean_correlation. cbv zeta.
  rewrite Conn.
  assert (Inv : forall platforms st,
    (forall p, In p platforms -> In p platform_collections) ->
    cleaned_results st = [] -> calls_made (events st) = 0%nat ->
    (forall p, ~ In (Stored p) (events st)) ->
    let st' := fold_left (deep_clean_platform w identifier mongo_uri preferred_model)
                 platforms st in
    cleaned_results st' = [] /\ calls_made (events st') = 0%nat /\
    (forall p, ~ In (Stored p) (events st'))).
  { induction platforms as [|p ps IH]; intros st Hin H1 H2 H3; cbn [fold_left];
      [now repeat split|].
    apply IH.
    - intros q Hq. apply Hin. now right.
    - unfold deep_clean_platform. cbv zeta.
      destruct (Hnone p (Hin p (or_introl eq_refl))) as [->|[e ->]]; exact H1.
    - unfold deep_clean_platform. cbv zeta.
      destruct (Hnone p (Hin p (or_introl eq_refl))) as [->|[e ->]]; [exact H2|].
      cbn [events]. now rewrite calls_made_reported.
    - unfold deep_clean_platform. cbv zeta.
      destruct (Hnone p (Hin p (or_introl eq_refl))) as [->|[e ->]]; [exact H3|].
      cbn [events]. intros q Hq. apply in_app_or in Hq as [Hq|[Hq|[]]];
        [now apply (H3 q)|discriminate Hq]. }
  match goal with
  | |- context [fold_left ?f ?l ?a] =>
      destruct (Inv l a) as (I1 & I2 & I3);
      [auto|reflexivity|reflexivity| |set (st := fold_left f l a) in *]
  end.
  { intros p Hp. cbn in Hp. destruct Hp as [Hp|[Hp|[]]]; discriminate Hp. }
  rewrite I1. cbn [fst snd]. auto.
Qed.

End CleaningProperties.

(* ===================================================================== *)
(** * More properties of the cleaned-data correlation                    *)
(* ===================================================================== *)

Section CleanedMoreProperties.
Context {F : PyFloat} {R : PyRuntime}.

Lemma for_each_app {A S : Type} (xs ys : list A) (s : S) (body : S -> A -> M S) :
  for_each (xs ++ ys) s body = (s' <- for_each xs s body ;; for_each ys s' body).
Proof.
  revert s. induction xs as [|x xs IH]; intros s; cbn [app for_each bind]; [reflexivity|].
  destruct (body s x); cbn [bind]; [apply IH|reflexivity].
Qed.

Lemma cleaned_entry_error (s : locals) (platform : string) (id : json) (d : dict) :
  truthy (dict_lookup d "error" JNull) = true ->
  cleaned_entry s (JDict [ ("collection", JStr platform); ("identifier", id);
                           ("data", JDict d) ]) = Ok s.
Proof.
  intros E.
  assert (D : truthy (JDict d) = true).
  { destruct d; [discriminate E|reflexivity]. }
  unfold cleaned_entry, get_or_else.
  cbn [get get_or dict_lookup dict_get String.eqb Ascii.eqb Bool.eqb bind].
  rewrite D.
  destruct platform as [|c pl];
    cbn [truthy String.eqb negb bind py_or py_lower];
    unfold py_or; rewrite D; cbn [get get_or bind]; now rewrite E.
Qed.

(** X18: A document whose cleaned data carries an error, as the one
    [_clean_single_platform] returns when it fails, adds nothing to the
    correlation: the profile is the one the other documents give. *)
Theorem failed_cleaning_is_ignored (before after : list json) (platform : string)
    (id identifier : json) (d : dict) :
  truthy (dict_lookup d "error" JNull) = true ->
  _correlate_cleaned_data
    (before ++ JDict [ ("collection", JStr platform); ("identifier", id);
                       ("data", JDict d) ] :: after) identifier
  = _correlate_cleaned_data (before ++ after) identifier.
Proof.
  intros E. unfold _correlate_cleaned_data, cleaned_loop.
  rewrite !for_each_app. cbn [for_each].
  destruct (for_each before (initial_locals identifier) cleaned_entry) as [s|e];
    cbn [bind]; [|reflexivity].
  now rewrite (cleaned_entry_error s platform id d E).
Qed.

Lemma cleaned_timelines_bound (key_events : list (json * string)) (l : list json) :
  cleaned_timelines key_events = Ok l -> (length l <= 20)%nat.
Proof.
  unfold cleaned_timelines. intros H. bind_inv H.
  assert (E : forall x y : list json, Ok x = Ok y -> x = y) by (intros; congruence).
  apply E in H. subst l. rewrite length_map, length_firstn. lia.
Qed.

(** X19: The profile cleaned-data correlation returns is bounded: at most 50
    posts, 30 interests and 20 timeline entries; its profile type follows
    from the number of platforms in its usernames map: comprehensive from
    four on, moderate for two or three, limited below. *)
Theorem cleaned_profile_bounds (cleaned_results : list json) (identifier p : json) :
  _correlate_cleaned_data cleaned_results identifier = Ok p ->
  exists posts interests timelines usernames,
    get p "posts" = Ok (JList posts) /\ (length posts <= 50)%nat /\
    get p "possible_interests" = Ok (JList interests) /\ (length interests <= 30)%nat /\
    get p "key_timelines" = Ok (JList timelines) /\ (length timelines <= 20)%nat /\
    get p "usernames" = Ok (JDict usernames) /\
    get p "profile_type"
    = Ok (JStr (if (4 <=? length usernames)%nat then "comprehensive"
                else if (2 <=? length usernames)%nat then "moderate"
                else "limited")).
Proof.
  unfold _correlate_cleaned_data. intros H. bind_inv H.
  unfold cleaned_finish in H. bind_inv H. bind_inv H. bind_inv H. bind_inv H.
  injection H as <-.
  apply cleaned_timelines_bound in Ha3.
  exists (firstn 50 a2), (firstn 30 (set_order (l_interests a))).
  exists a3, (l_usernames a).
  split; [reflexivity|]. split; [rewrite length_firstn; lia|].
  split; [reflexivity|]. split; [rewrite length_firstn; lia|].
  split; [reflexivity|]. split; [exact Ha3|].
  split; [reflexivity|].
  cbn [get get_or dict_lookup dict_get String.eqb Ascii.eqb Bool.eqb].
  do 2 f_equal.
  destruct (Nat.leb_spec 4 (length (l_usernames a))),
           (Nat.leb_spec 2 (length (l_usernames a))),
           (Z.leb_spec 4 (Z.of_nat (length (l_usernames a)))),
           (Z.leb_spec 2 (Z.of_nat (length (l_usernames a))));
    try reflexivity; lia.
Qed.

End CleanedMoreProperties.

(* ===================================================================== *)
(** * Properties of the report helpers                                   *)
(* ===================================================================== *)

Section ReportProperties.
Context {F : PyFloat}.


Lemma sum_ints (k : string) (rs : list json) (acc : Z) :
  forallb (int_or_absent k) rs = true ->
  for_each (filter is_dict rs) (JInt acc)
    (fun acc r => s <- get_or r k (JInt 0) ;; py_add acc s)
  = Ok (JInt (acc + total k rs)).
Proof.
  revert acc. induction rs as [|r rs IH]; intros acc H.
  - cbn. now rewrite Z.add_0_r.
  - cbn [forallb] in H. apply andb_true_iff in H. destruct H as [Hr H].
    unfold total. cbn [map fold_right filter].
    destruct r as [| | | | | |e]; cbn [is_dict int_field];
      try (rewrite Z.add_0_l; now apply IH).
    cbn [for_each get_or bind]. cbn [int_or_absent] in Hr.
    destruct (dict_lookup e k (JInt 0)); try discriminate Hr.
    cbn [py_add as_int bind]. rewrite (IH _ H). unfold total. f_equal. f_equal. lia.
Qed.

Lemma py_add_number (a b r : json) :
  is_number a = true -> py_add a b = Ok r -> is_number r = true.
Proof.
  destruct a; try discriminate; intros _; destruct b; cbn; intros H;
    try discriminate H; injection H as <-; reflexivity.
Qed.

Lemma sum_number (k : string) (rs : list json) (acc r : json) :
  is_number acc = true ->
  for_each rs acc (fun acc r => s <- get_or r k (JInt 0) ;; py_add acc s) = Ok r ->
  is_number r = true.
Proof.
  revert acc. induction rs as [|x rs IH]; intros acc N H.
  - cbn in H. now injection H as <-.
  - cbn [for_each] in H. bind_inv H. bind_inv Ha.
    exact (IH a (py_add_number _ _ _ N Ha) H).
Qed.

(** X20: A repository whose stars are null, which the schema the models are
    given allows, makes [compute_counts] raise a TypeError: the default of
    [r.get("stars", 0)] stands in for a missing key only. *)
Theorem compute_counts_null_stars (d : dict) (before after : list json) (e : dict) :
  dict_lookup d "repositories" (JList []) = JList (before ++ JDict e :: after) ->
  forallb (int_or_absent "stars") before = true ->
  dict_get e "stars" = Some JNull ->
  compute_counts (JDict d) = Raise TypeError.
Proof.
  intros Hr Hb He. unfold compute_counts. cbn [get_or bind]. rewrite Hr.
  rewrite filter_app. cbn [filter is_dict]. rewrite for_each_app.
  rewrite (sum_ints "stars" before 0 Hb). cbn [bind for_each get_or].
  unfold dict_lookup. rewrite He. reflexivity.
Qed.

(** X21: When the stars and forks of every repository are ints or missing,
    [compute_counts] returns; the totals are the sums over the
    repositories that are dicts, while the number of repositories counts
    every member of the list. *)
Theorem compute_counts_totals (d : dict) (rs : list json) :
  dict_lookup d "repositories" (JList []) = JList rs ->
  forallb (int_or_absent "stars") rs = true ->
  forallb (int_or_absent "forks") rs = true ->
  exists us,
    extract_usernames (JDict d) = Ok us /\
    compute_counts (JDict d)
    = Ok (JDict [ ("usernames", JInt (Z.of_nat (length us)));
                  ("repos", JInt (Z.of_nat (length rs)));
                  ("total_stars", JInt (total "stars" rs));
                  ("total_forks", JInt (total "forks" rs));
                  ("connections",
                   match dict_lookup d "relationship_graph" JNull with
                   | JList g => JInt (Z.of_nat (length g))
                   | _ => JInt 0
                   end) ]).
Proof.
  intros Hr Hs Hf. destruct (extract_usernames_dict d) as [us Hu].
  exists us. split; [exact Hu|].
  unfold compute_counts. cbn [get_or bind]. rewrite Hr.
  rewrite (sum_ints "stars" rs 0 Hs), (sum_ints "forks" rs 0 Hf). cbn [bind].
  rewrite Hu. cbn [bind get get_or].
  unfold dict_lookup.
  destruct (dict_get d "relationship_graph") as [g|]; [|reflexivity].
  destruct g; reflexivity.
Qed.

Lemma compute_counts_shape (profile counts : json) :
  compute_counts profile = Ok counts ->
  exists d us stars forks connections,
    profile = JDict d /\
    extract_usernames profile = Ok us /\
    is_number stars = true /\
    counts = JDict [ ("usernames", py_len us);
                     ("repos", py_len match dict_lookup d "repositories" (JList []) with
                                      | JList l => l
                                      | _ => []
                                      end);
                     ("total_stars", stars);
                     ("total_forks", forks);
                     ("connections", JInt connections) ].
Proof.
  intros H. destruct profile as [| | | | | |d]; try discriminate H.
  unfold compute_counts in H. cbn [get_or bind] in H.
  bind_inv H. bind_inv H. bind_inv H. cbn [get get_or bind] in H.
  exists d, a1, a, a0.
  assert (N : is_number a = true).
  { apply (sum_number _ _ (JInt 0) _ eq_refl Ha). }
  assert (C : exists n, (if is_list (dict_lookup d "relationship_graph" JNull)
                         then Ok match dict_lookup d "relationship_graph" (JList []) with
                                 | JList l => py_len l
                                 | _ => JInt 0
                                 end
                         else Ok (JInt 0)) = Ok (JInt n)).
  { unfold dict_lookup. destruct (dict_get d "relationship_graph") as [g|]; [|now exists 0].
    destruct g; cbn [is_list]; eauto. unfold py_len. eauto. }
  destruct C as [n C]. rewrite C in H. cbn [bind] in H. injection H as <-.
  exists n. auto.
Qed.

Lemma py_gt_int_number (v : json) (n : Z) :
  is_number v = true -> exists b, py_gt_int v n = Ok b.
Proof. destruct v; try discriminate; cbn; eauto. Qed.

(** X22: The counts [compute_counts] returns for a profile are counts the rest
    of the report accepts: [derive_risk], [assess_threats] and
    [generate_recommendations] return on them, whatever the compromise
    flag and the risk passed along. *)
Theorem counts_feed_the_report (profile counts : json) :
  compute_counts profile = Ok counts ->
  (exists risk, derive_risk profile counts = Ok risk) /\
  (forall compromised,
     exists threats, assess_threats profile compromised counts = Ok threats) /\
  (forall risk compromised,
     exists recs, generate_recommendations profile risk compromised counts = Ok recs).
Proof.
  intros H.
  destruct (compute_counts_shape _ _ H) as (d & us & stars & forks & conn & -> & Hu & N & ->).
  split; [|split].
  - eapply derive_risk_returns; [reflexivity|reflexivity|reflexivity|exact N].
  - intros compromised. unfold assess_threats.
    cbn [item dict_get String.eqb Ascii.eqb Bool.eqb bind py_len py_gt_int as_int].
    rewrite Hu. cbn [bind]. eauto.
  - intros risk compromised. unfold generate_recommendations.
    cbn [item dict_get String.eqb Ascii.eqb Bool.eqb bind py_len py_gt_int as_int].
    rewrite Hu. cbn [bind]. eauto.
Qed.

Lemma risk_level_from_50 (a b c : bool) :
  risk_level (50 + (if a then 15 else 0) + (if b then 10 else 0) + (if c then 5 else 0))
  = if a || b then "critical" else "high".
Proof. destruct a, b, c; reflexivity. Qed.

(** X23: For a profile marked compromised the level is never below high; it
    is critical exactly when the profile has three usernames or more, or
    ten repositories or more: popular repositories alone do not raise it.
    The reason starts with the compromise. *)
Theorem derive_risk_compromised (profile counts c repos r : json) (us : list json)
    (many : bool) :
  get profile "compromised" = Ok c ->
  truthy c = true ->
  extract_usernames profile = Ok us ->
  item counts "repos" = Ok repos ->
  py_ge_int repos 10 = Ok many ->
  derive_risk profile counts = Ok r ->
  get r "level"
  = Ok (JStr (if (3 <=? Z.of_nat (length us)) || many then "critical" else "high")) /\
  exists rest, get r "reason" = Ok (JStr ("Compromise detected" ++ rest)).
Proof.
  intros Hc Tc Hu Hr Hm H. unfold derive_risk, risk_points in H.
  rewrite Hc in H. cbn [bind] in H. rewrite Tc, Hu in H. cbn [bind] in H.
  rewrite Hr in H. cbn [bind] in H. rewrite Hm in H. cbn [bind] in H.
  bind_inv H.
  destruct (3 <=? Z.of_nat (length us)), many; cbn [orb] in *;
    bind_inv Ha; bind_inv Ha; rename a1 into popular; destruct popular;
    injection Ha as <-; injection H as <-; (split; [reflexivity|]); cbn; eauto.
Qed.

(** X24: The priority [assess_threats] gives is critical exactly when the
    compromise flag is truthy; without it the priority is high only when
    there are repositories, more than ten connections and three usernames
    or more together, and medium otherwise.  The concerns are never an
    empty text. *)
Theorem assess_threats_priority (profile compromised counts repos connections t : json)
    (us : list json) (some_code networked : bool) :
  item counts "repos" = Ok repos ->
  py_gt_int repos 0 = Ok some_code ->
  item counts "connections" = Ok connections ->
  py_gt_int connections 10 = Ok networked ->
  extract_usernames profile = Ok us ->
  assess_threats profile compromised counts = Ok t ->
  get t "priority"
  = Ok (JStr (if truthy compromised then "critical"
              else if some_code && networked && (3 <=? Z.of_nat (length us)) then "high"
              else "medium")) /\
  exists concerns, get t "concerns" = Ok (JStr concerns) /\ concerns <> EmptyString.
Proof.
  intros Hr Hs Hc Hn Hu H. unfold assess_threats in H.
  rewrite Hr in H. cbn [bind] in H. rewrite Hs in H. cbn [bind] in H.
  rewrite Hc in H. cbn [bind] in H. rewrite Hn in H. cbn [bind] in H.
  rewrite Hu in H. cbn [bind] in H. injection H as <-.
  destruct (truthy compromised), some_code, networked, (3 <=? Z.of_nat (length us));
    (split; [reflexivity|]); eexists; (split; [reflexivity|]); discriminate.
Qed.


(** X25: The recommendations always end with the standing one, after at most
    six others, so the low-risk Assessment entry the function keeps for an
    empty list is never returned. *)
Theorem recommendations_end_with_monitoring (profile risk compromised counts : json)
    (recs : list json) :
  generate_recommendations profile risk compromised counts = Ok recs ->
  exists earlier,
    recs = (earlier ++ [ONGOING])%list /\
    (length earlier <= 6)%nat /\
    (truthy compromised = true <-> hd_error (map label_of recs) = Some (JStr "1. CRITICAL")) /\
    ~ In (JStr "Assessment") (map label_of recs).
Proof.
  intros H. unfold generate_recommendations in H.
  bind_inv H. bind_inv H. bind_inv H. bind_inv H. bind_inv H.
  rename a0 into some_code, a1 into us, a3 into connected. cbv zeta in H.
  match type of H with
  | Ok (match (?e ++ [_])%list with _ => _ end) = _ => set (earlier := e) in H
  end.
  assert (E : recs = (earlier ++ [ONGOING])%list).
  { destruct earlier; injection H as <-; reflexivity. }
  exists earlier. split; [exact E|]. rewrite E. unfold earlier.
  destruct (truthy compromised), some_code, (3 <=? Z.of_nat (length us)), connected;
    cbn; (split; [lia|]); (split; [split; congruence|]); intuition discriminate.
Qed.

(** X26: [generate_pivots] returns for every profile dict and list of
    usernames; what it returns ends with the timeline pivot, after at most
    four others, so the Limited Data entry it keeps for an empty list is
    never returned.  The username pivot comes first exactly when there is
    a username. *)
Theorem pivots_end_with_timeline (d : dict) (usernames : list json) :
  exists earlier,
    generate_pivots (JDict d) (JList usernames)
    = Ok ((earlier ++ [TIMELINE_ANALYSIS])%list) /\
    (length earlier <= 4)%nat /\
    (usernames <> [] <->
     hd_error (map label_of earlier) = Some (JStr "Username Cross-Reference")) /\
    ~ In (JStr "Limited Data") (map label_of (earlier ++ [TIMELINE_ANALYSIS])).
Proof.
  unfold generate_pivots. cbn [get_or bind].
  set (repos := dict_lookup d "repositories" (JList [])).
  set (connections := dict_lookup d "relationship_graph" (JList [])).
  set (emails := dict_lookup d "emails" (JList [])).
  destruct usernames as [|u us]; cbn [truthy index0 bind app];
    destruct (is_list repos && truthy repos);
    destruct connections as [| | | | |[|c cs]|]; cbn [app];
    destruct emails as [| | | | |[|e es]|]; cbn [andb is_list truthy index0 bind app];
    match goal with
    | |- exists e, Ok ?l = _ /\ _ => exists (removelast l)
    end;
    (split; [reflexivity|]); cbn;
    (split; [lia|]); (split; [split; congruence|]); intuition discriminate.
Qed.

End ReportProperties.

(* ===================================================================== *)
(** * Properties of the indicator items                                  *)
(* ===================================================================== *)

Section IocProperties.
Context {F : PyFloat}.

Lemma platform_urls_return (us : dict) (acc : list json) :
  exists urls, for_each us acc platform_url = Ok urls.
Proof.
  revert acc. induction us as [|[k data] us IH]; intros acc; cbn [for_each].
  - eauto.
  - destruct data as [| | | | | |e]; cbn [platform_url bind]; try apply IH.
    destruct (dict_has e "url") eqn:Hh; [|apply IH].
    unfold dict_has in Hh. cbn [item].
    destruct (dict_get e "url"); [|discriminate]. cbn [bind]. apply IH.
Qed.

Lemma repo_urls_return (rs acc : list json) :
  exists urls,
    for_each rs acc
      (fun acc r =>
         match r with
         | JDict e =>
             if dict_has e "url" then u <- get r "url" ;; Ok (acc ++ [u])%list
             else Ok acc
         | _ => Ok acc
         end) = Ok urls.
Proof.
  revert acc. induction rs as [|r rs IH]; intros acc; cbn [for_each].
  - eauto.
  - destruct r as [| | | | | |e]; cbn [bind]; try apply IH.
    destruct (dict_has e "url"); cbn [get get_or bind]; apply IH.
Qed.

Lemma format_list_returns (l : list json) : exists v, format_list (JList l) = Ok v.
Proof.
  unfold format_list. destruct (negb (truthy (JList l))); [eauto|].
  cbn [py_take py_iter bind]. eauto.
Qed.

(** X27: [build_ioc_items] returns on every profile that is a dict, whatever
    its fields hold: at most four items, each under one of the four labels
    and no label twice. *)
Theorem build_ioc_items_returns (d : dict) :
  exists items,
    build_ioc_items (JDict d) = Ok items /\
    (length items <= 4)%nat /\
    NoDup (map label_of items) /\
    Forall (fun l => In l (map JStr IOC_LABELS)) (map label_of items).
Proof.
  unfold build_ioc_items. destruct (extract_usernames_dict d) as [us ->].
  cbn [bind get_or].
  set (emails := dict_lookup d "emails" (JList [])).
  set (usernames_obj := dict_lookup d "usernames" (JDict [])).
  set (repos := dict_lookup d "repositories" (JList [])).
  assert (U : exists urls,
             match usernames_obj with
             | JDict us => for_each us ([] : list json) platform_url
             | _ => Ok []
             end = Ok urls).
  { destruct usernames_obj; eauto using platform_urls_return. }
  destruct U as [urls ->].
  assert (A : exists a, (match us with
                         | [] => Ok []
                         | _ => v <- format_list (JList us) ;;
                                Ok ([] ++ [labelled "Usernames" v])%list
                         end) = Ok a /\
                        (a = [] \/ exists v, a = [labelled "Usernames" v])).
  { destruct us as [|u us]; [eauto|].
    destruct (format_list_returns (u :: us)) as [v ->]. cbn [bind app]. eauto. }
  destruct A as (a & -> & Ha). cbn [bind].
  assert (B : exists b, (if is_list emails && truthy emails
                         then v <- format_list emails ;;
                              Ok (a ++ [labelled "Email Addresses" v])%list
                         else Ok a) = Ok b /\
                        (b = a \/ exists v, b = (a ++ [labelled "Email Addresses" v])%list)).
  { destruct emails as [| | | | |l|]; cbn [is_list andb]; eauto.
    destruct (truthy (JList l)); [|eauto].
    destruct (format_list_returns l) as [v ->]. cbn [bind]. eauto. }
  destruct B as (b & -> & Hb). cbn [bind].
  assert (C : exists c, (match urls with
                         | [] => Ok b
                         | _ => v <- format_list (JList urls) ;;
                                Ok (b ++ [labelled "Platform URLs" v])%list
                         end) = Ok c /\
                        (c = b \/ exists v, c = (b ++ [labelled "Platform URLs" v])%list)).
  { destruct urls as [|u urls]; [eauto|].
    destruct (format_list_returns (u :: urls)) as [v ->]. cbn [bind]. eauto. }
  destruct C as (c & -> & Hc). cbn [bind].
  assert (D : exists i, (match repos with
                         | JList (r :: rs) =>
                             repo_urls <-
                               for_each (r :: rs) ([] : list json)
                                 (fun acc r =>
                                    match r with
                                    | JDict e =>
                                        if dict_has e "url"
                                        then u <- get r "url" ;; Ok (acc ++ [u])%list
                                        else Ok acc
                                    | _ => Ok acc
                                    end) ;;
                             match repo_urls with
                             | [] => Ok c
                             | _ => v <- format_list (JList (firstn 5 repo_urls)) ;;
                                    Ok (c ++ [labelled "Repository URLs" v])%list
                             end
                         | _ => Ok c
                         end) = Ok i /\
                        (i = c \/ exists v, i = (c ++ [labelled "Repository URLs" v])%list)).
  { destruct repos as [| | | | |[|r rs]|]; eauto.
    destruct (repo_urls_return (r :: rs) []) as [ru ->]. cbn [bind].
    destruct ru as [|u ru]; [eauto|].
    destruct (format_list_returns (firstn 5 (u :: ru))) as [v ->]. cbn [bind]. eauto. }
  destruct D as (i & -> & Hi).
  exists i. split; [reflexivity|].
  destruct Ha as [->|[v1 ->]]; destruct Hb as [->|[v2 ->]];
    destruct Hc as [->|[v3 ->]]; destruct Hi as [->|[v4 ->]];
    cbn; (split; [lia|]);
    (split; [repeat (apply NoDup_cons; [cbn; intuition discriminate|]); apply NoDup_nil
            |repeat (apply Forall_cons; [cbn; tauto|]); apply Forall_nil]).
Qed.

End IocProperties.

(* ===================================================================== *)
(** * Concrete runs                                                      *)
(* ===================================================================== *)

#[local] Existing Instance no_floats.
#[local] Existing Instance plain_runtime.

(** ** Coercion twice *)

(** C2 as stated fails: the first pass keeps the empty handle, the second
    turns it into null. *)
Lemma coerce_not_idempotent :
  exists p q,
    _coerce_profile_schema falsy_handle_input = Ok p /\
    _coerce_profile_schema p = Ok q /\
    p <> q.
Proof.
  eexists. eexists. split; [vm_compute; reflexivity|].
  split; [vm_compute; reflexivity|]. discriminate.
Qed.

(** A profile with settled handles, coerced twice. *)
Lemma coerce_idempotent_when_settled_witness :
  exists p,
    _coerce_profile_schema settled_input = Ok p /\
    handles_settled p = true /\
    _coerce_profile_schema p = Ok p.
Proof.
  eexists. split; [vm_compute; reflexivity|].
  split; [vm_compute; reflexivity|].
  apply (coerce_idempotent_when_settled settled_input);
    vm_compute; reflexivity.
Defined.


(** ** The counts of the scenario *)

(** [compute_counts] raises on the profile the scenario's documents give:
    the repository's [forks] entry is there and null, so
    [r.get("forks", 0)] is null and [sum] adds it to 0.  The counts
    [derive_risk] is given in the scenario are therefore written out
    ([scenario_counts]). *)
Lemma scenario_counts_not_computed :
  (p <- _rule_based_correlation scenario_documents (JStr "alice") ;;
   compute_counts p) = Raise TypeError.
Proof. vm_compute. reflexivity. Qed.

(** ** Posts of the rule-based algorithm *)

(** C3 fails on the rule-based algorithm: it returns every post it
    gathered, here two posts titled "Hello".  The cleaned-data algorithm
    keeps the first of a title ([cleaned_posts_deduplicated]). *)
Lemma rule_based_keeps_repeated_titles :
  exists p first second,
    _rule_based_correlation (JList repeated_tweets) (JStr "alice") = Ok p /\
    get p "posts" = Ok (JList [first; second]) /\
    title_of first = JStr "Hello" /\
    title_of second = JStr "Hello".
Proof.
  eexists. eexists. eexists.
  split; [vm_compute; reflexivity|].
  split; [vm_compute; reflexivity|].
  split; reflexivity.
Qed.

(** ** The name of the rule-based algorithm *)



(** ** Risk of a profile that is not compromised *)

(** The three rules that do not read the compromise flag add up to 30,
    level medium. *)
Lemma derive_risk_uncompromised_witness :
  exists r,
    get busy_profile "compromised" = Ok (JBool false) /\
    derive_risk busy_profile busy_counts = Ok r /\
    get r "level" = Ok (JStr "medium") /\
    exists score reasons,
      risk_points busy_profile busy_counts = Ok (score, reasons) /\
      score <= 15 + 10 + 5 /\
      (get r "level" = Ok (JStr "low") \/ get r "level" = Ok (JStr "medium")) /\
      get r "level" <> Ok (JStr "high") /\
      get r "level" <> Ok (JStr "critical").
Proof.
  eexists. split; [reflexivity|].
  split; [vm_compute; reflexivity|].
  split; [reflexivity|].
  apply (proj1 (derive_risk_uncompromised busy_profile busy_counts (JBool false)
                  eq_refl eq_refl)).
  vm_compute. reflexivity.
Defined.

(** ** Runs against a scripted outside world *)

(** *** A rate limit, then an answer that is not JSON *)

(** C5 as stated fails: the run ends with the second model's diagnostic
    error; the third model, which would have answered with JSON, is never
    called. *)
Lemma parse_error_is_returned :
  exists r third,
    run_correlation prose_world "fast" EmptyString JNull DEFAULT_MONGO_URI
      (Some "openrouter") true (Some "model-a")
    = (Ok r, [ BackendChosen (Some "openrouter"); Called "model-a";
               Called "nex-agi/deepseek-v3.1-nex-n1:free" ]) /\
    get r "error" = Ok (JStr "Model did not return valid JSON") /\
    get r "model_used" = Ok (JStr "nex-agi/deepseek-v3.1-nex-n1:free") /\
    nth_error (_build_openrouter_model_list prose_world (Some "model-a")) 2
    = Some "tngtech/deepseek-r1t2-chimera:free" /\
    attempt_once prose_world "prompt" true "openrouter" (Some "model-a")
      "tngtech/deepseek-r1t2-chimera:free" 2 = Ok third /\
    get third "model_used" = Ok (JStr "tngtech/deepseek-r1t2-chimera:free") /\
    get third "error" = Ok JNull.
Proof.
  eexists. eexists.
  split; [vm_compute; reflexivity|].
  split; [reflexivity|].
  split; [reflexivity|].
  split; [reflexivity|].
  split; [vm_compute; reflexivity|].
  split; reflexivity.
Qed.

(** The same two answers, seen from the loop over the models. *)
Lemma parse_error_ends_fallback_witness :
  let run :=
    try_models prose_world "prompt" true "openrouter" (Some "model-a")
      [ "model-a"; "nex-agi/deepseek-v3.1-nex-n1:free";
        "tngtech/deepseek-r1t2-chimera:free" ]
      (mkProgress None None []) in
  trace run = [Called "model-a"; Called "nex-agi/deepseek-v3.1-nex-n1:free"] /\
  exists r,
    returned run = Some r /\
    get r "error" = Ok (JStr "Model did not return valid JSON") /\
    get r "model_used" = Ok (JStr "nex-agi/deepseek-v3.1-nex-n1:free").
Proof.
  apply (parse_error_ends_fallback prose_world "prompt" true "openrouter"
           (Some "model-a") "model-a" "nex-agi/deepseek-v3.1-nex-n1:free"
           ["tngtech/deepseek-r1t2-chimera:free"] (mkProgress None None [])
           (LibraryError "Error code: 429 - Rate limit exceeded")
           (Some "Sorry, I cannot help with that."));
    vm_compute; reflexivity.
Defined.

(** *** Errors of both classes *)

(** C6 as stated fails: the text carries "503" and "Service Unavailable"
    and none of "429", "rate limit" and "overloaded", and the model is
    called once, with no sleep: "capacity" is a capacity token of the code,
    and the capacity tokens are looked for first. *)
Lemma capacity_503_is_not_retried :
  Str.contains "503" busy_message = true /\
  Str.contains "Service Unavailable" busy_message = true /\
  existsb (fun tok => Str.contains tok busy_message)
    ["429"; "rate limit"; "overloaded"] = false /\
  try_model busy_world "prompt" true "openrouter" None "model-a"
    MAX_RETRIES 0 INITIAL_BACKOFF (mkProgress None None [])
  = mkProgress None (Some busy_message) [Called "model-a"].
Proof. repeat split; vm_compute; reflexivity. Qed.

(** A model that is unavailable three times: two sleeps, 0.8s and 1.6s,
    then the next model. *)
Lemma retry_policy_witness :
  try_model unavailable_world "prompt" true "openrouter" None "model-a"
    MAX_RETRIES 0 INITIAL_BACKOFF (mkProgress None None [])
  = mkProgress None (Some unavailable_message)
      [Called "model-a"; Slept 0.8; Called "model-a"; Slept (0.8 * 2.0);
       Called "model-a"]
  /\ (0.8 * 2.0 == 1.6)%Q.
Proof.
  apply (proj2 (proj2 (retry_policy unavailable_world "prompt" true "openrouter"
                         None "model-a" (mkProgress None None [])))
           (LibraryError unavailable_message) (LibraryError unavailable_message)
           (LibraryError unavailable_message));
    vm_compute; reflexivity.
Defined.

(** *** The self mode *)


(** *** A deep clean that succeeds *)

(** C9 fails on this run: GitHub is cleaned and stored, the run reports
    [complete], and the profile it returns has the canonical keys and no
    [_deep_clean_meta]. *)
Lemma deep_clean_run_loses_meta :
  exists d tr,
    run_deep_clean_correlation clean_world (JStr "alice") DEFAULT_MONGO_URI None
    = (JDict d, tr) /\
    In (Stored "github") tr /\
    last tr (Stored EmptyString)
    = Reported "complete" EmptyString "Deep clean correlation complete!" /\
    dict_get d "links" = Some (JDict [("github", JStr "https://github.com/alice")]) /\
    dict_keys d = dict_keys CANONICAL_KEYS /\
    dict_get d "_deep_clean_meta" = None.
Proof.
  eexists. eexists.
  split; [vm_compute; reflexivity|].
  split; [cbn; tauto|].
  repeat split; reflexivity.
Qed.

(** ** The text of an answer and of a prompt *)

(** The object is taken out of the sentence around it. *)
Lemma clean_model_text_extracts_object_witness :
  clean_model_text (Some prose_around_object) = "{" ++ q "name" ++ ": null" ++ "}".
Proof.
  apply (clean_model_text_extracts_object "Here is the profile: " (q "name" ++ ": null")
           " Done."); vm_compute; reflexivity.
Defined.


(** A self-mode prompt holds the data and the instruction. *)
Lemma prompt_embeds_data_witness :
  is_osint_prompt "analyze the accounts" = true /\
  Str.contains "(data)"
    (build_prompt error_object_text "self" "(data)" "analyze the accounts") = true /\
  Str.contains SCHEMA_DESCRIPTION
    (build_prompt error_object_text "self" "(data)" "analyze the accounts") = true /\
  ("self" = "self" ->
   Str.contains "analyze the accounts"
     (build_prompt error_object_text "self" "(data)" "analyze the accounts") = true).
Proof.
  split; [vm_compute; reflexivity|].
  apply (prompt_embeds_data error_object_text "self" "(data)" "analyze the accounts").
  intros _. vm_compute. reflexivity.
Defined.

(** Two timeline entries: the summary names the two events. *)
Lemma timeline_summary_names_events_witness :
  format_timeline_summary
    (JList [JStr "2020-01-01: Joined GitHub"; JStr "2021-05-05: Posted a tweet"])
  = Ok "Activity span from Joined GitHub to Posted a tweet".
Proof.
  apply (timeline_summary_names_events (JStr "2020-01-01: Joined GitHub")
           [JStr "2021-05-05: Posted a tweet"]
           "2020-01-01" "Joined GitHub" "2021-05-05" "Posted a tweet");
    vm_compute; reflexivity.
Defined.

(** ** Coercion field by field *)


(** The wrapper is coerced as the profile it holds. *)
Lemma coerce_unwraps_once_witness :
  _coerce_profile_schema (JDict wrapped_profile)
  = _coerce_profile_schema (JDict plain_profile).
Proof.
  apply (coerce_unwraps_once wrapped_profile plain_profile);
    [left; reflexivity|reflexivity|reflexivity].
Defined.

(** ** Runs where no model answers *)

(** Every model is busy: the error object lists the eight models tried. *)
Lemma all_models_failing_witness :
  truthy (openrouter_key busy_world DEFAULT_MONGO_URI) = true /\
  get (fst (run_remote busy_world "prompt" true "openrouter" (Some "model-a") []))
      "models_tried"
  = Ok (JList (map JStr (_build_openrouter_model_list busy_world (Some "model-a")))) /\
  (length (_build_openrouter_model_list busy_world (Some "model-a")) = 7)%nat.
Proof.
  split; [reflexivity|]. split; [|reflexivity].
  apply (all_models_failing busy_world "prompt" true "openrouter" (Some "model-a") []);
    [reflexivity|].
  intros n m. eexists. reflexivity.
Defined.


(** An empty database: the deep clean ends without a call. *)
Lemma deep_clean_without_data_witness :
  fst (run_deep_clean_correlation open_world (JStr "alice") DEFAULT_MONGO_URI None)
  = JDict [ ("error", JStr "No data found to clean for identifier: alice");
            ("platforms_checked", JList (map JStr platform_collections)) ] /\
  calls_made
    (snd (run_deep_clean_correlation open_world (JStr "alice") DEFAULT_MONGO_URI None))
  = 0%nat.
Proof.
  destruct (deep_clean_without_data open_world (JStr "alice") DEFAULT_MONGO_URI None
              eq_refl (fun platform _ => or_introl eq_refl)) as (E & C & _).
  split; [exact E|exact C].
Defined.

(** ** Cleaned documents *)

(** A document that could not be cleaned changes nothing. *)
Lemma failed_cleaning_is_ignored_witness :
  _correlate_cleaned_data (failed_document :: cleaned_names) (JStr "alice")
  = _correlate_cleaned_data cleaned_names (JStr "alice").
Proof.
  apply (failed_cleaning_is_ignored [] cleaned_names "github" (JStr "alice")
           (JStr "alice")
           [ ("error", JStr "Failed to clean data");
             ("raw_preserved", JDict [("name", JStr "Mallory")]);
             ("_platform", JStr "github") ]).
  reflexivity.
Defined.

(** Two platforms: a moderate profile. *)
Lemma cleaned_profile_bounds_witness :
  exists p,
    _correlate_cleaned_data cleaned_names (JStr "alice") = Ok p /\
    get p "profile_type" = Ok (JStr "moderate").
Proof.
  eassert (H : _correlate_cleaned_data cleaned_names (JStr "alice") = Ok _)
    by (vm_compute; reflexivity).
  destruct (cleaned_profile_bounds cleaned_names (JStr "alice") _ H)
    as (posts & interests & timelines & usernames & _ & _ & _ & _ & _ & _ & U & T).
  eexists. split; [exact H|].
  vm_compute in U. injection U as <-. exact T.
Defined.

(** ** Counts, risk and recommendations *)

(** Null stars on the second repository. *)
Lemma compute_counts_null_stars_witness :
  compute_counts (JDict null_stars_profile) = Raise TypeError.
Proof.
  apply (compute_counts_null_stars null_stars_profile
           [JDict [("name", JStr "tool"); ("stars", JInt 3)]]
           [] [("name", JStr "site"); ("stars", JNull)]); reflexivity.
Defined.

(** Three members, two of them repositories: seven stars, one fork. *)
Lemma compute_counts_totals_witness :
  compute_counts (JDict counted_profile)
  = Ok (JDict [ ("usernames", JInt 1); ("repos", JInt 3); ("total_stars", JInt 7);
                ("total_forks", JInt 1); ("connections", JInt 2) ]).
Proof.
  destruct (compute_counts_totals counted_profile
              [ JDict [("stars", JInt 3); ("forks", JInt 1)];
                JStr "not a repository";
                JDict [("stars", JInt 4)] ] eq_refl eq_refl eq_refl) as (us & Hu & H).
  vm_compute in Hu. injection Hu as <-. exact H.
Defined.

(** The counts of a profile go through the risk derivation. *)
Lemma counts_feed_the_report_witness :
  exists counts risk,
    compute_counts (JDict counted_profile) = Ok counts /\
    derive_risk (JDict counted_profile) counts = Ok risk.
Proof.
  eassert (H : compute_counts (JDict counted_profile) = Ok _)
    by (vm_compute; reflexivity).
  destruct (proj1 (counts_feed_the_report _ _ H)) as [risk Hr].
  eexists. exists risk. split; [exact H|exact Hr].
Defined.

(** Compromised, one account, two repositories with a hundred stars:
    high, not critical. *)
Lemma derive_risk_compromised_witness :
  exists r,
    derive_risk breached_profile starred_counts = Ok r /\
    get r "level" = Ok (JStr "high").
Proof.
  eassert (H : derive_risk breached_profile starred_counts = Ok _)
    by (vm_compute; reflexivity).
  eexists. split; [exact H|].
  apply (proj1 (derive_risk_compromised breached_profile starred_counts (JBool true)
                  (JInt 2) _ [JStr "alice"] false
                  eq_refl eq_refl eq_refl eq_refl eq_refl H)).
Defined.

(** Not compromised, with repositories, eleven connections and three
    accounts: high. *)
Lemma assess_threats_priority_witness :
  exists t,
    assess_threats busy_profile (JBool false) networked_counts = Ok t /\
    get t "priority" = Ok (JStr "high").
Proof.
  eassert (H : assess_threats busy_profile (JBool false) networked_counts = Ok _)
    by (vm_compute; reflexivity).
  eexists. split; [exact H|].
  apply (proj1 (assess_threats_priority busy_profile (JBool false) networked_counts
                  (JInt 10) (JInt 11) _
                  [JStr "alice"; JStr "alice_t"; JStr "alice_r"] true true
                  eq_refl eq_refl eq_refl eq_refl eq_refl H)).
Defined.

(** Four recommendations before the standing one. *)
Lemma recommendations_end_with_monitoring_witness :
  exists recs earlier,
    generate_recommendations busy_profile JNull (JBool false) networked_counts = Ok recs /\
    recs = (earlier ++ [ONGOING])%list /\
    length earlier = 4%nat.
Proof.
  eassert (H : generate_recommendations busy_profile JNull (JBool false) networked_counts
               = Ok _) by (vm_compute; reflexivity).
  destruct (recommendations_end_with_monitoring _ _ _ _ _ H) as (earlier & E & _).
  eexists. exists earlier. split; [exact H|]. split; [exact E|].
  apply (f_equal (@length json)) in E. rewrite length_app in E. cbn in E. lia.
Defined.
